(** * agents-analyze: the codebase analysis engine

    A shallow embedding of [bin/agents-analyze.js]: the tree walker
    ([scanDirectory]), the file categorizer ([categorizeFiles]), the
    convention inferencer ([analyzeNamingConventions]), the manifest
    inspector ([analyzePackageJson]), the two renderers
    ([generateAnalysisReport], [generateProjectContext]) and the framework
    check of the verifier ([verifyConfiguration]); then the analysis of
    the TypeScript configuration ([analyzeTypeScriptConfig]), the loading
    of the persisted configuration ([loadProjectConfig]), the detection
    of agent files and key files, the whole verifier, the assembly of the
    profile in [main], and, of [bin/agents-init.js], the detection and
    the persisted configuration it writes.

    JavaScript strings are modelled as [string] (a file name is its UTF-8
    bytes: every test the program makes on a name is on ASCII characters),
    [null] as [None] or [VNull], arrays as lists, objects read from JSON
    as lists of properties, a thrown exception as the [Throw] completion.
    Code that mutates an object and may throw ([analysis], [results],
    [lines], [warnings]) is written in a state monad in which the
    mutations made before a throw stay, as they do in the language; the
    file system and the clock are arguments. The console is left out.

    Two limits of the engine are arguments as well, since the program
    meets them on inputs it can get: [maxArgs], the number of arguments
    a call takes (a spread of more throws a [RangeError], which the
    [catch] of the walk takes), and [stackDepth], the number of nested
    arrays the conversion to a string goes through before the stack is
    full (a [RangeError] again). The length of a string and the memory
    have no limit here.

    The definitions come first: the model of the code, the rule tables
    and counts the statements refer to, and the inputs of the examples;
    the properties follow, component by component. *)

From Stdlib Require Import List String Ascii Bool Arith NArith Lia.
From Stdlib Require Import DecimalString.

#[local] Set Warnings "-register-all".
Import ListNotations.
Open Scope string_scope.
Open Scope bool_scope.

(* ===================================================================== *)
(** * JavaScript string primitives *)
(* ===================================================================== *)

Module JsString.

(** [s.startsWith(p)] *)
Definition startsWith (s p : string) : bool := String.prefix p s.

(** [s.includes(needle)] *)
Fixpoint includes (s needle : string) : bool :=
  String.prefix needle s ||
  match s with
  | EmptyString => false
  | String _ s' => includes s' needle
  end.

(** [s.endsWith(p)] *)
Definition endsWith (s p : string) : bool :=
  let n := String.length s in
  let m := String.length p in
  Nat.leb m n && String.eqb (String.substring (n - m) m s) p.

(** [s.split(c)] for a separator of one character. *)
Fixpoint split (c : ascii) (s : string) : list string :=
  match s with
  | EmptyString => [EmptyString]
  | String a s' =>
      if Ascii.eqb a c then EmptyString :: split c s'
      else match split c s' with
           | [] => [String a EmptyString]
           | w :: ws => String a w :: ws
           end
  end.

(** [s.split(c)[0]]: the result of [split] is never empty. *)
Definition split0 (c : ascii) (s : string) : string :=
  hd EmptyString (split c s).

(** ['\n'] *)
Definition newline : string := String "010" EmptyString.

(** [parts.join(sep)] *)
Definition join (sep : string) (parts : list string) : string :=
  String.concat sep parts.

Definition is_upper (a : ascii) : bool :=
  Ascii.leb "A" a && Ascii.leb a "Z".
Definition is_lower (a : ascii) : bool :=
  Ascii.leb "a" a && Ascii.leb a "z".
Definition is_digit (a : ascii) : bool :=
  Ascii.leb "0" a && Ascii.leb a "9".

(** [s.toLowerCase()], on the ASCII letters. *)
Definition lower_ascii (a : ascii) : ascii :=
  if is_upper a then ascii_of_nat (nat_of_ascii a + 32) else a.

Fixpoint toLowerCase (s : string) : string :=
  match s with
  | EmptyString => EmptyString
  | String a s' => String (lower_ascii a) (toLowerCase s')
  end.

Fixpoint forallb_string (p : ascii -> bool) (s : string) : bool :=
  match s with
  | EmptyString => true
  | String a s' => p a && forallb_string p s'
  end.

(** Template-literal rendering of a non-negative integer. *)
Definition of_nat (n : nat) : string :=
  NilEmpty.string_of_uint (Nat.to_uint n).

Definition of_N (n : N) : string :=
  NilEmpty.string_of_uint (N.to_uint n).

End JsString.

Import JsString.

(* ===================================================================== *)
(** * Node's [path] module, POSIX flavour *)
(* ===================================================================== *)

Module Path.

Definition slash : ascii := "/"%char.
Definition dot : ascii := "."%char.

Definition is_slash (a : ascii) : bool := Ascii.eqb a slash.
Definition is_dot (a : ascii) : bool := Ascii.eqb a dot.

Fixpoint dropWhile {A} (p : A -> bool) (l : list A) : list A :=
  match l with
  | [] => []
  | x :: l' => if p x then dropWhile p l' else l
  end.

Fixpoint takeWhile {A} (p : A -> bool) (l : list A) : list A :=
  match l with
  | [] => []
  | x :: l' => if p x then x :: takeWhile p l' else []
  end.

(** [path.basename(p)]: the last portion of the path, trailing
    separators ignored. *)
Definition basename (p : string) : string :=
  let r := dropWhile is_slash (rev (list_ascii_of_string p)) in
  string_of_list_ascii (rev (takeWhile (fun a => negb (is_slash a)) r)).

(** [path.extname(p)]: from the last dot of the last portion to its end;
    empty when there is no dot, when the only dot is the first character,
    and for the portion [".."]. *)
Definition extname (p : string) : string :=
  let base := basename p in
  let r := rev (list_ascii_of_string base) in
  let after := takeWhile (fun a => negb (is_dot a)) r in
  match dropWhile (fun a => negb (is_dot a)) r with
  | [] => EmptyString                         (* no dot *)
  | _ :: before =>
      match before with
      | [] => EmptyString                     (* ".bashrc" *)
      | _ =>
          if String.eqb base ".." then EmptyString
          else string_of_list_ascii (dot :: rev after)
      end
  end.

(** [path.basename(p, suffix)]: the suffix is removed when the last
    portion ends with it and is not equal to it. The engine passes the
    extension of [p], which is empty or a proper suffix of the last
    portion. *)
Definition basename_suffix (p suffix : string) : string :=
  if (String.length suffix =? 0)%nat
     || negb (String.length suffix <=? String.length p)%nat
  then basename p
  else if String.eqb suffix p then EmptyString
  else
    let base := basename p in
    if endsWith base suffix && negb (String.eqb base suffix)
    then String.substring 0 (String.length base - String.length suffix) base
    else base.

(** The segment stack of [normalizeString]: empty and ["."] segments are
    dropped, [".."] removes the segment before it (and is kept, above the
    start of a relative path, when [allowAboveRoot]). *)
Fixpoint normalizeSegments (allowAboveRoot : bool)
         (stack : list string) (segs : list string) : list string :=
  match segs with
  | [] => rev stack
  | seg :: segs' =>
      if String.eqb seg "" || String.eqb seg "." then
        normalizeSegments allowAboveRoot stack segs'
      else if String.eqb seg ".." then
        match stack with
        | top :: below =>
            if String.eqb top ".."
            then normalizeSegments allowAboveRoot (".." :: stack) segs'
            else normalizeSegments allowAboveRoot below segs'
        | [] =>
            if allowAboveRoot
            then normalizeSegments allowAboveRoot [".."] segs'
            else normalizeSegments allowAboveRoot [] segs'
        end
      else normalizeSegments allowAboveRoot (seg :: stack) segs'
  end.

Definition isAbsolute (p : string) : bool := startsWith p "/".

(** [path.normalize(p)] *)
Definition normalize (p : string) : string :=
  if (String.length p =? 0)%nat then "." else
  let abs := isAbsolute p in
  let trailing := endsWith p "/" in
  let body := join "/" (normalizeSegments (negb abs) [] (split slash p)) in
  if (String.length body =? 0)%nat then
    if abs then "/" else if trailing then "./" else "."
  else
    let body := if trailing then body ++ "/" else body in
    if abs then "/" ++ body else body.

(** [path.join(a, b)]: empty arguments are skipped, the rest is joined
    by a separator and normalized. *)
Definition join2 (a b : string) : string :=
  if (String.length a =? 0)%nat then
    if (String.length b =? 0)%nat then "." else normalize b
  else if (String.length b =? 0)%nat then normalize a
  else normalize (a ++ "/" ++ b).

(** The segments of [path.resolve(p)], the working directory [cwd] being
    an absolute path. *)
Definition resolveSegments (cwd p : string) : list string :=
  let full := if isAbsolute p then p else cwd ++ "/" ++ p in
  normalizeSegments false [] (split slash full).

Fixpoint stripCommon (a b : list string) : list string * list string :=
  match a, b with
  | x :: a', y :: b' =>
      if String.eqb x y then stripCommon a' b' else (a, b)
  | _, _ => (a, b)
  end.

(** [path.relative(from, to)]: both are resolved; one [".."] for each
    remaining segment of [from], then the remaining segments of [to]. *)
Definition relative (cwd from to : string) : string :=
  let (f, t) := stripCommon (resolveSegments cwd from)
                            (resolveSegments cwd to) in
  join "/" (map (fun _ => "..") f ++ t).

End Path.

(* ===================================================================== *)
(** * File Categorizer *)
(* ===================================================================== *)

Inductive bucket : Type :=
| Components | Pages | Api | Hooks | Utils | Tests | Styles | Config | Other.

Record Categories : Type := mkCategories {
  components : list string;
  pages : list string;
  api : list string;
  hooks : list string;
  utils : list string;
  tests : list string;
  styles : list string;
  config : list string;
  other : list string;
}.

Definition no_categories : Categories :=
  mkCategories [] [] [] [] [] [] [] [] [].

(** [categories[b].push(p)] *)
Definition push_bucket (c : Categories) (b : bucket) (p : string) : Categories :=
  match b with
  | Components => mkCategories (components c ++ [p]) (pages c) (api c) (hooks c) (utils c) (tests c) (styles c) (config c) (other c)
  | Pages => mkCategories (components c) (pages c ++ [p]) (api c) (hooks c) (utils c) (tests c) (styles c) (config c) (other c)
  | Api => mkCategories (components c) (pages c) (api c ++ [p]) (hooks c) (utils c) (tests c) (styles c) (config c) (other c)
  | Hooks => mkCategories (components c) (pages c) (api c) (hooks c ++ [p]) (utils c) (tests c) (styles c) (config c) (other c)
  | Utils => mkCategories (components c) (pages c) (api c) (hooks c) (utils c ++ [p]) (tests c) (styles c) (config c) (other c)
  | Tests => mkCategories (components c) (pages c) (api c) (hooks c) (utils c) (tests c ++ [p]) (styles c) (config c) (other c)
  | Styles => mkCategories (components c) (pages c) (api c) (hooks c) (utils c) (tests c) (styles c ++ [p]) (config c) (other c)
  | Config => mkCategories (components c) (pages c) (api c) (hooks c) (utils c) (tests c) (styles c) (config c ++ [p]) (other c)
  | Other => mkCategories (components c) (pages c) (api c) (hooks c) (utils c) (tests c) (styles c) (config c) (other c ++ [p])
  end.

Definition bucket_files (c : Categories) (b : bucket) : list string :=
  match b with
  | Components => components c | Pages => pages c | Api => api c
  | Hooks => hooks c | Utils => utils c | Tests => tests c
  | Styles => styles c | Config => config c | Other => other c
  end.

(** [ext.match(/\.(tsx?|jsx?)$/)] *)
Definition is_script_ext (ext : string) : bool :=
  endsWith ext ".ts" || endsWith ext ".tsx"
  || endsWith ext ".js" || endsWith ext ".jsx".

(** [ext.match(/\.(css|scss|less|sass)$/)] *)
Definition is_style_ext (ext : string) : bool :=
  endsWith ext ".css" || endsWith ext ".scss"
  || endsWith ext ".less" || endsWith ext ".sass".

(** The cascade of the loop body of [categorizeFiles], for one file. *)
Definition categorize (relativePath ext basename : string) : bucket :=
  if includes relativePath "components/" || includes relativePath "Components/" then
    Components
  else if includes relativePath "pages/"
          || (includes relativePath "app/" && is_script_ext ext) then
    Pages
  else if includes relativePath "api/" || includes relativePath "server/"
          || includes relativePath "functions/" then
    Api
  else if includes relativePath "hooks/" || startsWith basename "use" then
    Hooks
  else if includes relativePath "utils/" || includes relativePath "lib/"
          || includes relativePath "helpers/" then
    Utils
  else if includes basename ".test." || includes basename ".spec."
          || includes relativePath "__tests__" then
    Tests
  else if is_style_ext ext then
    Styles
  else if includes basename "config" || String.eqb basename "tsconfig.json"
          || startsWith basename ".env" then
    Config
  else Other.

Definition categorizeStep (cwd projectDir : string)
           (c : Categories) (file : string) : Categories :=
  let relativePath := Path.relative cwd projectDir file in
  let ext := Path.extname file in
  let basename := Path.basename file in
  push_bucket c (categorize relativePath ext basename) relativePath.

(** [categorizeFiles(files, projectDir)]; [cwd] is the working directory
    of the process, which [path.relative] resolves against. *)
Definition categorizeFiles (cwd : string) (files : list string)
           (projectDir : string) : Categories :=
  fold_left (categorizeStep cwd projectDir) files no_categories.

(* ===================================================================== *)
(** * Convention Inferencer *)
(* ===================================================================== *)

Record Conventions : Type := mkConventions {
  componentStyle : option string;
  fileExtension : option string;
  testNaming : option string;
  indexFiles : bool;
  barrelExports : bool;
}.

Record tallies : Type := mkTallies {
  pascalCount : nat;
  camelCount : nat;
  kebabCount : nat;
  tsxCount : nat;
  jsxCount : nat;
  testCount : nat;
  specCount : nat;
  indexCount : nat;
}.

Definition is_alnum (a : ascii) : bool := is_lower a || is_upper a || is_digit a.

(** [/^[A-Z][a-zA-Z0-9]*$/] *)
Definition matches_pascal (s : string) : bool :=
  match s with
  | EmptyString => false
  | String a s' => is_upper a && forallb_string is_alnum s'
  end.

(** [/^[a-z][a-zA-Z0-9]*$/] *)
Definition matches_camel (s : string) : bool :=
  match s with
  | EmptyString => false
  | String a s' => is_lower a && forallb_string is_alnum s'
  end.

(** [/^[a-z][a-z0-9-]*$/] *)
Definition matches_kebab (s : string) : bool :=
  match s with
  | EmptyString => false
  | String a s' =>
      is_lower a
      && forallb_string (fun c => is_lower c || is_digit c || Ascii.eqb c "-") s'
  end.

Definition no_tallies : tallies := mkTallies 0 0 0 0 0 0 0 0.

(** One iteration of the counting loop. *)
Definition tallyStep (t : tallies) (file : string) : tallies :=
  let basename := Path.basename_suffix file (Path.extname file) in
  let ext := Path.extname file in
  let '(p, c, k) :=
    if matches_pascal basename then (S (pascalCount t), camelCount t, kebabCount t)
    else if matches_camel basename then (pascalCount t, S (camelCount t), kebabCount t)
    else if matches_kebab basename then (pascalCount t, camelCount t, S (kebabCount t))
    else (pascalCount t, camelCount t, kebabCount t) in
  let '(tsx, jsx) :=
    if String.eqb ext ".tsx" then (S (tsxCount t), jsxCount t)
    else if String.eqb ext ".jsx" then (tsxCount t, S (jsxCount t))
    else (tsxCount t, jsxCount t) in
  let '(te, sp) :=
    if includes file ".test." then (S (testCount t), specCount t)
    else if includes file ".spec." then (testCount t, S (specCount t))
    else (testCount t, specCount t) in
  let ix := if String.eqb basename "index" then S (indexCount t) else indexCount t in
  mkTallies p c k tsx jsx te sp ix.

Definition tally (files : list string) : tallies :=
  fold_left tallyStep files no_tallies.

(** [analyzeNamingConventions(files)] *)
Definition analyzeNamingConventions (files : list string) : Conventions :=
  let t := tally files in
  {| componentStyle :=
       if Nat.ltb (camelCount t) (pascalCount t) && Nat.ltb (kebabCount t) (pascalCount t)
       then Some "PascalCase"
       else if Nat.ltb (pascalCount t) (camelCount t) && Nat.ltb (kebabCount t) (camelCount t)
       then Some "camelCase"
       else if Nat.ltb 0 (kebabCount t) then Some "kebab-case"
       else None;
     fileExtension := if Nat.ltb (jsxCount t) (tsxCount t) then Some ".tsx" else Some ".jsx";
     testNaming := if Nat.leb (specCount t) (testCount t) then Some ".test." else Some ".spec.";
     indexFiles := Nat.ltb 5 (indexCount t);
     barrelExports := Nat.ltb 10 (indexCount t) |}.

(* ===================================================================== *)
(** * Exceptions and mutable state *)
(* ===================================================================== *)

(** The errors the engine can meet: a [TypeError] of the language, the
    [SyntaxError] of [JSON.parse], an error of a file-system call, and
    the [RangeError] of a call that needs more stack than there is: a
    spread of too many arguments, a conversion of arrays nested too
    deep. *)
Inductive exn : Type := TypeError | SyntaxError | SystemError | RangeError.

Inductive completion (A : Type) : Type :=
| Normal (a : A)
| Throw (e : exn).
Arguments Normal {A} a.
Arguments Throw {A} e.

(** Statements that mutate an object of type [S] and may throw: the
    mutations made before a throw stay. *)
Definition M (S A : Type) : Type := S -> S * completion A.

Definition ret {S A} (a : A) : M S A := fun s => (s, Normal a).

Definition bind {S A B} (m : M S A) (k : A -> M S B) : M S B :=
  fun s => match m s with
           | (s', Normal a) => k a s'
           | (s', Throw e) => (s', Throw e)
           end.

Definition lift {S A} (c : completion A) : M S A := fun s => (s, c).

Definition modify {S} (f : S -> S) : M S unit := fun s => (f s, Normal tt).

(** [try { body } catch (e) { handler }] *)
Definition try_catch {S} (body : M S unit) (handler : exn -> M S unit) : M S unit :=
  fun s => match body s with
           | (s', Normal _) => (s', Normal tt)
           | (s', Throw e) => handler e s'
           end.

Declare Scope js_scope.
Delimit Scope js_scope with js.
Notation "x <- c ;; k" := (bind c (fun x => k))
  (at level 61, c at next level, right associativity) : js_scope.
Notation "c ;; k" := (bind c (fun _ => k))
  (at level 61, right associativity) : js_scope.
Open Scope js_scope.

(** [for (const x of l) { body(x) }] *)
Fixpoint forOf {S A} (l : list A) (body : A -> M S unit) : M S unit :=
  match l with
  | [] => ret tt
  | x :: l' => body x ;; forOf l' body
  end.

(** [if (c) { body }] *)
Definition when {S} (c : bool) (body : M S unit) : M S unit :=
  if c then body else ret tt.

(** [keeps proj m]: the statement [m] leaves the part [proj] of the
    object as it was, also when it throws. *)
Definition keeps {S A B} (proj : S -> B) (m : M S A) : Prop :=
  forall s, proj (fst (m s)) = proj s.

(** [settles proj target m]: the statement [m] leaves the part [proj]
    as it was or sets it to [target]. *)
Definition settles {S A B} (proj : S -> B) (target : B) (m : M S A) : Prop :=
  forall s, proj (fst (m s)) = proj s \/ proj (fst (m s)) = target.

(** [appends m]: whatever the array of lines holds, [m] adds the same
    lines at its end and completes the same way. *)
Definition appends {A} (m : M (list string) A) : Prop :=
  exists (out : list string) (c : completion A),
    forall lines, m lines = ((lines ++ out)%list, c).

(* ===================================================================== *)
(** * The file system *)
(* ===================================================================== *)

(** An entry of [fs.readdirSync(dir, { withFileTypes: true })]. *)
Record dirent : Type := mkDirent {
  dirent_name : string;
  dirent_isDirectory : bool;
}.

(** The three calls the engine makes; [readdirSync] and [readFileSync]
    throw on a path that is missing or may not be read. *)
Record filesystem : Type := mkFs {
  existsSync : string -> bool;
  readFileSync : string -> completion string;
  readdirSync : string -> completion (list dirent);
}.

(* ===================================================================== *)
(** * Tree Walker *)
(* ===================================================================== *)

Definition IGNORE_DIRS : list string :=
  ["node_modules"; ".git"; ".next"; ".nuxt"; "dist"; "build"; "out";
   ".cache"; "coverage"; ".turbo"; ".vercel"].

(** [array.includes(s)] on an array of strings. *)
Definition array_includes (l : list string) (s : string) : bool :=
  existsb (String.eqb s) l.

Record ScanResult : Type := mkScan {
  files : list string;
  dirs : list string;
  totalFiles : nat;
  totalDirs : nat;
}.

Definition emptyScan : ScanResult := mkScan [] [] 0 0.

Definition ignoredDir (entryName : string) : bool :=
  array_includes IGNORE_DIRS entryName || startsWith entryName ".".

(** [array.push(...items)]: the items are the arguments of one call,
    and the engine throws a [RangeError] when they are more than its
    stack holds, [maxArgs] (some 10^5 with the default stack size);
    nothing is pushed then. The walk nests at most [maxDepth] calls, and
    the limit is taken to be the same in each of them. *)
Definition pushSpread (maxArgs : nat) (items : list string)
           (push : ScanResult -> ScanResult) : M ScanResult unit :=
  if Nat.leb (List.length items) maxArgs then modify push
  else lift (Throw RangeError).

(** The body of the loop over the entries of [dir]; [recur] is the
    recursive call at the next depth. *)
Definition scanEntry (maxArgs : nat) (recur : string -> completion ScanResult)
           (dir : string) (entry : dirent) : M ScanResult unit :=
  let fullPath := Path.join2 dir (dirent_name entry) in
  if dirent_isDirectory entry then
    if ignoredDir (dirent_name entry) then ret tt
    else
      modify (fun r => mkScan (files r) (dirs r ++ [fullPath])
                              (totalFiles r) (totalDirs r)) ;;
      modify (fun r => mkScan (files r) (dirs r)
                              (totalFiles r) (S (totalDirs r))) ;;
      subResults <- lift (recur fullPath) ;;
      pushSpread maxArgs (files subResults)
        (fun r => mkScan (files r ++ files subResults) (dirs r)
                         (totalFiles r) (totalDirs r)) ;;
      pushSpread maxArgs (dirs subResults)
        (fun r => mkScan (files r) (dirs r ++ dirs subResults)
                         (totalFiles r) (totalDirs r)) ;;
      modify (fun r => mkScan (files r) (dirs r)
                              (totalFiles r + totalFiles subResults)
                              (totalDirs r)) ;;
      modify (fun r => mkScan (files r) (dirs r) (totalFiles r)
                              (totalDirs r + totalDirs subResults))
  else
    modify (fun r => mkScan (files r ++ [fullPath]) (dirs r)
                            (totalFiles r) (totalDirs r)) ;;
    modify (fun r => mkScan (files r) (dirs r)
                            (S (totalFiles r)) (totalDirs r)).

(** The walk with [remaining = maxDepth - currentDepth] levels left: the
    recursion of [scanDirectory] keeps [maxDepth] and adds one to
    [currentDepth]. The [catch] takes whatever the [try] block throws,
    an error of [readdirSync] or a [RangeError] of a spread, and the
    function returns what it had by then. *)
Fixpoint scanLevels (maxArgs : nat) (fs : filesystem) (remaining : nat)
         (dir : string) : completion ScanResult :=
  match remaining with
  | 0 => Normal emptyScan
  | S remaining' =>
      let body :=
        try_catch
          (entries <- lift (readdirSync fs dir) ;;
           forOf entries (scanEntry maxArgs (scanLevels maxArgs fs remaining') dir))
          (fun _ => ret tt) in
      match body emptyScan with
      | (results, Normal _) => Normal results
      | (_, Throw e) => Throw e
      end
  end.

(** [scanDirectory(dir, maxDepth, currentDepth)], on an engine that
    takes [maxArgs] arguments in a call. *)
Definition scanDirectory (maxArgs : nat) (fs : filesystem) (dir : string)
           (maxDepth currentDepth : nat) : completion ScanResult :=
  scanLevels maxArgs fs (maxDepth - currentDepth) dir.

(** A result that a caller can merge: each of its lists is within the
    number of arguments of a call. *)
Definition fits (maxArgs : nat) (r : ScanResult) : Prop :=
  List.length (files r) <= maxArgs /\ List.length (dirs r) <= maxArgs.

(* ===================================================================== *)
(** * JavaScript values *)
(* ===================================================================== *)

Section JS.

(** The Number type (IEEE 754 doubles), with the two operations the
    engine applies to a number it read: the truth test and the
    conversion to a string. *)
Variable number : Type.
Variable number_truthy : number -> bool.
Variable number_toString : number -> string.

(** The nesting of arrays the engine converts to a string before its
    stack overflows; it depends on the stack size the engine runs
    with. *)
Variable stackDepth : nat.

(** What [JSON.parse] returns, and [undefined]. The properties of an
    object are listed in the order in which the language enumerates
    them. *)
Inductive value : Type :=
| VUndefined
| VNull
| VBool (b : bool)
| VNumber (n : number)
| VString (s : string)
| VArray (elems : list value)
| VObject (props : list (string * value)).

(** [JSON.parse(text)]: a [SyntaxError] on text that is not JSON. *)
Variable JSON_parse : string -> completion value.

Definition truthy (v : value) : bool :=
  match v with
  | VUndefined | VNull => false
  | VBool b => b
  | VNumber n => number_truthy n
  | VString s => negb (String.eqb s "")
  | VArray _ | VObject _ => true
  end.

Fixpoint lookup (k : string) (props : list (string * value)) : value :=
  match props with
  | [] => VUndefined
  | (k', v) :: props' => if String.eqb k k' then v else lookup k props'
  end.

Fixpoint hasOwn (k : string) (props : list (string * value)) : bool :=
  match props with
  | [] => false
  | (k', _) :: props' => String.eqb k k' || hasOwn k props'
  end.

(** [v.k] and [v[k]] for a key [k] that no built-in prototype defines
    (the engine reads no other): a [TypeError] on [null] and
    [undefined], the own property of an object, [undefined] on the
    rest. *)
Definition getProp (v : value) (k : string) : completion value :=
  match v with
  | VUndefined | VNull => Throw TypeError
  | VObject props => Normal (lookup k props)
  | _ => Normal VUndefined
  end.

(** [v?.k] *)
Definition getPropOpt (v : value) (k : string) : value :=
  match v with
  | VObject props => lookup k props
  | _ => VUndefined
  end.

(** The string a template literal puts for a value. An object parsed
    from JSON that has a property called [toString] has no callable
    conversion method left: a [TypeError]. An array is converted element
    by element, an array inside it by a nested call; [depth] is the
    number of nested calls the stack still holds, and an array met when
    none is left throws a [RangeError]. *)
Fixpoint ToStringAt (v : value) (depth : nat) {struct v} : completion string :=
  match v with
  | VUndefined => Normal "undefined"
  | VNull => Normal "null"
  | VBool b => Normal (if b then "true" else "false")
  | VNumber n => Normal (number_toString n)
  | VString s => Normal s
  | VArray elems =>
      match depth with
      | 0 => Throw RangeError
      | S depth' =>
          let fix elements (l : list value) : completion (list string) :=
            match l with
            | [] => Normal []
            | x :: l' =>
                let c := match x with
                         | VUndefined | VNull => Normal ""
                         | _ => ToStringAt x depth'
                         end in
                match c with
                | Throw e => Throw e
                | Normal sx =>
                    match elements l' with
                    | Throw e => Throw e
                    | Normal sl => Normal (sx :: sl)
                    end
                end
            end in
          match elements elems with
          | Throw e => Throw e
          | Normal parts => Normal (join "," parts)
          end
      end
  | VObject props =>
      if hasOwn "toString" props then Throw TypeError
      else Normal "[object Object]"
  end.

(** The conversion at the calls the engine makes, all of them a few
    frames below [main]: [stackDepth] nested calls fit. *)
Definition ToString (v : value) : completion string := ToStringAt v stackDepth.

Fixpoint indexed {A} (i : nat) (l : list A) : list (string * A) :=
  match l with
  | [] => []
  | x :: l' => (of_nat i, x) :: indexed (S i) l'
  end.

(** The own enumerable properties a spread [...v] copies. *)
Definition ownEntries (v : value) : list (string * value) :=
  match v with
  | VObject props => props
  | VArray elems => indexed 0 elems
  | VString s =>
      indexed 0 (map (fun a => VString (String a EmptyString))
                     (list_ascii_of_string s))
  | _ => []
  end.

(** [obj[k] = v] on own properties: a key already there keeps its
    place. *)
Fixpoint setProp (props : list (string * value)) (k : string) (v : value)
  : list (string * value) :=
  match props with
  | [] => [(k, v)]
  | (k', v') :: props' =>
      if String.eqb k k' then (k, v) :: props'
      else (k', v') :: setProp props' k v
  end.

(** [{ ...a, ...b }] *)
Definition spread2 (a b : value) : list (string * value) :=
  fold_left (fun o kv => setProp o (fst kv) (snd kv))
            (ownEntries a ++ ownEntries b) [].

(** [v.includes(s)] for a truthy [v]: the method of strings and of
    arrays; a [TypeError] where [v.includes] is not a function. *)
Definition callIncludes (v : value) (s : string) : completion bool :=
  match v with
  | VString t => Normal (includes t s)
  | VArray elems =>
      Normal (existsb (fun x => match x with
                                | VString t => String.eqb t s
                                | _ => false
                                end) elems)
  | _ => Throw TypeError
  end.

(* =================================================================== *)
(** * Manifest Inspector *)
(* =================================================================== *)

Record PackageAnalysis : Type := mkPackageAnalysis {
  name : value;
  version : value;
  type : value;
  framework : option string;
  styling : option string;
  database : option string;
  testing : option string;
  linting : option string;
  buildTool : option string;
  deployment : option string;
  features : list string;
  scripts : value;
  keyDependencies : list string;
}.

(** The [analysis] object [analyzePackageJson] starts from. *)
Definition initialAnalysis : PackageAnalysis :=
  mkPackageAnalysis VNull VNull VNull None None None None None None None
                    [] (VObject []) [].

Definition set_name v (a : PackageAnalysis) :=
  mkPackageAnalysis v (version a) (type a) (framework a) (styling a) (database a) (testing a) (linting a) (buildTool a) (deployment a) (features a) (scripts a) (keyDependencies a).
Definition set_version v (a : PackageAnalysis) :=
  mkPackageAnalysis (name a) v (type a) (framework a) (styling a) (database a) (testing a) (linting a) (buildTool a) (deployment a) (features a) (scripts a) (keyDependencies a).
Definition set_type v (a : PackageAnalysis) :=
  mkPackageAnalysis (name a) (version a) v (framework a) (styling a) (database a) (testing a) (linting a) (buildTool a) (deployment a) (features a) (scripts a) (keyDependencies a).
Definition set_framework v (a : PackageAnalysis) :=
  mkPackageAnalysis (name a) (version a) (type a) (Some v) (styling a) (database a) (testing a) (linting a) (buildTool a) (deployment a) (features a) (scripts a) (keyDependencies a).
Definition set_styling v (a : PackageAnalysis) :=
  mkPackageAnalysis (name a) (version a) (type a) (framework a) (Some v) (database a) (testing a) (linting a) (buildTool a) (deployment a) (features a) (scripts a) (keyDependencies a).
Definition set_database v (a : PackageAnalysis) :=
  mkPackageAnalysis (name a) (version a) (type a) (framework a) (styling a) (Some v) (testing a) (linting a) (buildTool a) (deployment a) (features a) (scripts a) (keyDependencies a).
Definition set_testing v (a : PackageAnalysis) :=
  mkPackageAnalysis (name a) (version a) (type a) (framework a) (styling a) (database a) (Some v) (linting a) (buildTool a) (deployment a) (features a) (scripts a) (keyDependencies a).
Definition set_linting v (a : PackageAnalysis) :=
  mkPackageAnalysis (name a) (version a) (type a) (framework a) (styling a) (database a) (testing a) v (buildTool a) (deployment a) (features a) (scripts a) (keyDependencies a).
Definition set_buildTool v (a : PackageAnalysis) :=
  mkPackageAnalysis (name a) (version a) (type a) (framework a) (styling a) (database a) (testing a) (linting a) (Some v) (deployment a) (features a) (scripts a) (keyDependencies a).
Definition push_feature v (a : PackageAnalysis) :=
  mkPackageAnalysis (name a) (version a) (type a) (framework a) (styling a) (database a) (testing a) (linting a) (buildTool a) (deployment a) (features a ++ [v]) (scripts a) (keyDependencies a).
Definition set_scripts v (a : PackageAnalysis) :=
  mkPackageAnalysis (name a) (version a) (type a) (framework a) (styling a) (database a) (testing a) (linting a) (buildTool a) (deployment a) (features a) v (keyDependencies a).
Definition push_keyDependency v (a : PackageAnalysis) :=
  mkPackageAnalysis (name a) (version a) (type a) (framework a) (styling a) (database a) (testing a) (linting a) (buildTool a) (deployment a) (features a) (scripts a) (keyDependencies a ++ [v]).

Section Detection.

(** [deps], the merged dependency object. *)
Variable deps : list (string * value).

(** [deps[k]] as a condition. *)
Definition has (k : string) : bool := truthy (lookup k deps).

(** [analysis.keyDependencies.push(`k@${deps[k]}`)] *)
Definition pushKeyDependency (k : string) : M PackageAnalysis unit :=
  v <- lift (ToString (lookup k deps)) ;;
  modify (push_keyDependency (k ++ "@" ++ v)).

Definition detectFramework : M PackageAnalysis unit :=
  if has "next" then
    modify (set_framework "Next.js") ;; pushKeyDependency "next"
  else if has "remix" || has "@remix-run/react" then
    modify (set_framework "Remix")
  else if has "astro" then modify (set_framework "Astro")
  else if has "nuxt" then modify (set_framework "Nuxt")
  else if has "svelte" || has "@sveltejs/kit" then
    modify (set_framework "SvelteKit")
  else if has "gatsby" then modify (set_framework "Gatsby")
  else if has "react" then
    modify (set_framework (if has "vite" then "React (Vite)" else "React"))
  else if has "vue" then modify (set_framework "Vue")
  else ret tt.

Definition detectReactVersion : M PackageAnalysis unit :=
  when (has "react")
    (pushKeyDependency "react" ;;
     is19 <- lift (callIncludes (lookup "react" deps) "19") ;;
     isNew <- (if is19 : bool then ret true
               else lift (callIncludes (lookup "react" deps) "canary")) ;;
     when isNew (modify (push_feature "React 19"))).

Definition detectStyling : M PackageAnalysis unit :=
  if has "tailwindcss" then
    modify (set_styling "Tailwind CSS") ;; pushKeyDependency "tailwindcss"
  else if has "@mui/material" then
    modify (set_styling "Material-UI") ;; pushKeyDependency "@mui/material"
  else if has "styled-components" then modify (set_styling "Styled Components")
  else if has "@emotion/react" then modify (set_styling "Emotion")
  else if has "sass" || has "node-sass" then modify (set_styling "Sass/SCSS")
  else ret tt.

Definition detectDatabase : M PackageAnalysis unit :=
  if has "@supabase/supabase-js" then
    modify (set_database "Supabase") ;;
    pushKeyDependency "@supabase/supabase-js"
  else if has "firebase" then modify (set_database "Firebase")
  else if has "@prisma/client" then modify (set_database "Prisma")
  else if has "drizzle-orm" then modify (set_database "Drizzle")
  else if has "mongoose" then modify (set_database "MongoDB (Mongoose)")
  else ret tt.

Definition detectTesting : M PackageAnalysis unit :=
  if has "vitest" then modify (set_testing "Vitest")
  else if has "jest" then modify (set_testing "Jest")
  else if has "@playwright/test" then modify (set_testing "Playwright")
  else if has "cypress" then modify (set_testing "Cypress")
  else ret tt.

Definition detectLinting : M PackageAnalysis unit :=
  if has "eslint" then
    modify (set_linting (Some "ESLint")) ;;
    when (has "prettier")
      (modify (fun a =>
         set_linting
           (match linting a with
            | Some l => Some (l ++ " + Prettier")
            | None => Some ("null" ++ " + Prettier")
            end) a))
  else if has "biome" || has "@biomejs/biome" then
    modify (set_linting (Some "Biome"))
  else ret tt.

Definition detectBuildTool : M PackageAnalysis unit :=
  if has "turbo" || has "@turbo/gen" then
    modify (set_buildTool "Turborepo") ;; modify (push_feature "Monorepo")
  else if has "nx" then
    modify (set_buildTool "Nx") ;; modify (push_feature "Monorepo")
  else if has "vite" then modify (set_buildTool "Vite")
  else if has "webpack" then modify (set_buildTool "Webpack")
  else ret tt.

Definition detectFeatures : M PackageAnalysis unit :=
  when (has "@google/generative-ai") (modify (push_feature "Google Gemini AI")) ;;
  when (has "openai") (modify (push_feature "OpenAI API")) ;;
  when (has "@anthropic-ai/sdk") (modify (push_feature "Anthropic Claude")) ;;
  when (has "storybook" || has "@storybook/react") (modify (push_feature "Storybook")) ;;
  when (has "three" || has "@react-three/fiber") (modify (push_feature "Three.js/R3F")) ;;
  when (has "framer-motion") (modify (push_feature "Framer Motion")) ;;
  when (has "react-query" || has "@tanstack/react-query") (modify (push_feature "TanStack Query")) ;;
  when (has "zustand") (modify (push_feature "Zustand")) ;;
  when (has "jotai") (modify (push_feature "Jotai")) ;;
  when (has "redux" || has "@reduxjs/toolkit") (modify (push_feature "Redux")) ;;
  when (has "zod") (modify (push_feature "Zod validation")) ;;
  when (has "react-hook-form") (modify (push_feature "React Hook Form")).

Definition detectTypeScript : M PackageAnalysis unit :=
  when (has "typescript")
    (modify (push_feature "TypeScript") ;; pushKeyDependency "typescript").

End Detection.

(** The statements of the [try] block once the manifest is parsed. *)
Definition inspectPackage (pkg : value) : M PackageAnalysis unit :=
  dependencies <- lift (getProp pkg "dependencies") ;;
  devDependencies <- lift (getProp pkg "devDependencies") ;;
  let deps := spread2 dependencies devDependencies in
  pkgName <- lift (getProp pkg "name") ;;
  modify (set_name pkgName) ;;
  pkgVersion <- lift (getProp pkg "version") ;;
  modify (set_version pkgVersion) ;;
  pkgType <- lift (getProp pkg "type") ;;
  modify (set_type (if truthy pkgType then pkgType else VString "commonjs")) ;;
  pkgScripts <- lift (getProp pkg "scripts") ;;
  modify (set_scripts (if truthy pkgScripts then pkgScripts else VObject [])) ;;
  detectFramework deps ;;
  detectReactVersion deps ;;
  detectStyling deps ;;
  detectDatabase deps ;;
  detectTesting deps ;;
  detectLinting deps ;;
  detectBuildTool deps ;;
  detectFeatures deps ;;
  detectTypeScript deps.

(** The [try] block. *)
Definition inspectManifest (fs : filesystem) (pkgPath : string)
  : M PackageAnalysis unit :=
  content <- lift (readFileSync fs pkgPath) ;;
  pkg <- lift (JSON_parse content) ;;
  inspectPackage pkg.

(** [analyzePackageJson(projectDir)]. The handler of the [catch] writes
    a warning to the console and goes on. *)
Definition analyzePackageJson (fs : filesystem) (projectDir : string)
  : completion PackageAnalysis :=
  let pkgPath := Path.join2 projectDir "package.json" in
  if negb (existsSync fs pkgPath) then Normal initialAnalysis
  else
    match try_catch (inspectManifest fs pkgPath) (fun _ => ret tt)
                    initialAnalysis with
    | (analysis, Normal _) => Normal analysis
    | (_, Throw e) => Throw e
    end.

(* =================================================================== *)
(** * The assembled profile *)
(* =================================================================== *)

Inductive AgentKey : Type :=
| copilot | claude | cursor | gemini | codex | windsurf.

Record Agent : Type := mkAgent {
  agent_name : string;
  agent_file : string;
}.

Definition AGENTS (k : AgentKey) : Agent :=
  match k with
  | copilot => mkAgent "GitHub Copilot" ".github/copilot-instructions.md"
  | claude => mkAgent "Claude (Anthropic)" "CLAUDE.md"
  | cursor => mkAgent "Cursor" ".cursorrules"
  | gemini => mkAgent "Gemini (Google)" ".gemini/config.md"
  | codex => mkAgent "Codex (OpenAI)" ".codex/AGENTS.md"
  | windsurf => mkAgent "Windsurf/Codeium" ".windsurfrules"
  end.

(** An entry of [detectAgentConfigs]: [size] is absent from the entry
    made when the file could not be read. *)
Record AgentConfig : Type := mkAgentConfig {
  path : string;
  size : option N;
}.

Record TsConfigAnalysis : Type := mkTsConfig {
  strict : value;
  baseUrl : value;
  paths : value;
  target : value;
  jsx : value;
}.

Record ReadmeAnalysis : Type := mkReadme {
  title : option string;
  description : option string;
}.

Record KeyFiles : Type := mkKeyFiles {
  has_readme : bool;
  has_contributing : bool;
  has_license : bool;
  has_changelog : bool;
  has_envExample : bool;
  has_docker : bool;
  has_cicd : bool;
  has_husky : bool;
  has_editorconfig : bool;
  has_nvmrc : bool;
}.

(** The [analysis] object [main] assembles. [projectConfig] is the
    parsed persisted configuration, or [null]. *)
Record AnalysisProfile : Type := mkProfile {
  fileStructure : ScanResult;
  categories : option Categories;
  conventions : option Conventions;
  packageJson : PackageAnalysis;
  tsconfig : option TsConfigAnalysis;
  projectConfig : value;
  agentConfigs : list (AgentKey * AgentConfig);
  readme : option ReadmeAnalysis;
  keyFiles : KeyFiles;
}.

(** A nullable string as a condition. *)
Definition truthyStr (o : option string) : bool :=
  match o with
  | Some s => negb (String.eqb s "")
  | None => false
  end.

(** [`${o}`] *)
Definition strOf (o : option string) : string :=
  match o with Some s => s | None => "null" end.

(** [o || d] *)
Definition orDefault (o : option string) (d : string) : string :=
  if truthyStr o then strOf o else d.

(** [Object.keys(v)] *)
Definition objectKeys (v : value) : completion (list string) :=
  match v with
  | VUndefined | VNull => Throw TypeError
  | _ => Normal (map fst (ownEntries v))
  end.

(** [Object.entries(v)] *)
Definition objectEntries (v : value) : completion (list (string * value)) :=
  match v with
  | VUndefined | VNull => Throw TypeError
  | _ => Normal (ownEntries v)
  end.

(** [v[0]] *)
Definition index0 (v : value) : completion value :=
  match v with
  | VUndefined | VNull => Throw TypeError
  | _ => Normal (lookup "0" (ownEntries v))
  end.

(** [(size / 1024).toFixed(1)]: the nearest tenth, the larger one when
    two are as near; [NaN] when there is no size. *)
Definition kilobytes (sz : option N) : string :=
  match sz with
  | None => "NaN"
  | Some b =>
      let tenths := ((5 * b + 256) / 512)%N in
      of_N (tenths / 10) ++ "." ++ of_N (tenths mod 10)
  end.

(** [lines.push(l)] *)
Definition push (l : string) : M (list string) unit :=
  modify (fun lines : list string => (lines ++ [l])%list).

(* =================================================================== *)
(** * Report Renderer: the full report *)
(* =================================================================== *)

Definition categoryRows (c : Categories) : list (string * list string) :=
  [("components", components c); ("pages", pages c); ("api", api c);
   ("hooks", hooks c); ("utils", utils c); ("tests", tests c);
   ("styles", styles c); ("config", config c); ("other", other c)].

Definition keyFileRows (k : KeyFiles) : list (bool * string) :=
  [(has_readme k, "README.md"); (has_contributing k, "CONTRIBUTING.md");
   (has_license k, "LICENSE"); (has_changelog k, "CHANGELOG.md");
   (has_envExample k, "Environment example"); (has_docker k, "Docker support");
   (has_cicd k, "GitHub Actions CI/CD"); (has_husky k, "Git hooks (Husky)");
   (has_editorconfig k, "EditorConfig"); (has_nvmrc k, ".nvmrc (Node version)")].

(** The line that carries the date: [now] is [new Date().toISOString()]. *)
Definition stampLine (now : string) : string :=
  "> Generated by `npx agents-analyze` on " ++ split0 "T" now.

Definition reportOverview (analysis : AnalysisProfile) : M (list string) unit :=
  let pkg := packageJson analysis in
  push "## Project Overview" ;;
  push "" ;;
  when (truthy (name pkg))
    (n <- lift (ToString (name pkg)) ;; push ("**Name:** " ++ n)) ;;
  match readme analysis with
  | Some r => when (truthyStr (description r))
                (push ("**Description:** " ++ strOf (description r)))
  | None => ret tt
  end ;;
  when (truthyStr (framework pkg)) (push ("**Framework:** " ++ strOf (framework pkg))) ;;
  when (truthyStr (styling pkg)) (push ("**Styling:** " ++ strOf (styling pkg))) ;;
  when (truthyStr (database pkg)) (push ("**Database:** " ++ strOf (database pkg))) ;;
  push "".

Definition reportTechStack (analysis : AnalysisProfile) : M (list string) unit :=
  let pkg := packageJson analysis in
  push "## Tech Stack" ;;
  push "" ;;
  when (0 <? List.length (keyDependencies pkg))%nat
    (push "### Key Dependencies" ;;
     forOf (keyDependencies pkg) (fun dep => push ("- " ++ dep)) ;;
     push "") ;;
  when (0 <? List.length (features pkg))%nat
    (push "### Features" ;;
     forOf (features pkg) (fun feature => push ("- " ++ feature)) ;;
     push "").

Definition reportStructure (analysis : AnalysisProfile) : M (list string) unit :=
  push "## Project Structure" ;;
  push "" ;;
  push ("- **Total Files:** " ++ of_nat (totalFiles (fileStructure analysis))) ;;
  push ("- **Total Directories:** " ++ of_nat (totalDirs (fileStructure analysis))) ;;
  push "" ;;
  match categories analysis with
  | Some c =>
      push "### File Distribution" ;;
      push "" ;;
      push "| Category | Count |" ;;
      push "|----------|-------|" ;;
      forOf (categoryRows c) (fun row =>
        when (0 <? List.length (snd row))%nat
          (push ("| " ++ fst row ++ " | " ++ of_nat (List.length (snd row)) ++ " |"))) ;;
      push ""
  | None => ret tt
  end.

Definition reportConventions (analysis : AnalysisProfile) : M (list string) unit :=
  match conventions analysis with
  | Some c =>
      push "## Coding Conventions" ;;
      push "" ;;
      when (truthyStr (componentStyle c))
        (push ("- **Component Naming:** " ++ strOf (componentStyle c))) ;;
      when (truthyStr (fileExtension c))
        (push ("- **File Extension:** " ++ strOf (fileExtension c))) ;;
      when (truthyStr (testNaming c))
        (push ("- **Test Naming:** " ++ strOf (testNaming c))) ;;
      when (indexFiles c) (push "- **Index Files:** Uses index.ts/js for exports") ;;
      when (barrelExports c) (push "- **Barrel Exports:** Uses barrel pattern extensively") ;;
      push ""
  | None => ret tt
  end.

Definition reportTsConfig (analysis : AnalysisProfile) : M (list string) unit :=
  match tsconfig analysis with
  | Some ts =>
      push "## TypeScript Configuration" ;;
      push "" ;;
      push ("- **Strict Mode:** " ++ (if truthy (strict ts) then "Yes" else "No")) ;;
      when (truthy (baseUrl ts))
        (b <- lift (ToString (baseUrl ts)) ;; push ("- **Base URL:** " ++ b)) ;;
      keys <- lift (objectKeys (paths ts)) ;;
      when (0 <? List.length keys)%nat
        (push "- **Path Aliases:**" ;;
         entries <- lift (objectEntries (paths ts)) ;;
         forOf entries (fun entry =>
           first <- lift (index0 (snd entry)) ;;
           target <- lift (ToString first) ;;
           push ("  - `" ++ fst entry ++ "` → `" ++ target ++ "`"))) ;;
      push ""
  | None => ret tt
  end.

Definition reportSetup (analysis : AnalysisProfile) : M (list string) unit :=
  push "## Project Setup" ;;
  push "" ;;
  forOf (keyFileRows (keyFiles analysis)) (fun row =>
    let status := if fst row then "✅" else "❌" in
    push ("- " ++ status ++ " " ++ snd row)) ;;
  push "".

Definition reportAgents (analysis : AnalysisProfile) : M (list string) unit :=
  when (0 <? List.length (agentConfigs analysis))%nat
    (push "## Agent Configurations" ;;
     push "" ;;
     forOf (agentConfigs analysis) (fun entry =>
       let agent := AGENTS (fst entry) in
       push ("### " ++ agent_name agent) ;;
       push ("- **File:** `" ++ path (snd entry) ++ "`") ;;
       push ("- **Size:** " ++ kilobytes (size (snd entry)) ++ " KB") ;;
       push "")).

(** The [recommendations] array. *)
Definition recommend (analysis : AnalysisProfile) : M (list string) unit :=
  let pkg := packageJson analysis in
  when (truthyStr (framework pkg))
    (push ("- Framework-specific patterns for " ++ strOf (framework pkg))) ;;
  when (truthyStr (styling pkg))
    (push ("- " ++ strOf (styling pkg) ++ " component patterns and class naming")) ;;
  match tsconfig analysis with
  | Some ts =>
      when (truthy (paths ts))
        (keys <- lift (objectKeys (paths ts)) ;;
         when (0 <? List.length keys)%nat
           (push "- Import alias patterns (e.g., `@/components/...`)"))
  | None => ret tt
  end ;;
  match conventions analysis with
  | Some c =>
      when (truthyStr (componentStyle c))
        (push ("- " ++ strOf (componentStyle c) ++ " naming convention for components"))
  | None => ret tt
  end ;;
  match categories analysis with
  | Some c =>
      when (0 <? List.length (api c))%nat
        (push "- API route patterns and data fetching conventions")
  | None => ret tt
  end ;;
  when (truthyStr (testing pkg))
    (push ("- Testing patterns using " ++ strOf (testing pkg))).

Definition reportRecommendations (analysis : AnalysisProfile) : M (list string) unit :=
  push "## Recommendations" ;;
  push "" ;;
  push "Based on this analysis, consider updating your agent configurations with:" ;;
  push "" ;;
  fun lines =>
    match recommend analysis [] with
    | (recommendations, Throw e) => (lines, Throw e)
    | (recommendations, Normal _) =>
        (forOf recommendations push ;;
         when (List.length recommendations =? 0)%nat
           (push "- No specific recommendations at this time.") ;;
         push "" ;;
         push "---" ;;
         push "" ;;
         push "*Run `npx agents-analyze` again after making changes to update this report.*")
        lines
    end.

(** The statements of [generateAnalysisReport] after the first four
    lines; none of them reads the clock. *)
Definition reportBody (analysis : AnalysisProfile) : M (list string) unit :=
  reportOverview analysis ;;
  reportTechStack analysis ;;
  reportStructure analysis ;;
  reportConventions analysis ;;
  reportTsConfig analysis ;;
  reportSetup analysis ;;
  reportAgents analysis ;;
  reportRecommendations analysis.

(** The statements of [generateAnalysisReport] on the [lines] array. *)
Definition reportLines (now : string) (analysis : AnalysisProfile)
  : M (list string) unit :=
  push "# Project Analysis Report" ;;
  push "" ;;
  push (stampLine now) ;;
  push "" ;;
  reportBody analysis.

(** [generateAnalysisReport(analysis)], run at the instant [now]. *)
Definition generateAnalysisReport (now : string) (analysis : AnalysisProfile)
  : completion string :=
  match reportLines now analysis [] with
  | (lines, Normal _) => Normal (join newline lines)
  | (_, Throw e) => Throw e
  end.

(* =================================================================== *)
(** * Report Renderer: the condensed agent summary *)
(* =================================================================== *)

Definition contextHeader : M (list string) unit :=
  push "# Project Context" ;;
  push "" ;;
  push "> **This file provides project-specific context for AI coding assistants.**" ;;
  push "> Auto-generated by `npx agents-analyze`. Edit as needed." ;;
  push ">" ;;
  push "> This file **extends** the general guidelines in [AGENTS.md](./AGENTS.md)." ;;
  push "> Project-specific patterns here override generic rules when they conflict." ;;
  push "".

Definition contextIdentity (analysis : AnalysisProfile) : M (list string) unit :=
  let pkg := packageJson analysis in
  push "## Project Identity" ;;
  push "" ;;
  when (truthy (name pkg))
    (n <- lift (ToString (name pkg)) ;; push ("- **Name:** " ++ n)) ;;
  match readme analysis with
  | Some r => when (truthyStr (description r))
                (push ("- **Purpose:** " ++ strOf (description r)))
  | None => ret tt
  end ;;
  push "".

(** The [stack] array. *)
Definition stackOf (pkg : PackageAnalysis) : list string :=
  ((if truthyStr (framework pkg) then [strOf (framework pkg)] else [])
   ++ (if truthyStr (styling pkg) then [strOf (styling pkg)] else [])
   ++ (if truthyStr (database pkg) then [strOf (database pkg)] else [])
   ++ (if truthyStr (testing pkg) then [strOf (testing pkg)] else [])
   ++ (if array_includes (features pkg) "TypeScript" then ["TypeScript"] else []))%list.

Definition contextStack (analysis : AnalysisProfile) : M (list string) unit :=
  let pkg := packageJson analysis in
  push "## Technology Stack" ;;
  push "" ;;
  push (join " + " (stackOf pkg)) ;;
  push "" ;;
  when (0 <? List.length (features pkg))%nat
    (push "### Additional Libraries" ;;
     forOf (features pkg) (fun feature => push ("- " ++ feature)) ;;
     push "").

Definition contextOrganization (analysis : AnalysisProfile) : M (list string) unit :=
  push "## File Organization" ;;
  push "" ;;
  match categories analysis with
  | Some c =>
      match components c with
      | first :: _ =>
          let componentDir := split0 "/" first in
          push ("- **Components:** `" ++ componentDir ++ "/` ("
                ++ of_nat (List.length (components c)) ++ " files)")
      | [] => ret tt
      end ;;
      match pages c with
      | first :: _ =>
          let pagesDir := split0 "/" first in
          push ("- **Pages/Routes:** `" ++ pagesDir ++ "/` ("
                ++ of_nat (List.length (pages c)) ++ " files)")
      | [] => ret tt
      end ;;
      when (0 <? List.length (api c))%nat
        (push ("- **API Routes:** " ++ of_nat (List.length (api c)) ++ " files")) ;;
      when (0 <? List.length (hooks c))%nat
        (push ("- **Custom Hooks:** " ++ of_nat (List.length (hooks c)) ++ " files")) ;;
      when (0 <? List.length (utils c))%nat
        (push ("- **Utilities:** " ++ of_nat (List.length (utils c)) ++ " files"))
  | None => ret tt
  end ;;
  push "".

Definition contextStandards (analysis : AnalysisProfile) : M (list string) unit :=
  push "## Coding Standards" ;;
  push "" ;;
  match conventions analysis with
  | Some c =>
      push ("- **Component naming:** " ++ orDefault (componentStyle c) "PascalCase") ;;
      push ("- **File extension:** " ++ orDefault (fileExtension c) ".tsx") ;;
      push ("- **Test files:** " ++ orDefault (testNaming c) ".test.")
  | None => ret tt
  end ;;
  match tsconfig analysis with
  | Some ts =>
      when (truthy (strict ts)) (push "- **TypeScript:** Strict mode enabled") ;;
      when (truthy (paths ts))
        (keys <- lift (objectKeys (paths ts)) ;;
         when (0 <? List.length keys)%nat
           (push "- **Import aliases:** Use `@/` prefix for src imports"))
  | None => ret tt
  end ;;
  push "".

Definition importantScripts : list string :=
  ["dev"; "build"; "start"; "test"; "lint"; "format"].

Definition contextScripts (analysis : AnalysisProfile) : M (list string) unit :=
  let scr := scripts (packageJson analysis) in
  when (truthy scr)
    (keys <- lift (objectKeys scr) ;;
     when (0 <? List.length keys)%nat
       (push "## Available Scripts" ;;
        push "" ;;
        forOf importantScripts (fun script =>
          command <- lift (getProp scr script) ;;
          when (truthy command)
            (c <- lift (ToString command) ;;
             push ("- `npm run " ++ script ++ "` - " ++ c))) ;;
        push "")).

Definition contextPatterns : M (list string) unit :=
  push "## Project-Specific Patterns" ;;
  push "" ;;
  push "<!-- Add project-specific patterns, conventions, and notes below -->" ;;
  push "" ;;
  push "- [ ] TODO: Document component composition patterns" ;;
  push "- [ ] TODO: Document state management approach" ;;
  push "- [ ] TODO: Document API/data fetching patterns" ;;
  push "- [ ] TODO: Document error handling conventions" ;;
  push "".

(** The statements of [generateProjectContext] on the [lines] array. *)
Definition contextLines (analysis : AnalysisProfile) : M (list string) unit :=
  contextHeader ;;
  contextIdentity analysis ;;
  contextStack analysis ;;
  contextOrganization analysis ;;
  contextStandards analysis ;;
  contextScripts analysis ;;
  contextPatterns.

(** [generateProjectContext(analysis)] *)
Definition generateProjectContext (analysis : AnalysisProfile)
  : completion string :=
  match contextLines analysis [] with
  | (lines, Normal _) => Normal (join newline lines)
  | (_, Throw e) => Throw e
  end.

(* =================================================================== *)
(** * Verifier: the framework check *)
(* =================================================================== *)

(** [analysis.packageJson.framework?.toLowerCase().split(' ')[0]]:
    [None] is [undefined]. *)
Definition detectedFrameworkOf (analysis : AnalysisProfile) : option string :=
  match framework (packageJson analysis) with
  | Some f => Some (split0 " " (toLowerCase f))
  | None => None
  end.

(** The last block of [verifyConfiguration], on the [warnings] array:
    the check of the persisted framework against the detected one. *)
Definition verifyFramework (analysis : AnalysisProfile) : M (list string) unit :=
  let project := getPropOpt (projectConfig analysis) "project" in
  when (truthy project)
    (configFramework <- lift (getProp project "framework") ;;
     let detectedFramework := detectedFrameworkOf analysis in
     if truthy configFramework && truthyStr detectedFramework then
       searchString <- lift (ToString configFramework) ;;
       when (negb (includes (strOf detectedFramework) searchString))
         (push ("Framework mismatch: config says '" ++ searchString
                ++ "' but detected '" ++ strOf detectedFramework ++ "'"))
     else ret tt).

(* =================================================================== *)
(** * The rule table of the specification *)
(* =================================================================== *)

(** The merged dependency object of a parsed manifest that is not
    [null]. *)
Definition depsOf (pkg : value) : list (string * value) :=
  spread2 (getPropOpt pkg "dependencies") (getPropOpt pkg "devDependencies").

(** After the specification: a field is resolved by walking a fixed,
    ordered list of rules and taking the first match. *)
Fixpoint firstMatch (rules : list (bool * string)) : option string :=
  match rules with
  | [] => None
  | (condition, label) :: rules' =>
      if condition then Some label else firstMatch rules'
  end.

(** The framework rules in their order of priority. *)
Definition frameworkRules (deps : list (string * value)) : list (bool * string) :=
  [(has deps "next", "Next.js");
   (has deps "remix" || has deps "@remix-run/react", "Remix");
   (has deps "astro", "Astro");
   (has deps "nuxt", "Nuxt");
   (has deps "svelte" || has deps "@sveltejs/kit", "SvelteKit");
   (has deps "gatsby", "Gatsby");
   (has deps "react", if has deps "vite" then "React (Vite)" else "React");
   (has deps "vue", "Vue")].

Definition stylingRules (deps : list (string * value)) : list (bool * string) :=
  [(has deps "tailwindcss", "Tailwind CSS");
   (has deps "@mui/material", "Material-UI");
   (has deps "styled-components", "Styled Components");
   (has deps "@emotion/react", "Emotion");
   (has deps "sass" || has deps "node-sass", "Sass/SCSS")].

Definition databaseRules (deps : list (string * value)) : list (bool * string) :=
  [(has deps "@supabase/supabase-js", "Supabase");
   (has deps "firebase", "Firebase");
   (has deps "@prisma/client", "Prisma");
   (has deps "drizzle-orm", "Drizzle");
   (has deps "mongoose", "MongoDB (Mongoose)")].

Definition testingRules (deps : list (string * value)) : list (bool * string) :=
  [(has deps "vitest", "Vitest");
   (has deps "jest", "Jest");
   (has deps "@playwright/test", "Playwright");
   (has deps "cypress", "Cypress")].

Definition lintingRules (deps : list (string * value)) : list (bool * string) :=
  [(has deps "eslint", if has deps "prettier" then "ESLint + Prettier" else "ESLint");
   (has deps "biome" || has deps "@biomejs/biome", "Biome")].

Definition buildToolRules (deps : list (string * value)) : list (bool * string) :=
  [(has deps "turbo" || has deps "@turbo/gen", "Turborepo");
   (has deps "nx", "Nx");
   (has deps "vite", "Vite");
   (has deps "webpack", "Webpack")].


End JS.

Arguments VUndefined {number}.
Arguments VNull {number}.
Arguments VBool {number} b.
Arguments VNumber {number} n.
Arguments VString {number} s.
Arguments VArray {number} elems.
Arguments VObject {number} props.

(* ===================================================================== *)
(** * Counting, for the statements about the tallies *)
(* ===================================================================== *)

Definition countIf (p : string -> bool) (l : list string) : nat :=
  List.length (filter p l).

(** The name the shape tests look at: the base name without extension. *)
Definition stem (file : string) : string :=
  Path.basename_suffix file (Path.extname file).

(** The three shape classes, made exclusive by the order of the tests. *)
Definition isPascal (file : string) : bool := matches_pascal (stem file).
Definition isCamel (file : string) : bool :=
  negb (matches_pascal (stem file)) && matches_camel (stem file).
Definition isKebab (file : string) : bool :=
  negb (matches_pascal (stem file)) && negb (matches_camel (stem file))
  && matches_kebab (stem file).

Definition isTsx (file : string) : bool := String.eqb (Path.extname file) ".tsx".
Definition isJsx (file : string) : bool :=
  negb (String.eqb (Path.extname file) ".tsx") && String.eqb (Path.extname file) ".jsx".

Definition isTest (file : string) : bool := includes file ".test.".
Definition isSpec (file : string) : bool :=
  negb (includes file ".test.") && includes file ".spec.".

Definition isIndex (file : string) : bool := String.eqb (stem file) "index".

(** The consistency the specification describes for the framework check:
    after lowercasing, one string contains the other. *)
Definition consistentAsClaimed (persisted detected : string) : bool :=
  includes (toLowerCase detected) (toLowerCase persisted)
  || includes (toLowerCase persisted) (toLowerCase detected).

(* ===================================================================== *)
(** * Inputs of the examples *)
(* ===================================================================== *)

(** An engine whose stack holds a thousand nested conversions. *)
Definition exampleStack : nat := 1000.

(** A tree with an unreadable directory [/p/secret] next to a readable
    one, [/p/src]. *)
Definition softFailFs : filesystem :=
  mkFs (fun _ => false) (fun _ => Throw SystemError)
       (fun d =>
          if String.eqb d "/p" then
            Normal [mkDirent "secret" true; mkDirent "a.ts" false;
                    mkDirent "src" true; mkDirent ".git" true]
          else if String.eqb d "/p/src" then Normal [mkDirent "b.ts" false]
          else Throw SystemError).


(** A directory [/p/sub] with one file and two empty directories: on an
    engine that takes one argument its files fit a call and its
    directories do not. *)
Definition lopsidedFs : filesystem :=
  mkFs (fun _ => false) (fun _ => Throw SystemError)
       (fun d =>
          if String.eqb d "/p" then Normal [mkDirent "sub" true]
          else if String.eqb d "/p/sub" then
            Normal [mkDirent "a.ts" false; mkDirent "x" true; mkDirent "y" true]
          else if String.eqb d "/p/sub/x" then Normal []
          else if String.eqb d "/p/sub/y" then Normal []
          else Throw SystemError).

(** Numbers as naturals, for the examples: zero is the false one. *)
Definition natTruthy (n : nat) : bool := negb (Nat.eqb n 0).

(** A manifest with a [next] key of empty version and a [react] key. *)
Definition emptyNextManifest : value nat :=
  VObject [("name", VString "demo");
           ("dependencies",
            VObject [("next", VString ""); ("react", VString "18.2.0")])].

(** The manifest of the scenario of the specification. *)
Definition nextManifest : value nat :=
  VObject [("name", VString "demo");
           ("dependencies",
            VObject [("next", VString "14.0.0"); ("react", VString "18.2.0");
                     ("tailwindcss", VString "4.0.0")])].

(** A manifest whose [react] version is a number: [includes] is not a
    function of numbers. *)
Definition numberReactManifest : value nat :=
  VObject [("name", VString "demo");
           ("dependencies", VObject [("react", VNumber 18)])].

(** A parser that knows three texts. *)
Definition parseExample (text : string) : completion (value nat) :=
  if String.eqb text "empty-next" then Normal emptyNextManifest
  else if String.eqb text "next" then Normal nextManifest
  else if String.eqb text "number-react" then Normal numberReactManifest
  else Throw SyntaxError.

(** A project directory whose manifest has the given text. *)
Definition manifestFs (text : string) : filesystem :=
  mkFs (fun p => String.eqb p "/p/package.json")
       (fun p => if String.eqb p "/p/package.json" then Normal text
                 else Throw SystemError)
       (fun _ => Throw SystemError).

Definition noKeyFiles : KeyFiles :=
  mkKeyFiles false false false false false false false false false false.

(** A profile with a persisted framework and a detected one, and with
    conventions that have no winner. *)
Definition exampleProfile (persisted detected : string) : AnalysisProfile nat :=
  mkProfile nat emptyScan (Some no_categories)
    (Some (mkConventions None None None false false))
    (set_framework nat detected (initialAnalysis nat))
    None
    (VObject [("version", VString "1.1.0");
              ("project", VObject [("framework", VString persisted)])])
    [] None noKeyFiles.

(** A project directory whose TypeScript configuration has the given
    text, and nothing else. *)
Definition tsconfigFs (text : string) : filesystem :=
  mkFs (fun p => String.eqb p "/p/tsconfig.json")
       (fun p => if String.eqb p "/p/tsconfig.json" then Normal text
                 else Throw SystemError)
       (fun _ => Throw SystemError).

(** A profile whose persisted configuration lists two agents, one of
    them with a detected file. *)
Definition agentsProfile : AnalysisProfile nat :=
  mkProfile nat emptyScan (Some no_categories)
    (Some (mkConventions None None None false false))
    (initialAnalysis nat)
    None
    (VObject [("version", VString "1.1.0");
              ("agents", VArray [VString "claude"; VString "cursor"])])
    [(claude, mkAgentConfig "CLAUDE.md" (Some 10%N))]
    None noKeyFiles.

(** A project with the [.agents] folder and nothing else. *)
Definition agentsOnlyFs : filesystem :=
  mkFs (fun p => String.eqb p "/p/.agents")
       (fun _ => Throw SystemError)
       (fun _ => Throw SystemError).

(** A profile with a package name, scripts and a TypeScript
    configuration with a base URL and a path alias. *)
Definition renderedProfile : AnalysisProfile nat :=
  mkProfile nat emptyScan (Some no_categories)
    (Some (mkConventions None None None false false))
    (set_scripts nat (VObject [("dev", VString "vite"); ("build", VString "vite build")])
       (set_name nat (VString "demo") (initialAnalysis nat)))
    (Some (mkTsConfig nat (VBool true) (VString ".")
             (VObject [("@/*", VArray [VString "./src/*"])]) VNull VNull))
    VNull [] None noKeyFiles.

(** The manifest of a Gatsby site, and a parser that knows its text. *)
Definition gatsbyManifest : value nat :=
  VObject [("name", VString "site");
           ("dependencies",
            VObject [("gatsby", VString "5.0.0"); ("react", VString "18.2.0")])].

Definition parseGatsby (text : string) : completion (value nat) :=
  if String.eqb text "gatsby" then Normal gatsbyManifest else Throw SyntaxError.

(** The double quote of a JSON text. *)
Definition dq : string := String "034" EmptyString.

(** [{ "baseUrl": "http:] and [host/src",]: the two sides of the [//] of
    a URL in a configuration. *)
Definition urlBefore : string :=
  ("{ " ++ dq ++ "baseUrl" ++ dq ++ ": " ++ dq ++ "http:")%string.

Definition urlAfter : string := ("host/src" ++ dq ++ ",")%string.

(** A configuration with the path alias [@/*] and the glob [**/*.ts],
    cut at the [/*] of the alias and at the [*/] of the glob. *)
Definition aliasBefore : string :=
  ("{ " ++ dq ++ "paths" ++ dq ++ ": { " ++ dq ++ "@")%string.

Definition aliasBody : string :=
  (dq ++ ": [" ++ dq ++ "./src/*" ++ dq ++ "] }, "
      ++ dq ++ "include" ++ dq ++ ": [" ++ dq ++ "*")%string.

Definition globAfter : string := ("*.ts" ++ dq ++ "] }")%string.

(** A configuration with the path alias alone. *)
Definition aliasOnly : string :=
  ("{ " ++ dq ++ "paths" ++ dq ++ ": { " ++ dq ++ "@/*" ++ dq ++ ": ["
        ++ dq ++ "./src/*" ++ dq ++ "] } }")%string.

(* ===================================================================== *)
(** * Comments in the TypeScript configuration *)
(* ===================================================================== *)

(** The line terminators, which [.] does not match: line feed, carriage
    return, and U+2028 and U+2029 in their UTF-8 bytes. *)
Definition lineTerminators : list string :=
  [String "010" EmptyString; String "013" EmptyString;
   String "226" (String "128" (String "168" EmptyString));
   String "226" (String "128" (String "169" EmptyString))].

Definition atLineTerminator (s : string) : bool :=
  existsb (fun t => String.prefix t s) lineTerminators.

(** What is left after [.*] at the start of [s]. *)
Fixpoint afterLine (s : string) : string :=
  match s with
  | EmptyString => EmptyString
  | String _ s' => if atLineTerminator s then s else afterLine s'
  end.

(** What is left after [[\s\S]*?\*\/] at the start of [s]: the text
    behind the first [*/], when there is one. *)
Fixpoint afterClose (s : string) : option string :=
  match s with
  | EmptyString => None
  | String _ s' =>
      if String.prefix "*/" s
      then match s' with
           | String _ rest => Some rest
           | EmptyString => None
           end
      else afterClose s'
  end.

(** A match of [/\/\*[\s\S]*?\*\/|\/\/.*/] at the start of [s]: the text
    behind the match. *)
Definition matchComment (s : string) : option string :=
  match s with
  | String "/" (String "*" body) =>
      match afterClose body with
      | Some rest => Some rest
      | None => None
      end
  | String "/" (String "/" line) => Some (afterLine line)
  | _ => None
  end.

(** The replacement, from left to right: a match is dropped and the scan
    goes on behind it, another character is kept. [fuel] bounds the
    number of steps. *)
Fixpoint stripFrom (fuel : nat) (s : string) : string :=
  match fuel with
  | 0 => s
  | S fuel' =>
      match s with
      | EmptyString => EmptyString
      | String c s' =>
          match matchComment s with
          | Some rest => stripFrom fuel' rest
          | None => String c (stripFrom fuel' s')
          end
      end
  end.

(** [content.replace(/\/\*[\s\S]*?\*\/|\/\/.*/g, '')]: every step takes
    at least one character. *)
Definition stripComments (content : string) : string :=
  stripFrom (String.length content) content.

(** The strings a [for...of] over a string yields: one for each code
    point, that is, for each byte that is not a continuation byte, with
    the continuation bytes behind it. *)
Definition isContinuation (a : ascii) : bool :=
  Nat.leb 128 (nat_of_ascii a) && Nat.ltb (nat_of_ascii a) 192.

Fixpoint codePoints (s : string) : list string :=
  match s with
  | EmptyString => []
  | String a s' =>
      match s' with
      | String b _ =>
          if isContinuation b then
            match codePoints s' with
            | next :: rest => String a next :: rest
            | [] => [String a EmptyString]
            end
          else String a EmptyString :: codePoints s'
      | EmptyString => [String a EmptyString]
      end
  end.

(* ===================================================================== *)
(** * The other analyses and the verifier *)
(* ===================================================================== *)

Section Engine.

Variable number : Type.
Variable number_truthy : number -> bool.
Variable number_toString : number -> string.
Variable stackDepth : nat.
Variable JSON_parse : string -> completion (value number).

Local Abbreviation value := (value number).
Local Abbreviation truthy := (truthy number number_truthy).
Local Abbreviation getProp := (getProp number).
Local Abbreviation getPropOpt := (getPropOpt number).
Local Abbreviation ToString := (ToString number number_toString stackDepth).
Local Abbreviation TsConfigAnalysis := (TsConfigAnalysis number).
Local Abbreviation AnalysisProfile := (AnalysisProfile number).

(* ------------------------------------------------------------------- *)
(** ** TypeScript configuration *)

(** The [analysis] object [analyzeTypeScriptConfig] starts from. *)
Definition initialTsConfig : TsConfigAnalysis :=
  mkTsConfig number (VBool false) VNull (VObject []) VNull VNull.

Definition set_strict v (a : TsConfigAnalysis) :=
  mkTsConfig number v (baseUrl number a) (paths number a) (target number a) (jsx number a).
Definition set_baseUrl v (a : TsConfigAnalysis) :=
  mkTsConfig number (strict number a) v (paths number a) (target number a) (jsx number a).
Definition set_paths v (a : TsConfigAnalysis) :=
  mkTsConfig number (strict number a) (baseUrl number a) v (target number a) (jsx number a).
Definition set_target v (a : TsConfigAnalysis) :=
  mkTsConfig number (strict number a) (baseUrl number a) (paths number a) v (jsx number a).
Definition set_jsx v (a : TsConfigAnalysis) :=
  mkTsConfig number (strict number a) (baseUrl number a) (paths number a) (target number a) v.

(** What every result of the analysis satisfies: the path aliases are
    never null, the strict flag is [false] or a truthy value. *)
Definition tsConfigSound (a : TsConfigAnalysis) : Prop :=
  truthy (paths number a) = true
  /\ (strict number a = VBool false \/ truthy (strict number a) = true).

(** The [try] block of [analyzeTypeScriptConfig]. *)
Definition inspectTsConfig (fs : filesystem) (tsconfigPath : string)
  : M TsConfigAnalysis unit :=
  content <- lift (readFileSync fs tsconfigPath) ;;
  let cleaned := stripComments content in
  tsconfig <- lift (JSON_parse cleaned) ;;
  compilerOptions <- lift (getProp tsconfig "compilerOptions") ;;
  let opts := if truthy compilerOptions then compilerOptions else VObject [] in
  optStrict <- lift (getProp opts "strict") ;;
  modify (set_strict (if truthy optStrict then optStrict else VBool false)) ;;
  optBaseUrl <- lift (getProp opts "baseUrl") ;;
  modify (set_baseUrl optBaseUrl) ;;
  optPaths <- lift (getProp opts "paths") ;;
  modify (set_paths (if truthy optPaths then optPaths else VObject [])) ;;
  optTarget <- lift (getProp opts "target") ;;
  modify (set_target optTarget) ;;
  optJsx <- lift (getProp opts "jsx") ;;
  modify (set_jsx optJsx).

(** [analyzeTypeScriptConfig(projectDir)]: [null] without the file. *)
Definition analyzeTypeScriptConfig (fs : filesystem) (projectDir : string)
  : completion (option TsConfigAnalysis) :=
  let tsconfigPath := Path.join2 projectDir "tsconfig.json" in
  if negb (existsSync fs tsconfigPath) then Normal None
  else
    match try_catch (inspectTsConfig fs tsconfigPath) (fun _ => ret tt)
                    initialTsConfig with
    | (analysis, Normal _) => Normal (Some analysis)
    | (_, Throw e) => Throw e
    end.

(* ------------------------------------------------------------------- *)
(** ** Persisted configuration *)

(** [loadProjectConfig(projectDir)]: [null] without the file and on a
    file that cannot be read or parsed. *)
Definition loadProjectConfig (fs : filesystem) (projectDir : string)
  : completion value :=
  let configPath := Path.join2 projectDir ".agents-project.json" in
  if negb (existsSync fs configPath) then Normal VNull
  else
    match readFileSync fs configPath with
    | Normal content =>
        match JSON_parse content with
        | Normal config => Normal config
        | Throw _ => Normal VNull
        end
    | Throw _ => Normal VNull
    end.

(* ------------------------------------------------------------------- *)
(** ** Agent files and key files *)

(** The keys of [AGENTS], in the order of the object. *)
Definition agentKeys : list AgentKey :=
  [copilot; claude; cursor; gemini; codex; windsurf].

Definition agentKeyName (k : AgentKey) : string :=
  match k with
  | copilot => "copilot" | claude => "claude" | cursor => "cursor"
  | gemini => "gemini" | codex => "codex" | windsurf => "windsurf"
  end.

Definition agentOfName (key : string) : option AgentKey :=
  find (fun k => String.eqb (agentKeyName k) key) agentKeys.

Definition sameAgent (a b : AgentKey) : bool :=
  String.eqb (agentKeyName a) (agentKeyName b).

(** [detectAgentConfigs(projectDir)]; [statSize p] is
    [fs.statSync(p).size]. The entry of a file that cannot be read has no
    size; the content and the error message, which nothing reads, are
    left out of the entries. *)
Definition detectAgentConfigs (fs : filesystem)
           (statSize : string -> completion N) (projectDir : string)
  : list (AgentKey * AgentConfig) :=
  flat_map
    (fun key =>
       let agent := AGENTS key in
       let filePath := Path.join2 projectDir (agent_file agent) in
       if existsSync fs filePath then
         match readFileSync fs filePath, statSize filePath with
         | Normal _, Normal sz => [(key, mkAgentConfig (agent_file agent) (Some sz))]
         | _, _ => [(key, mkAgentConfig (agent_file agent) None)]
         end
       else [])
    agentKeys.

(** [detectKeyFiles(projectDir)] *)
Definition detectKeyFiles (fs : filesystem) (projectDir : string) : KeyFiles :=
  let present (p : string) := existsSync fs (Path.join2 projectDir p) in
  mkKeyFiles
    (present "README.md")
    (present "CONTRIBUTING.md")
    (present "LICENSE")
    (present "CHANGELOG.md")
    (present ".env.example" || present ".env.local.example")
    (present "Dockerfile" || present "docker-compose.yml")
    (present ".github/workflows")
    (present ".husky")
    (present ".editorconfig")
    (present ".nvmrc").

(* ------------------------------------------------------------------- *)
(** ** Verifier *)

Record VerifyResult : Type := mkVerify {
  issues : list string;
  warnings : list string;
  successes : list string;
}.

Definition noFindings : VerifyResult := mkVerify [] [] [].

Definition pushIssue (l : string) : M VerifyResult unit :=
  modify (fun r => mkVerify (issues r ++ [l]) (warnings r) (successes r)).
Definition pushWarning (l : string) : M VerifyResult unit :=
  modify (fun r => mkVerify (issues r) (warnings r ++ [l]) (successes r)).
Definition pushSuccess (l : string) : M VerifyResult unit :=
  modify (fun r => mkVerify (issues r) (warnings r) (successes r ++ [l])).

(** Statements on the [warnings] array, as statements of the verifier. *)
Definition onWarnings {A} (m : M (list string) A) : M VerifyResult A :=
  fun r =>
    let (w, c) := m (warnings r) in
    (mkVerify (issues r) w (successes r), c).

(** [for (const x of v)] for a truthy [v]: the elements of an array, the
    code points of a string; nothing else that JSON gives is iterable. *)
Definition iterate (v : value) : completion (list value) :=
  match v with
  | VArray elems => Normal elems
  | VString s => Normal (map (fun c => VString c) (codePoints s))
  | _ => Throw TypeError
  end.

(** The properties every object inherits from [Object.prototype], with
    what [`${AGENTS[key].name}`] prints for each: the name of the
    inherited function, ["Object"] for the constructor, and ["undefined"]
    for [__proto__], which is the prototype itself. *)
Definition inheritedName (key : string) : option string :=
  if String.eqb key "__proto__" then Some "undefined"
  else if String.eqb key "constructor" then Some "Object"
  else if array_includes
            ["__defineGetter__"; "__defineSetter__"; "hasOwnProperty";
             "__lookupGetter__"; "__lookupSetter__"; "isPrototypeOf";
             "propertyIsEnumerable"; "toString"; "valueOf"; "toLocaleString"]
            key
  then Some key
  else None.

(** [analysis.agentConfigs[key]], as a condition, for a key of
    [AGENTS]. *)
Definition detected (analysis : AnalysisProfile) (k : AgentKey) : bool :=
  existsb (fun entry => sameAgent (fst entry) k) (agentConfigs number analysis).

(** The body of the loop over the persisted agents. *)
Definition verifyAgent (analysis : AnalysisProfile) (agent : value)
  : M VerifyResult unit :=
  key <- lift (ToString agent) ;;
  let missing :=
    pushWarning ("Agent '" ++ key ++ "' listed in config but no config file found") in
  match agentOfName key with
  | Some k =>
      if detected analysis k
      then pushSuccess (agent_name (AGENTS k) ++ " config file exists")
      else missing
  | None =>
      match inheritedName key with
      | Some printed => pushSuccess (printed ++ " config file exists")
      | None => missing
      end
  end.

Definition verifyProjectConfig (analysis : AnalysisProfile) : M VerifyResult unit :=
  let config := projectConfig number analysis in
  if negb (truthy config) then
    pushIssue "Missing .agents-project.json - run `npx agents-init` first"
  else
    pushSuccess ".agents-project.json exists" ;;
    version <- lift (getProp config "version") ;;
    when (negb match version with
               | VString v => String.eqb v "1.1.0"
               | _ => false
               end)
      (v <- lift (ToString version) ;;
       pushWarning ("Config version " ++ v
                    ++ " - consider running agents-init to update")).

Definition verifyAgentsFolder (fs : filesystem) (agentsDir : string)
  : M VerifyResult unit :=
  if negb (existsSync fs agentsDir) then
    pushIssue "Missing .agents/ folder - run `npx agents-init` first"
  else
    pushSuccess ".agents/ folder exists" ;;
    if negb (existsSync fs (Path.join2 agentsDir "AGENTS.md")) then
      pushIssue "Missing .agents/AGENTS.md"
    else pushSuccess ".agents/AGENTS.md exists".

Definition verifyAgents (analysis : AnalysisProfile) : M VerifyResult unit :=
  let agents := getPropOpt (projectConfig number analysis) "agents" in
  when (truthy agents)
    (elems <- lift (iterate agents) ;;
     forOf elems (verifyAgent analysis)).

Definition verifyProjectContext (fs : filesystem) (agentsDir : string)
  : M VerifyResult unit :=
  if negb (existsSync fs (Path.join2 agentsDir "PROJECT-CONTEXT.md")) then
    pushWarning "Missing .agents/PROJECT-CONTEXT.md - run `npx agents-analyze` to generate"
  else pushSuccess ".agents/PROJECT-CONTEXT.md exists".

(** The statements of [verifyConfiguration]. *)
Definition verifyStatements (fs : filesystem) (projectDir : string)
           (analysis : AnalysisProfile) : M VerifyResult unit :=
  let agentsDir := Path.join2 projectDir ".agents" in
  verifyProjectConfig analysis ;;
  verifyAgentsFolder fs agentsDir ;;
  verifyAgents analysis ;;
  verifyProjectContext fs agentsDir ;;
  onWarnings (verifyFramework number number_truthy number_toString stackDepth analysis).

(** [verifyConfiguration(projectDir, analysis)] *)
Definition verifyConfiguration (fs : filesystem) (projectDir : string)
           (analysis : AnalysisProfile) : completion VerifyResult :=
  match verifyStatements fs projectDir analysis noFindings with
  | (result, Normal _) => Normal result
  | (_, Throw e) => Throw e
  end.

(* ------------------------------------------------------------------- *)
(** ** Assembly *)

(** The analyses of the [try] block of [main] on the project directory
    and the object it assembles from them; [analyzeReadme], which is
    left out, gives [readmeAnalysis]. The walk starts with the default
    depth limit. [main] comes here only past its check of the
    prerequisites: see [mainAnalysis]. *)
Definition assembleAnalysis (maxArgs : nat) (fs : filesystem)
           (statSize : string -> completion N) (projectDir : string)
           (readmeAnalysis : option ReadmeAnalysis)
  : completion AnalysisProfile :=
  match scanDirectory maxArgs fs projectDir 10 0 with
  | Throw e => Throw e
  | Normal fileStructure =>
      let categories := categorizeFiles projectDir (files fileStructure) projectDir in
      let conventions := analyzeNamingConventions (files fileStructure) in
      match analyzePackageJson number number_truthy number_toString stackDepth JSON_parse
                               fs projectDir with
      | Throw e => Throw e
      | Normal packageJson =>
          match analyzeTypeScriptConfig fs projectDir with
          | Throw e => Throw e
          | Normal tsconfig =>
              match loadProjectConfig fs projectDir with
              | Throw e => Throw e
              | Normal projectConfig =>
                  Normal (mkProfile number fileStructure (Some categories)
                            (Some conventions) packageJson tsconfig projectConfig
                            (detectAgentConfigs fs statSize projectDir)
                            readmeAnalysis
                            (detectKeyFiles fs projectDir))
              end
          end
      end
  end.

(** How far [main] gets: it leaves through [process.exit], or it has
    the profile. *)
Inductive Progress : Type :=
| Exited (code : nat)
| Analysed (analysis : AnalysisProfile).

(** [main] up to the assembled profile: without a persisted
    configuration and without an [.agents] folder it exits with 1 before
    any analysis. *)
Definition mainAnalysis (maxArgs : nat) (fs : filesystem)
           (statSize : string -> completion N) (projectDir : string)
           (readmeAnalysis : option ReadmeAnalysis)
  : completion Progress :=
  let agentsProjectPath := Path.join2 projectDir ".agents-project.json" in
  let agentsDir := Path.join2 projectDir ".agents" in
  if negb (existsSync fs agentsProjectPath) && negb (existsSync fs agentsDir)
  then Normal (Exited 1)
  else
    match assembleAnalysis maxArgs fs statSize projectDir readmeAnalysis with
    | Normal analysis => Normal (Analysed analysis)
    | Throw e => Throw e
    end.

End Engine.

(* ===================================================================== *)
(** * agents-init: what it detects and what it persists *)
(* ===================================================================== *)

(** [bin/agents-init.js] is the program that writes the persisted
    configuration the verifier reads. Its table [AGENTS] has the keys,
    in the same order, and the files of the table of the analysis
    engine, so [AGENTS] and [agentKeys] serve for both. *)

Section InitProgram.

Variable number : Type.
Variable number_truthy : number -> bool.
Variable JSON_parse : string -> completion (value number).

Local Abbreviation value := (value number).
Local Abbreviation getProp := (getProp number).

(** The [detected] object of [detectExistingConfig]. *)
Record Detected : Type := mkDetected {
  detected_agents : list AgentKey;
  detected_framework : option string;
  detected_styling : option string;
  detected_database : option string;
  detected_gemini : bool;
  detected_storybook : bool;
  detected_threejs : bool;
  detected_hasAgentsFolder : bool;
}.

Definition initialDetected : Detected :=
  mkDetected [] None None None false false false false.

Definition push_detected_agent (k : AgentKey) (d : Detected) :=
  mkDetected (detected_agents d ++ [k]) (detected_framework d) (detected_styling d) (detected_database d) (detected_gemini d) (detected_storybook d) (detected_threejs d) (detected_hasAgentsFolder d).
Definition set_detected_framework (v : string) (d : Detected) :=
  mkDetected (detected_agents d) (Some v) (detected_styling d) (detected_database d) (detected_gemini d) (detected_storybook d) (detected_threejs d) (detected_hasAgentsFolder d).
Definition set_detected_styling (v : string) (d : Detected) :=
  mkDetected (detected_agents d) (detected_framework d) (Some v) (detected_database d) (detected_gemini d) (detected_storybook d) (detected_threejs d) (detected_hasAgentsFolder d).
Definition set_detected_database (v : string) (d : Detected) :=
  mkDetected (detected_agents d) (detected_framework d) (detected_styling d) (Some v) (detected_gemini d) (detected_storybook d) (detected_threejs d) (detected_hasAgentsFolder d).
Definition set_detected_gemini (v : bool) (d : Detected) :=
  mkDetected (detected_agents d) (detected_framework d) (detected_styling d) (detected_database d) v (detected_storybook d) (detected_threejs d) (detected_hasAgentsFolder d).
Definition set_detected_storybook (v : bool) (d : Detected) :=
  mkDetected (detected_agents d) (detected_framework d) (detected_styling d) (detected_database d) (detected_gemini d) v (detected_threejs d) (detected_hasAgentsFolder d).
Definition set_detected_threejs (v : bool) (d : Detected) :=
  mkDetected (detected_agents d) (detected_framework d) (detected_styling d) (detected_database d) (detected_gemini d) (detected_storybook d) v (detected_hasAgentsFolder d).
Definition set_detected_hasAgentsFolder (v : bool) (d : Detected) :=
  mkDetected (detected_agents d) (detected_framework d) (detected_styling d) (detected_database d) (detected_gemini d) (detected_storybook d) (detected_threejs d) v.

Section InitDetection.

(** [deps], the merged dependency object. *)
Variable deps : list (string * value).

Local Abbreviation has := (has number number_truthy deps).

Definition detectInitFramework : M Detected unit :=
  if has "next" then modify (set_detected_framework "next")
  else if has "remix" || has "@remix-run/react" then
    modify (set_detected_framework "remix")
  else if has "astro" then modify (set_detected_framework "astro")
  else if has "react" then modify (set_detected_framework "react")
  else ret tt.

Definition detectInitStyling : M Detected unit :=
  if has "tailwindcss" then modify (set_detected_styling "tailwind")
  else if has "@mui/material" then modify (set_detected_styling "mui")
  else if has "styled-components" then modify (set_detected_styling "styled")
  else ret tt.

Definition detectInitDatabase : M Detected unit :=
  if has "@supabase/supabase-js" then modify (set_detected_database "supabase")
  else if has "firebase" then modify (set_detected_database "firebase")
  else if has "@prisma/client" then modify (set_detected_database "prisma")
  else ret tt.

Definition detectInitFeatures : M Detected unit :=
  when (has "@google/generative-ai") (modify (set_detected_gemini true)) ;;
  when (has "storybook" || has "@storybook/react" || has "@storybook/nextjs")
    (modify (set_detected_storybook true)) ;;
  when (has "three" || has "@react-three/fiber")
    (modify (set_detected_threejs true)).

End InitDetection.

(** The [try] block of [detectExistingConfig]. *)
Definition inspectInitManifest (fs : filesystem) (pkgPath : string)
  : M Detected unit :=
  content <- lift (readFileSync fs pkgPath) ;;
  pkg <- lift (JSON_parse content) ;;
  dependencies <- lift (getProp pkg "dependencies") ;;
  devDependencies <- lift (getProp pkg "devDependencies") ;;
  let deps := spread2 number dependencies devDependencies in
  detectInitFramework deps ;;
  detectInitStyling deps ;;
  detectInitDatabase deps ;;
  detectInitFeatures deps.

(** The statements of [detectExistingConfig]. *)
Definition detectStatements (fs : filesystem) (projectDir : string)
  : M Detected unit :=
  forOf agentKeys (fun key =>
    when (existsSync fs (Path.join2 projectDir (agent_file (AGENTS key))))
      (modify (push_detected_agent key))) ;;
  when (existsSync fs (Path.join2 projectDir ".agents"))
    (modify (set_detected_hasAgentsFolder true)) ;;
  let pkgPath := Path.join2 projectDir "package.json" in
  when (existsSync fs pkgPath)
    (try_catch (inspectInitManifest fs pkgPath) (fun _ => ret tt)) ;;
  when (existsSync fs (Path.join2 projectDir ".gemini"))
    (modify (set_detected_gemini true)).

(** [detectExistingConfig(projectDir)] *)
Definition detectExistingConfig (fs : filesystem) (projectDir : string)
  : completion Detected :=
  match detectStatements fs projectDir initialDetected with
  | (detected, Normal _) => Normal detected
  | (_, Throw e) => Throw e
  end.

(** The [config] object [main] passes on; an absent property is
    [None]. *)
Record InitConfig : Type := mkInitConfig {
  config_projectName : option string;
  config_agents : option (list string);
  config_framework : option string;
  config_styling : option string;
  config_database : option string;
  config_gemini : bool;
  config_storybook : bool;
  config_threejs : bool;
}.

(** [o === s] *)
Definition isString (o : option string) (s : string) : bool :=
  match o with
  | Some x => String.eqb x s
  | None => false
  end.

Definition CORE_RULES : list string :=
  ["accessibility"; "component-architecture"; "spec-driven-development";
   "web-performance"].

(** [determineRules(config)] *)
Definition determineRules (config : InitConfig) : list string :=
  (CORE_RULES
   ++ (if isString (config_styling config) "tailwind" then ["tailwind-v4"] else [])
   ++ (if isString (config_styling config) "mui" then ["mui"] else [])
   ++ (if isString (config_database config) "supabase" then ["supabase"] else [])
   ++ (if config_gemini config then ["gemini"] else [])
   ++ (if config_threejs config then ["three-js-react"] else []))%list.

(** [generateProjectConfig(config)], as the value [JSON.parse] gives
    back for the text [JSON.stringify] makes of it; [cwdBase] is
    [path.basename(process.cwd())]. *)
Definition generateProjectConfig (cwdBase : string) (config : InitConfig) : value :=
  VObject
    [("$schema",
      VString "https://raw.githubusercontent.com/ericthayer/agents-config/main/schemas/agents-project.schema.json");
     ("version", VString "1.0.0");
     ("project",
      VObject
        [("name", VString (orDefault (config_projectName config) cwdBase));
         ("framework", VString (orDefault (config_framework config) "react"));
         ("styling", VString (orDefault (config_styling config) "vanilla"));
         ("database", VString (orDefault (config_database config) "none"))]);
     ("agents",
      VArray (map (fun k => VString k)
                  (match config_agents config with
                   | Some agents => agents
                   | None => ["copilot"; "claude"]
                   end)));
     ("features",
      VObject [("gemini", VBool (config_gemini config));
               ("storybook", VBool (config_storybook config));
               ("threejs", VBool (config_threejs config))]);
     ("rules",
      VObject [("include", VArray (map (fun r => VString r) (determineRules config)));
               ("exclude", VArray [])]);
     ("overrides", VObject [])].

(** The [config] object of [main]: what was detected, or else what the
    user chose at the prompt. [selectedAgents] and the three answers are
    what the prompts return, [confirmed] the answer to the question on
    Gemini. *)
Definition initConfig (projectDir : string) (detected : Detected)
           (selectedAgents : list string)
           (frameworkAnswer stylingAnswer databaseAnswer : string)
           (confirmed : bool) : InitConfig :=
  mkInitConfig
    (Some (Path.basename projectDir))
    (Some selectedAgents)
    (Some (orDefault (detected_framework detected) frameworkAnswer))
    (Some (orDefault (detected_styling detected) stylingAnswer))
    (Some (orDefault (detected_database detected) databaseAnswer))
    (detected_gemini detected || array_includes selectedAgents "gemini" || confirmed)
    (detected_storybook detected)
    (detected_threejs detected).

End InitProgram.

(* ===================================================================== *)
(** * Notions for the further properties *)
(* ===================================================================== *)

(** The bucket the cascade gives a file of the list. *)
Definition bucketOf (cwd projectDir file : string) : bucket :=
  categorize (Path.relative cwd projectDir file)
             (Path.extname file) (Path.basename file).

Definition sameBucket (a b : bucket) : bool :=
  match a, b with
  | Components, Components | Pages, Pages | Api, Api | Hooks, Hooks
  | Utils, Utils | Tests, Tests | Styles, Styles | Config, Config
  | Other, Other => true
  | _, _ => false
  end.

(** The number of paths in all the buckets. *)
Definition categorized (c : Categories) : nat :=
  List.length (components c) + List.length (pages c) + List.length (api c)
  + List.length (hooks c) + List.length (utils c) + List.length (tests c)
  + List.length (styles c) + List.length (config c) + List.length (other c).

(** [reached fs root n d]: the directory [d] is [root] followed by [n]
    entries, each a directory entry, not ignored, of the directory
    before it, which can be read. *)
Inductive reached (fs : filesystem) (root : string) : nat -> string -> Prop :=
| reached_root : reached fs root 0 root
| reached_child (n : nat) (d : string) (entries : list dirent) (entry : dirent) :
    reached fs root n d ->
    readdirSync fs d = Normal entries ->
    In entry entries ->
    dirent_isDirectory entry = true ->
    ignoredDir (dirent_name entry) = false ->
    reached fs root (S n) (Path.join2 d (dirent_name entry)).

(** [p] is a file entry of the directory [d]. *)
Definition fileEntryOf (fs : filesystem) (d p : string) : Prop :=
  exists entries entry,
    readdirSync fs d = Normal entries
    /\ In entry entries
    /\ dirent_isDirectory entry = false
    /\ p = Path.join2 d (dirent_name entry).

(** The counters of a result against its lists: the directories
    counted are the directories listed; the files counted are never more
    than the files listed, and fewer when the spread of the directories
    of a subdirectory threw after the spread of its files. *)
Definition countsWithin (r : ScanResult) : Prop :=
  totalDirs r = List.length (dirs r) /\ totalFiles r <= List.length (files r).

(** A result whose counters are within its lists and whose files and
    directories all satisfy the given properties. *)
Definition good (goodFile goodDir : string -> Prop) (r : ScanResult) : Prop :=
  countsWithin r
  /\ (forall p, In p (files r) -> goodFile p)
  /\ (forall p, In p (dirs r) -> goodDir p).

(** [noOverflow maxArgs fs remaining dir]: in the walk of [dir] with
    [remaining] levels left no spread throws: the result of every
    subdirectory that is walked fits one call. *)
Fixpoint noOverflow (maxArgs : nat) (fs : filesystem) (remaining : nat)
         (dir : string) : Prop :=
  match remaining with
  | 0 => True
  | S remaining' =>
      match readdirSync fs dir with
      | Throw _ => True
      | Normal entries =>
          forall entry, In entry entries ->
            dirent_isDirectory entry = true ->
            ignoredDir (dirent_name entry) = false ->
            let child := Path.join2 dir (dirent_name entry) in
            noOverflow maxArgs fs remaining' child
            /\ forall sub, scanLevels maxArgs fs remaining' child = Normal sub ->
                           fits maxArgs sub
      end
  end.

(** A line without line feed, carriage return and the first byte of
    U+2028 and U+2029: [.*] matches all of it. *)
Definition plainLine (line : string) : bool :=
  forallb_string
    (fun a => negb (Ascii.eqb a "010") && negb (Ascii.eqb a "013")
              && negb (Ascii.eqb a "226"))
    line.

(** [preserves inv m]: the statement [m] keeps the invariant [inv] of the
    object, also when it throws. *)
Definition preserves {S A} (inv : S -> Prop) (m : M S A) : Prop :=
  forall s, inv s -> inv (fst (m s)).

(** [succeeds m]: the statement [m] never throws. *)
Definition succeeds {S A} (m : M S A) : Prop :=
  forall s, exists a, snd (m s) = Normal a.

Section ManifestNotions.

Variable number : Type.
Variable number_truthy : number -> bool.
Variable number_toString : number -> string.
Variable stackDepth : nat.

Local Abbreviation value := (value number).
Local Abbreviation has := (has number number_truthy).
Local Abbreviation PackageAnalysis := (PackageAnalysis number).

(** A dependency object as the manifest format has it: every value is a
    string. *)
Definition stringValued (deps : list (string * value)) : bool :=
  forallb (fun entry => match snd entry with
                        | VString _ => true
                        | _ => false
                        end) deps.

(** The version a key has in such an object. *)
Definition versionOf (deps : list (string * value)) (k : string) : string :=
  match lookup number k deps with
  | VString s => s
  | _ => "undefined"
  end.

Definition tagIf (c : bool) (tag : string) : list string :=
  if c then [tag] else [].

(** The feature tags in the order in which the inspector adds them. *)
Definition featuresOf (deps : list (string * value)) : list string :=
  (tagIf (has deps "react"
          && (includes (versionOf deps "react") "19"
              || includes (versionOf deps "react") "canary")) "React 19"
   ++ tagIf (has deps "turbo" || has deps "@turbo/gen" || has deps "nx") "Monorepo"
   ++ tagIf (has deps "@google/generative-ai") "Google Gemini AI"
   ++ tagIf (has deps "openai") "OpenAI API"
   ++ tagIf (has deps "@anthropic-ai/sdk") "Anthropic Claude"
   ++ tagIf (has deps "storybook" || has deps "@storybook/react") "Storybook"
   ++ tagIf (has deps "three" || has deps "@react-three/fiber") "Three.js/R3F"
   ++ tagIf (has deps "framer-motion") "Framer Motion"
   ++ tagIf (has deps "react-query" || has deps "@tanstack/react-query") "TanStack Query"
   ++ tagIf (has deps "zustand") "Zustand"
   ++ tagIf (has deps "jotai") "Jotai"
   ++ tagIf (has deps "redux" || has deps "@reduxjs/toolkit") "Redux"
   ++ tagIf (has deps "zod") "Zod validation"
   ++ tagIf (has deps "react-hook-form") "React Hook Form"
   ++ tagIf (has deps "typescript") "TypeScript")%list.

(** [`k@${deps[k]}`] *)
Definition pinned (deps : list (string * value)) (k : string) : string :=
  k ++ "@" ++ versionOf deps k.

(** The key dependencies in the order in which the inspector adds
    them. *)
Definition keyDependenciesOf (deps : list (string * value)) : list string :=
  (tagIf (has deps "next") (pinned deps "next")
   ++ tagIf (has deps "react") (pinned deps "react")
   ++ (if has deps "tailwindcss" then [pinned deps "tailwindcss"]
       else tagIf (has deps "@mui/material") (pinned deps "@mui/material"))
   ++ tagIf (has deps "@supabase/supabase-js") (pinned deps "@supabase/supabase-js")
   ++ tagIf (has deps "typescript") (pinned deps "typescript"))%list.

(** The detection statements of the [try] block, in their order. *)
Definition detectAll (deps : list (string * value)) : M PackageAnalysis unit :=
  detectFramework number number_truthy number_toString stackDepth deps ;;
  detectReactVersion number number_truthy number_toString stackDepth deps ;;
  detectStyling number number_truthy number_toString stackDepth deps ;;
  detectDatabase number number_truthy number_toString stackDepth deps ;;
  detectTesting number number_truthy deps ;;
  detectLinting number number_truthy deps ;;
  detectBuildTool number number_truthy deps ;;
  detectFeatures number number_truthy deps ;;
  detectTypeScript number number_truthy number_toString stackDepth deps.

(** The analysis after the four assignments in front of them. *)
Definition withBasics (pkg : value) (a : PackageAnalysis) : PackageAnalysis :=
  let pkgType := getPropOpt number pkg "type" in
  let pkgScripts := getPropOpt number pkg "scripts" in
  set_scripts number
    (if truthy number number_truthy pkgScripts then pkgScripts else VObject [])
    (set_type number
       (if truthy number number_truthy pkgType then pkgType else VString "commonjs")
       (set_version number (getPropOpt number pkg "version")
          (set_name number (getPropOpt number pkg "name") a))).

End ManifestNotions.

Section StackViews.

Variable number : Type.

(** The parts of the analysis the detection statements write: the six
    fields of the stack, the features and the key dependencies. *)
Definition StackView : Type :=
  (option string * option string * option string * option string
   * option string * option string * list string * list string)%type.

Definition viewOf (a : PackageAnalysis number) : StackView :=
  (framework number a, styling number a, database number a, testing number a,
   linting number a, buildTool number a, features number a,
   keyDependencies number a).

(** [runsAs change m]: the statement [m] never throws and changes the
    view of the analysis by [change]. *)
Definition runsAs (change : StackView -> StackView)
           (m : M (PackageAnalysis number) unit) : Prop :=
  forall s, exists s', m s = (s', Normal tt) /\ viewOf s' = change (viewOf s).

(** A field after a cascade: the label of the first matching rule, or
    what it was. *)
Definition orElse (resolved old : option string) : option string :=
  match resolved with
  | Some label => Some label
  | None => old
  end.

End StackViews.

Section RenderNotions.

Variable number : Type.
Variable number_toString : number -> string.
Variable stackDepth : nat.

(** A value a template literal can print: its conversion returns. It
    throws on an object with a property called [toString], met as the
    value or as an element, and on arrays nested deeper than
    [stackDepth]. *)
Definition printable (v : value number) : Prop :=
  exists s, ToString number number_toString stackDepth v = Normal s.

(** What the full report needs of a profile: a package name it can
    print and, with a TypeScript configuration, a base URL it can print,
    path aliases that are neither [null] nor [undefined], and for each
    alias a value with a first element it can print. *)
Definition reportable (analysis : AnalysisProfile number) : Prop :=
  printable (name number (packageJson number analysis))
  /\ forall ts, tsconfig number analysis = Some ts ->
       printable (baseUrl number ts)
       /\ (exists keys, objectKeys number (paths number ts) = Normal keys)
       /\ forall entry, In entry (ownEntries number (paths number ts)) ->
            exists first,
              index0 number (snd entry) = Normal first /\ printable first.

(** What the condensed summary needs of a profile: a package name and
    commands of the six scripts it can print. *)
Definition summarizable (analysis : AnalysisProfile number) : Prop :=
  printable (name number (packageJson number analysis))
  /\ forall script, In script importantScripts ->
       printable (getPropOpt number (scripts number (packageJson number analysis))
                             script).

End RenderNotions.

Section InitNotions.

Variable number : Type.
Variable number_truthy : number -> bool.

Local Abbreviation has := (has number number_truthy).

(** The framework rules of agents-init in their order of priority. *)
Definition initFrameworkRules (deps : list (string * value number))
  : list (bool * string) :=
  [(has deps "next", "next");
   (has deps "remix" || has deps "@remix-run/react", "remix");
   (has deps "astro", "astro");
   (has deps "react", "react")].

(** The first word, in lower case, of the label the engine gives a
    project with one of the frameworks it looks for before [react] and
    agents-init does not look for. *)
Definition shadowedBy (deps : list (string * value number)) : option string :=
  if has deps "nuxt" then Some "nuxt"
  else if has deps "svelte" || has deps "@sveltejs/kit" then Some "sveltekit"
  else if has deps "gatsby" then Some "gatsby"
  else None.

End InitNotions.

(* ===================================================================== *)
(** * File Categorizer: properties *)
(* ===================================================================== *)

Lemma categorize_components_first (relativePath ext basename : string) :
  includes relativePath "components/" = true ->
  categorize relativePath ext basename = Components.
Proof.
  intros H. unfold categorize. rewrite H. reflexivity.
Qed.

Lemma bucket_files_push (c : Categories) (b b' : bucket) (p r : string) :
  In r (bucket_files (push_bucket c b p) b') <->
  In r (bucket_files c b') \/ (b' = b /\ r = p).
Proof.
  destruct b, b'; simpl; rewrite ?in_app_iff; simpl;
    intuition (try discriminate; subst; auto).
Qed.

(** Every path of a bucket of the result is the relative path of a file
    of the list that the cascade sends to that bucket. *)
Lemma categorizeFiles_sound (cwd projectDir : string) (files : list string) :
  forall (b : bucket) (r : string),
    In r (bucket_files (categorizeFiles cwd files projectDir) b) ->
    exists file, In file files
      /\ r = Path.relative cwd projectDir file
      /\ categorize r (Path.extname file) (Path.basename file) = b.
Proof.
  unfold categorizeFiles.
  assert (G : forall acc b r,
             In r (bucket_files (fold_left (categorizeStep cwd projectDir) files acc) b) ->
             In r (bucket_files acc b) \/
             exists file, In file files
               /\ r = Path.relative cwd projectDir file
               /\ categorize r (Path.extname file) (Path.basename file) = b).
  { induction files as [|f fs IH]; intros acc b r H; simpl in *.
    - now left.
    - apply IH in H. destruct H as [H | (file & Hin & Hr & Hc)].
      + unfold categorizeStep in H. apply bucket_files_push in H.
        destruct H as [H | [Hb Hr]]; [now left|].
        right. exists f. subst. auto.
      + right. exists file. auto. }
  intros b r H. apply G in H. destruct H as [H | H]; [|exact H].
  destruct b; simpl in H; contradiction.
Qed.

(** Every file of the list has its relative path in the bucket the
    cascade gives it. *)
Lemma categorizeFiles_complete (cwd projectDir : string) (files : list string) :
  forall file, In file files ->
    let r := Path.relative cwd projectDir file in
    In r (bucket_files (categorizeFiles cwd files projectDir)
            (categorize r (Path.extname file) (Path.basename file))).
Proof.
  unfold categorizeFiles.
  assert (Keep : forall fs acc b r,
             In r (bucket_files acc b) ->
             In r (bucket_files (fold_left (categorizeStep cwd projectDir) fs acc) b)).
  { induction fs as [|f fs IH]; intros acc b r H; simpl; [exact H|].
    apply IH. unfold categorizeStep. apply bucket_files_push. now left. }
  assert (G : forall fs acc file, In file fs ->
             let r := Path.relative cwd projectDir file in
             In r (bucket_files (fold_left (categorizeStep cwd projectDir) fs acc)
                     (categorize r (Path.extname file) (Path.basename file)))).
  { induction fs as [|f fs IH]; intros acc file Hin; simpl in *; [contradiction|].
    destruct Hin as [-> | Hin].
    - apply Keep. unfold categorizeStep. apply bucket_files_push. right. auto.
    - apply IH, Hin. }
  intros file Hin. apply G, Hin.
Qed.

(** C1, as amended: a file whose relative path contains [components/]
    goes to the "components" bucket and to no other one, whatever its
    name: the components rule is tested before the test-file rule, so a
    test file inside a components directory is a component. *)
Theorem components_rule_precedes_tests
        (cwd projectDir : string) (files : list string) (file : string) :
  In file files ->
  includes (Path.relative cwd projectDir file) "components/" = true ->
  let c := categorizeFiles cwd files projectDir in
  let r := Path.relative cwd projectDir file in
  In r (components c)
  /\ forall b, b <> Components -> ~ In r (bucket_files c b).
Proof.
  intros Hin Hinc c r. split.
  - pose proof (categorizeFiles_complete cwd projectDir files file Hin) as H.
    cbv zeta in H.
    rewrite (categorize_components_first _ _ _ Hinc) in H. exact H.
  - intros b Hb Hr.
    apply categorizeFiles_sound in Hr.
    destruct Hr as (f' & _ & _ & Hc).
    rewrite (categorize_components_first _ _ _ Hinc) in Hc. congruence.
Qed.

(** The scenario of the specification: both files of [src/components]
    are components, and the "tests" bucket stays empty. *)
Lemma components_rule_precedes_tests_witness :
  let files := ["/p/src/components/Button.tsx";
                "/p/src/components/Button.test.tsx"; "/p/package.json"] in
  let c := categorizeFiles "/p" files "/p" in
  In "src/components/Button.test.tsx" (components c)
  /\ forall b, b <> Components -> ~ In "src/components/Button.test.tsx" (bucket_files c b).
Proof.
  exact (components_rule_precedes_tests "/p" "/p"
           ["/p/src/components/Button.tsx";
            "/p/src/components/Button.test.tsx"; "/p/package.json"]
           "/p/src/components/Button.test.tsx"
           (or_intror (or_introl eq_refl)) eq_refl).
Defined.

(** C1 as stated fails: [Button.test.tsx] is not put in "tests". *)
Lemma button_test_not_in_tests :
  let c := categorizeFiles "/p"
             ["/p/src/components/Button.tsx";
              "/p/src/components/Button.test.tsx"; "/p/package.json"] "/p" in
  ~ (In "src/components/Button.tsx" (components c)
     /\ In "src/components/Button.test.tsx" (tests c)).
Proof.
  cbv zeta. intros [_ H]. vm_compute in H. exact H.
Qed.

(* ===================================================================== *)
(** * Convention Inferencer: properties *)
(* ===================================================================== *)

Lemma tally_from (files : list string) :
  forall acc,
    fold_left tallyStep files acc =
    mkTallies (pascalCount acc + countIf isPascal files)
              (camelCount acc + countIf isCamel files)
              (kebabCount acc + countIf isKebab files)
              (tsxCount acc + countIf isTsx files)
              (jsxCount acc + countIf isJsx files)
              (testCount acc + countIf isTest files)
              (specCount acc + countIf isSpec files)
              (indexCount acc + countIf isIndex files).
Proof.
  unfold countIf.
  induction files as [|f fs IH]; intros acc; simpl.
  - destruct acc; simpl. f_equal; lia.
  - rewrite IH. unfold tallyStep, isPascal, isCamel, isKebab, isTsx, isJsx,
      isTest, isSpec, isIndex, stem.
    destruct (matches_pascal _), (matches_camel _), (matches_kebab _),
      (String.eqb (Path.extname f) ".tsx"), (String.eqb (Path.extname f) ".jsx"),
      (includes f ".test."), (includes f ".spec."), (String.eqb _ "index");
      simpl; f_equal; lia.
Qed.

(** The counters after the loop are the numbers of files of each class. *)
Lemma tally_counts (files : list string) :
  tally files =
  mkTallies (countIf isPascal files) (countIf isCamel files)
            (countIf isKebab files) (countIf isTsx files)
            (countIf isJsx files) (countIf isTest files)
            (countIf isSpec files) (countIf isIndex files).
Proof.
  unfold tally. rewrite tally_from. reflexivity.
Qed.

(** C2, as amended: with as many capitalized as lowercase base names,
    at least one of each, and no hyphenated one, the component style
    stays [null]. The capitalized class has no preference on a tie:
    'PascalCase' is the style exactly when its count is strictly above
    the count of the lowercase class and above the count of the
    hyphenated class. *)
Theorem component_style_tie_is_null (files : list string) :
  (countIf isPascal files = countIf isCamel files ->
   0 < countIf isPascal files ->
   countIf isKebab files = 0 ->
   componentStyle (analyzeNamingConventions files) = None)
  /\ (componentStyle (analyzeNamingConventions files) = Some "PascalCase" <->
      countIf isCamel files < countIf isPascal files
      /\ countIf isKebab files < countIf isPascal files).
Proof.
  unfold analyzeNamingConventions. rewrite tally_counts. simpl. split.
  - intros Heq Hpos Hk.
    rewrite Heq, Hk, Nat.ltb_irrefl. simpl.
    reflexivity.
  - destruct (Nat.ltb_spec (countIf isCamel files) (countIf isPascal files)) as [Hc | Hc];
      destruct (Nat.ltb_spec (countIf isKebab files) (countIf isPascal files)) as [Hk | Hk];
      simpl.
    + split; [intros _; split; assumption | reflexivity].
    + split; [|intros [_ H]; lia].
      destruct (_ && _); [discriminate|]. destruct (Nat.ltb _ _); discriminate.
    + split; [|intros [H _]; lia].
      destruct (_ && _); [discriminate|]. destruct (Nat.ltb _ _); discriminate.
    + split; [|intros [H _]; lia].
      destruct (_ && _); [discriminate|]. destruct (Nat.ltb _ _); discriminate.
Qed.

Lemma component_style_tie_is_null_witness :
  componentStyle
    (analyzeNamingConventions ["/p/src/Button.tsx"; "/p/src/utils.ts"]) = None.
Proof.
  apply (proj1 (component_style_tie_is_null ["/p/src/Button.tsx"; "/p/src/utils.ts"])).
  - reflexivity.
  - vm_compute. lia.
  - reflexivity.
Defined.

(** C2 as stated fails: one capitalized and one lowercase base name, none
    hyphenated, and the style is not 'PascalCase'. *)
Lemma component_style_tie_not_pascal :
  let files := ["/p/src/Button.tsx"; "/p/src/utils.ts"] in
  countIf isPascal files = countIf isCamel files
  /\ 0 < countIf isPascal files
  /\ countIf isKebab files = 0
  /\ componentStyle (analyzeNamingConventions files) <> Some "PascalCase".
Proof.
  cbv zeta. repeat split; try reflexivity.
  - vm_compute. lia.
  - vm_compute. discriminate.
Qed.

(** C7, as amended: [.tsx] wins only with strictly more files than
    [.jsx]; with as many or fewer, equal counts included, the extension
    is the second one, [.jsx]. *)
Theorem extension_preference (files : list string) :
  (countIf isJsx files < countIf isTsx files ->
   fileExtension (analyzeNamingConventions files) = Some ".tsx")
  /\ (countIf isTsx files <= countIf isJsx files ->
      fileExtension (analyzeNamingConventions files) = Some ".jsx").
Proof.
  unfold analyzeNamingConventions. rewrite tally_counts. simpl. split; intros H.
  - apply Nat.ltb_lt in H. rewrite H. reflexivity.
  - apply Nat.ltb_ge in H. rewrite H. reflexivity.
Qed.

Lemma extension_preference_witness :
  fileExtension
    (analyzeNamingConventions ["/p/src/App.tsx"; "/p/src/Old.jsx"]) = Some ".jsx".
Proof.
  apply (proj2 (extension_preference ["/p/src/App.tsx"; "/p/src/Old.jsx"])).
  vm_compute. lia.
Defined.

(** C7 as stated fails: one file of each extension, and the preference is
    not [.tsx]. *)
Lemma extension_tie_not_tsx :
  let files := ["/p/src/App.tsx"; "/p/src/Old.jsx"] in
  countIf isTsx files = countIf isJsx files
  /\ fileExtension (analyzeNamingConventions files) <> Some ".tsx".
Proof.
  cbv zeta. split; [reflexivity | vm_compute; discriminate].
Qed.

(** C8: the test naming is [.test.] when the paths with [.test.] are at
    least as many as those counted for [.spec.] (a path with both markers
    is counted for [.test.] only), and [.spec.] only when these are
    strictly more. *)
Theorem test_naming_preference (files : list string) :
  (countIf isSpec files <= countIf isTest files ->
   testNaming (analyzeNamingConventions files) = Some ".test.")
  /\ (countIf isTest files < countIf isSpec files ->
      testNaming (analyzeNamingConventions files) = Some ".spec.").
Proof.
  unfold analyzeNamingConventions. rewrite tally_counts. simpl. split; intros H.
  - apply Nat.leb_le in H. rewrite H. reflexivity.
  - apply Nat.leb_gt in H. rewrite H. reflexivity.
Qed.

Lemma test_naming_preference_witness :
  testNaming (analyzeNamingConventions ["/p/a.test.ts"; "/p/b.spec.ts"]) = Some ".test."
  /\ testNaming (analyzeNamingConventions ["/p/a.spec.ts"]) = Some ".spec.".
Proof.
  split.
  - apply (proj1 (test_naming_preference ["/p/a.test.ts"; "/p/b.spec.ts"])).
    vm_compute. lia.
  - apply (proj2 (test_naming_preference ["/p/a.spec.ts"])).
    vm_compute. lia.
Defined.

(* ===================================================================== *)
(** * Tree Walker: properties *)
(* ===================================================================== *)


Section ScanLoop.

Variable maxArgs : nat.
Variable recur : string -> completion ScanResult.
Variable dir : string.
Hypothesis recur_total : forall d, exists r, recur d = Normal r.

(** A subdirectory whose result fits: its path, then its files and
    directories, are added, and its counters. *)
Lemma scanEntry_directory (entry : dirent) (sub s : ScanResult) :
  dirent_isDirectory entry = true ->
  ignoredDir (dirent_name entry) = false ->
  recur (Path.join2 dir (dirent_name entry)) = Normal sub ->
  fits maxArgs sub ->
  scanEntry maxArgs recur dir entry s =
  (mkScan (files s ++ files sub)
          ((dirs s ++ [Path.join2 dir (dirent_name entry)]) ++ dirs sub)
          (totalFiles s + totalFiles sub)
          (S (totalDirs s) + totalDirs sub),
   Normal tt).
Proof.
  intros Hdir Hign Hsub [Hf Hd].
  apply Nat.leb_le in Hf. apply Nat.leb_le in Hd.
  unfold scanEntry, bind, modify, lift, pushSpread.
  rewrite Hdir, Hign, Hsub. cbv beta iota. rewrite Hf. cbv beta iota.
  cbn [files dirs totalFiles totalDirs]. rewrite Hd. reflexivity.
Qed.



(** One entry, when the result of a subdirectory fits: the loop body
    ends normally, keeps what was found and adds the entry. *)
Lemma scanEntry_normal (entry : dirent) (s : ScanResult) :
  (dirent_isDirectory entry = true ->
   ignoredDir (dirent_name entry) = false ->
   forall sub, recur (Path.join2 dir (dirent_name entry)) = Normal sub ->
               fits maxArgs sub) ->
  exists s', scanEntry maxArgs recur dir entry s = (s', Normal tt)
    /\ incl (files s) (files s') /\ incl (dirs s) (dirs s')
    /\ let fullPath := Path.join2 dir (dirent_name entry) in
       if dirent_isDirectory entry then
         ignoredDir (dirent_name entry) = false ->
         In fullPath (dirs s')
         /\ exists sub, recur fullPath = Normal sub
              /\ incl (files sub) (files s') /\ incl (dirs sub) (dirs s')
       else In fullPath (files s').
Proof.
  intros Hfits. cbv zeta.
  destruct (dirent_isDirectory entry) eqn:Hdir.
  - destruct (ignoredDir (dirent_name entry)) eqn:Hign.
    + exists s. unfold scanEntry. rewrite Hdir, Hign.
      split; [reflexivity|].
      split; [apply incl_refl|]. split; [apply incl_refl|]. discriminate.
    + destruct (recur_total (Path.join2 dir (dirent_name entry))) as [sub Hsub].
      rewrite (scanEntry_directory entry sub s Hdir Hign Hsub
                 (Hfits eq_refl eq_refl sub Hsub)).
      eexists. split; [reflexivity|]. simpl.
      split; [intros x Hx; rewrite in_app_iff; now left|].
      split; [intros x Hx; rewrite !in_app_iff; now left; left|].
      intros _. split; [rewrite !in_app_iff; left; right; now left|].
      exists sub. split; [exact Hsub|].
      split; intros x Hx; rewrite in_app_iff; now right.
  - unfold scanEntry. rewrite Hdir. unfold bind, modify.
    eexists. split; [reflexivity|]. simpl.
    split; [intros x Hx; rewrite in_app_iff; now left|].
    split; [apply incl_refl|].
    rewrite in_app_iff. right. now left.
Qed.

(** The whole loop, when the results of the subdirectories fit. *)
Lemma scanLoop_normal (entries : list dirent) :
  (forall entry, In entry entries ->
     dirent_isDirectory entry = true ->
     ignoredDir (dirent_name entry) = false ->
     forall sub, recur (Path.join2 dir (dirent_name entry)) = Normal sub ->
                 fits maxArgs sub) ->
  forall s, exists s',
    forOf entries (scanEntry maxArgs recur dir) s = (s', Normal tt)
    /\ incl (files s) (files s') /\ incl (dirs s) (dirs s')
    /\ forall entry, In entry entries ->
         let fullPath := Path.join2 dir (dirent_name entry) in
         if dirent_isDirectory entry then
           ignoredDir (dirent_name entry) = false ->
           In fullPath (dirs s')
           /\ exists sub, recur fullPath = Normal sub
                /\ incl (files sub) (files s') /\ incl (dirs sub) (dirs s')
         else In fullPath (files s').
Proof.
  induction entries as [|e es IH]; intros Hfits s.
  - exists s. simpl. split; [reflexivity|].
    split; [apply incl_refl|]. split; [apply incl_refl|]. contradiction.
  - destruct (scanEntry_normal e s (Hfits e (or_introl eq_refl)))
      as (s1 & H1 & Hf1 & Hd1 & He).
    destruct (IH (fun entry Hin => Hfits entry (or_intror Hin)) s1)
      as (s2 & H2 & Hf2 & Hd2 & Hes).
    exists s2. simpl. unfold bind at 1. rewrite H1, H2.
    split; [reflexivity|].
    split; [eapply incl_tran; eassumption|].
    split; [eapply incl_tran; eassumption|].
    intros entry [<- | Hin]; [|apply Hes, Hin].
    cbv zeta in *. destruct (dirent_isDirectory e).
    + intros Hign. destruct (He Hign) as (Hd & sub & Hsub & Hsf & Hsd).
      split; [apply Hd2, Hd|].
      exists sub. split; [exact Hsub|].
      split; eapply incl_tran; eassumption.
    + apply Hf2, He.
Qed.

End ScanLoop.

(** The [catch] takes every exception of the loop: the walk returns. *)
Lemma scanLevels_total (maxArgs : nat) (fs : filesystem) (remaining : nat) :
  forall dir, exists r, scanLevels maxArgs fs remaining dir = Normal r.
Proof.
  intros dir. destruct remaining as [|n]; simpl.
  - now exists emptyScan.
  - unfold try_catch.
    destruct ((entries <- lift (readdirSync fs dir) ;;
               forOf entries (scanEntry maxArgs (scanLevels maxArgs fs n) dir))
                emptyScan) as [s' [u|e]]; now exists s'.
Qed.



(* ===================================================================== *)
(** * Statements on mutable state: general facts *)
(* ===================================================================== *)

Section Statements.

Context {S : Type}.

(** A [try] whose handler does nothing always ends normally. *)
Lemma try_catch_swallow (body : M S unit) (s : S) :
  snd (try_catch body (fun _ => ret tt) s) = Normal tt.
Proof.
  unfold try_catch. destruct (body s) as [s' [u|e]]; reflexivity.
Qed.

Lemma bind_normal_inv {A B} (m : M S A) (k : A -> M S B) (s s' : S) (b : B) :
  bind m k s = (s', Normal b) ->
  exists s1 a, m s = (s1, Normal a) /\ k a s1 = (s', Normal b).
Proof.
  unfold bind. destruct (m s) as [s1 [a|e]]; intros H.
  - now exists s1, a.
  - discriminate.
Qed.

Lemma bind_assoc {A B C} (m : M S A) (f : A -> M S B) (k : B -> M S C) (s : S) :
  bind (bind m f) k s = bind m (fun x => bind (f x) k) s.
Proof.
  unfold bind. destruct (m s) as [s1 [a|e]]; reflexivity.
Qed.

Lemma keeps_ret {A B} (proj : S -> B) (a : A) : keeps proj (ret a).
Proof. intros s. reflexivity. Qed.

Lemma keeps_lift {A B} (proj : S -> B) (c : completion A) : keeps proj (lift c).
Proof. intros s. reflexivity. Qed.

Lemma keeps_bind {A A' B} (proj : S -> B) (m : M S A) (k : A -> M S A') :
  keeps proj m -> (forall a, keeps proj (k a)) -> keeps proj (bind m k).
Proof.
  intros Hm Hk s. unfold bind. specialize (Hm s).
  destruct (m s) as [s1 [a|e]]; simpl in *.
  - rewrite Hk. exact Hm.
  - exact Hm.
Qed.

Lemma keeps_when {B} (proj : S -> B) (c : bool) (m : M S unit) :
  keeps proj m -> keeps proj (when c m).
Proof. intros H. destruct c; simpl; [exact H | apply keeps_ret]. Qed.

(** What runs after [m] and keeps [proj] does not change what [m] left
    there. *)
Lemma keeps_after {A A' B} (proj : S -> B) (m : M S A) (k : A -> M S A') (s : S) :
  (forall a, keeps proj (k a)) ->
  proj (fst (bind m k s)) = proj (fst (m s)).
Proof.
  intros Hk. unfold bind. destruct (m s) as [s1 [a|e]]; simpl.
  - apply Hk.
  - reflexivity.
Qed.

End Statements.

(** Decomposes a statement into its parts to show it keeps a field. *)
Ltac keeps_tac :=
  repeat first
    [ apply keeps_ret
    | apply keeps_lift
    | apply keeps_when
    | apply keeps_bind; [|intros ?]
    | match goal with
      | |- keeps _ (modify _) => intros ?; reflexivity
      | |- keeps _ (if ?c then _ else _) => destruct c
      end ].

(* ===================================================================== *)
(** * Manifest Inspector: properties *)
(* ===================================================================== *)

Section ManifestProperties.

Variable number : Type.
Variable number_truthy : number -> bool.
Variable number_toString : number -> string.
Variable stackDepth : nat.
Variable JSON_parse : string -> completion (value number).

Local Abbreviation PackageAnalysis := (PackageAnalysis number).
Local Abbreviation has := (has number number_truthy).
Local Abbreviation pushKeyDependency := (pushKeyDependency number number_toString stackDepth).
Local Abbreviation detectFramework := (detectFramework number number_truthy number_toString stackDepth).
Local Abbreviation inspectPackage := (inspectPackage number number_truthy number_toString stackDepth).
Local Abbreviation analyzePackageJson :=
  (analyzePackageJson number number_truthy number_toString stackDepth JSON_parse).
Local Abbreviation frameworkRules := (frameworkRules number number_truthy).
Local Abbreviation initialAnalysis := (initialAnalysis number).
Local Abbreviation framework := (framework number).

Lemma getProp_defined (pkg : value number) (k : string) :
  pkg <> VNull -> pkg <> VUndefined ->
  getProp number pkg k = Normal (getPropOpt number pkg k).
Proof.
  intros Hn Hu. destruct pkg; try reflexivity; congruence.
Qed.

Lemma pushKeyDependency_keeps_framework deps k :
  keeps framework (pushKeyDependency deps k).
Proof. unfold pushKeyDependency. keeps_tac. Qed.

(** The framework cascade sets the label of the first rule that
    matches, and nothing when none does. *)
Lemma detectFramework_firstMatch deps (s : PackageAnalysis) :
  framework (fst (detectFramework deps s)) =
  match firstMatch (frameworkRules deps) with
  | Some label => Some label
  | None => framework s
  end.
Proof.
  unfold detectFramework, frameworkRules, firstMatch.
  destruct (has deps "next").
  { rewrite keeps_after by (intros; apply pushKeyDependency_keeps_framework).
    reflexivity. }
  destruct (has deps "remix" || has deps "@remix-run/react"); [reflexivity|].
  destruct (has deps "astro"); [reflexivity|].
  destruct (has deps "nuxt"); [reflexivity|].
  destruct (has deps "svelte" || has deps "@sveltejs/kit"); [reflexivity|].
  destruct (has deps "gatsby"); [reflexivity|].
  destruct (has deps "react"); [reflexivity|].
  destruct (has deps "vue"); reflexivity.
Qed.

(** No statement after the framework cascade writes the framework. *)
Lemma after_framework_keeps deps :
  keeps framework
    (detectReactVersion number number_truthy number_toString stackDepth deps ;;
     detectStyling number number_truthy number_toString stackDepth deps ;;
     detectDatabase number number_truthy number_toString stackDepth deps ;;
     detectTesting number number_truthy deps ;;
     detectLinting number number_truthy deps ;;
     detectBuildTool number number_truthy deps ;;
     detectFeatures number number_truthy deps ;;
     detectTypeScript number number_truthy number_toString stackDepth deps).
Proof.
  unfold detectReactVersion, detectStyling, detectDatabase, detectTesting,
    detectLinting, detectBuildTool, detectFeatures, detectTypeScript,
    pushKeyDependency.
  keeps_tac.
Qed.

(** The framework of a manifest that parses to a value other than
    [null]: the first matching rule decides, also when a later statement
    throws. *)
Lemma inspectPackage_framework (pkg : value number) :
  pkg <> VNull -> pkg <> VUndefined ->
  framework (fst (inspectPackage pkg initialAnalysis)) =
  firstMatch (frameworkRules (depsOf number pkg)).
Proof.
  intros Hn Hu. unfold inspectPackage.
  rewrite !(getProp_defined pkg _ Hn Hu).
  unfold bind at 1 2 3 4 5 6 7 8 9 10. unfold lift, modify. cbv iota beta.
  fold (depsOf number pkg).
  rewrite keeps_after by (intros; apply after_framework_keeps).
  rewrite detectFramework_firstMatch.
  destruct (firstMatch _); reflexivity.
Qed.








Lemma settles_bind_value {A B} (proj : PackageAnalysis -> option string)
      (target : option string) (a : A) (k : A -> M PackageAnalysis B) :
  settles proj target (k a) -> settles proj target (bind (lift (Normal a)) k).
Proof. intros H s. apply H. Qed.




(** C5: the inspector returns an analysis for every file system and
    project directory, and never throws. Without a manifest, with a
    manifest that cannot be read and with one that is not JSON, the
    analysis is the initial one, all fields null or empty. *)
Theorem analyzePackageJson_never_raises (fs : filesystem) (projectDir : string) :
  let pkgPath := Path.join2 projectDir "package.json" in
  exists analysis,
    analyzePackageJson fs projectDir = Normal analysis
    /\ (existsSync fs pkgPath = false -> analysis = initialAnalysis)
    /\ (forall e, readFileSync fs pkgPath = Throw e -> analysis = initialAnalysis)
    /\ (forall content e,
          readFileSync fs pkgPath = Normal content ->
          JSON_parse content = Throw e ->
          analysis = initialAnalysis).
Proof.
  intros pkgPath. unfold analyzePackageJson. fold pkgPath.
  destruct (existsSync fs pkgPath) eqn:Hex; simpl.
  - pose proof (try_catch_swallow
                  (inspectManifest number number_truthy number_toString stackDepth JSON_parse fs pkgPath)
                  initialAnalysis) as Hs.
    destruct (try_catch _ _ _) as [a c] eqn:Htc. simpl in Hs. subst c.
    exists a. split; [reflexivity|]. split; [discriminate|].
    unfold try_catch, inspectManifest, bind, lift in Htc.
    split.
    + intros e He. rewrite He in Htc. injection Htc as <-. reflexivity.
    + intros content e Hc He. rewrite Hc, He in Htc. injection Htc as <-. reflexivity.
  - exists initialAnalysis. split; [reflexivity|]. split; [reflexivity|].
    split; reflexivity.
Qed.


End ManifestProperties.

(* ===================================================================== *)
(** * Statements that only append lines *)
(* ===================================================================== *)

Section Appending.

Lemma appends_ret {A} (a : A) : appends (ret a).
Proof.
  exists [], (Normal a). intros lines. unfold ret. now rewrite app_nil_r.
Qed.

Lemma appends_lift {A} (c : completion A) : appends (lift c).
Proof.
  exists [], c. intros lines. unfold lift. now rewrite app_nil_r.
Qed.

Lemma appends_push (l : string) : appends (push l).
Proof.
  exists [l], (Normal tt). intros lines. reflexivity.
Qed.

Lemma bind_push {A} (l : string) (k : unit -> M (list string) A) (lines : list string) :
  bind (push l) k lines = k tt (lines ++ [l])%list.
Proof. reflexivity. Qed.

Lemma appends_bind {A B} (m : M (list string) A) (k : A -> M (list string) B) :
  appends m -> (forall a, appends (k a)) -> appends (bind m k).
Proof.
  intros (out1 & c1 & H1) Hk. destruct c1 as [a|e].
  - destruct (Hk a) as (out2 & c2 & H2).
    exists (out1 ++ out2)%list, c2. intros lines.
    unfold bind. rewrite H1, H2. now rewrite app_assoc.
  - exists out1, (Throw e). intros lines. unfold bind. now rewrite H1.
Qed.

Lemma appends_when (c : bool) (m : M (list string) unit) :
  appends m -> appends (when c m).
Proof. intros H. destruct c; simpl; [exact H | apply appends_ret]. Qed.

Lemma appends_forOf {A} (l : list A) (body : A -> M (list string) unit) :
  (forall x, appends (body x)) -> appends (forOf l body).
Proof.
  intros Hb. induction l as [|x l IH]; simpl.
  - apply appends_ret.
  - apply appends_bind; [apply Hb | intros _; exact IH].
Qed.

(** What was in the array stays, in front. *)
Lemma appends_run {A} (m : M (list string) A) :
  appends m ->
  forall lines, exists out,
    fst (m lines) = (lines ++ out)%list /\ fst (m []) = out /\ snd (m lines) = snd (m []).
Proof.
  intros (out & c & H) lines. exists out.
  rewrite (H lines), (H []). simpl. auto.
Qed.

End Appending.

(** Decomposes a renderer into its statements to show it only appends. *)
Ltac appends_step :=
  first
    [ apply appends_push
    | apply appends_ret
    | apply appends_lift
    | apply appends_when
    | apply appends_forOf; intros ?
    | apply appends_bind; [|intros ?]
    | match goal with
      | |- appends (match ?x with _ => _ end) => destruct x
      | |- appends (let _ := _ in _) => cbv zeta
      end ].

Ltac appends_tac := repeat appends_step.

(* ===================================================================== *)
(** * Report Renderer and Verifier: properties *)
(* ===================================================================== *)

Section RenderProperties.

Variable number : Type.
Variable number_truthy : number -> bool.
Variable number_toString : number -> string.
Variable stackDepth : nat.

Local Abbreviation AnalysisProfile := (AnalysisProfile number).
Local Abbreviation reportLines := (reportLines number number_truthy number_toString stackDepth).
Local Abbreviation reportBody := (reportBody number number_truthy number_toString stackDepth).
Local Abbreviation generateAnalysisReport :=
  (generateAnalysisReport number number_truthy number_toString stackDepth).
Local Abbreviation contextLines := (contextLines number number_truthy number_toString stackDepth).
Local Abbreviation contextStandards := (contextStandards number number_truthy).
Local Abbreviation generateProjectContext :=
  (generateProjectContext number number_truthy number_toString stackDepth).
Local Abbreviation verifyFramework := (verifyFramework number number_truthy number_toString stackDepth).

Lemma reportRecommendations_appends (analysis : AnalysisProfile) :
  appends (reportRecommendations number number_truthy analysis).
Proof.
  unfold reportRecommendations.
  do 4 (apply appends_bind; [apply appends_push | intros _]).
  destruct (recommend number number_truthy analysis []) as [recs [u|e]] eqn:Hr.
  - assert (Ha : appends
              (forOf recs push ;;
               when (List.length recs =? 0)%nat
                 (push "- No specific recommendations at this time.") ;;
               push "" ;; push "---" ;; push "" ;;
               push "*Run `npx agents-analyze` again after making changes to update this report.*"))
      by appends_tac.
    destruct Ha as (out & c & H). exists out, c. intros lines.
    cbv beta iota. apply H.
  - exists [], (Throw e). intros lines. cbv beta iota. now rewrite app_nil_r.
Qed.

Lemma reportBody_appends (analysis : AnalysisProfile) :
  appends (reportBody analysis).
Proof.
  unfold reportBody, reportOverview, reportTechStack, reportStructure,
    reportConventions, reportTsConfig, reportSetup, reportAgents.
  repeat first [apply reportRecommendations_appends | appends_step].
Qed.

(** The lines of the report: a title, an empty line, the line with the
    date, and lines that do not depend on the date. *)
Lemma reportLines_shape (analysis : AnalysisProfile) :
  exists (body : list string) (c : completion unit),
    forall now,
      reportLines now analysis [] =
      ("# Project Analysis Report" :: "" :: stampLine now :: "" :: body, c).
Proof.
  destruct (reportBody_appends analysis) as (out & c & H).
  exists out, c. intros now.
  unfold reportLines.
  change (reportBody analysis
            ["# Project Analysis Report"; ""; stampLine now; ""] =
          ("# Project Analysis Report" :: "" :: stampLine now :: "" :: out, c)).
  rewrite H. reflexivity.
Qed.

(** C4: two renderings of the full report, made at any two instants,
    complete the same way, and their texts are the same lines joined by
    newlines except for the third line, which carries the date; the
    condensed summary reads no clock, so two renderings of it are the
    same text. *)
Theorem renderers_deterministic (analysis : AnalysisProfile) (now1 now2 : string) :
  (exists body : list string,
      (exists e, generateAnalysisReport now1 analysis = Throw e
                 /\ generateAnalysisReport now2 analysis = Throw e)
      \/ (generateAnalysisReport now1 analysis =
            Normal (join newline
                      ("# Project Analysis Report" :: "" :: stampLine now1 :: body))
          /\ generateAnalysisReport now2 analysis =
               Normal (join newline
                         ("# Project Analysis Report" :: "" :: stampLine now2 :: body))))
  /\ (let first := generateProjectContext analysis in
      let second := generateProjectContext analysis in
      first = second).
Proof.
  split.
  - destruct (reportLines_shape analysis) as (body & c & H).
    exists ("" :: body). unfold generateAnalysisReport.
    rewrite (H now1), (H now2).
    destruct c as [u|e].
    + right. split; reflexivity.
    + left. exists e. split; reflexivity.
  - reflexivity.
Qed.

Lemma contextTail_appends (analysis : AnalysisProfile) :
  appends (contextScripts number number_truthy number_toString stackDepth analysis ;;
           contextPatterns).
Proof.
  unfold contextScripts, contextPatterns. appends_tac.
Qed.

Lemma contextStandards_appends (analysis : AnalysisProfile) :
  appends (contextStandards analysis).
Proof.
  unfold contextStandards. appends_tac.
Qed.

(** The lines of the "Coding Standards" block when the profile has
    conventions: each convention, or its default. *)
Lemma contextStandards_lines (analysis : AnalysisProfile) (c : Conventions)
      (lines lines' : list string) (r : completion unit) :
  conventions number analysis = Some c ->
  contextStandards analysis lines = (lines', r) ->
  exists more,
    lines' =
    (lines ++ ["## Coding Standards"; "";
               ("- **Component naming:** " ++ orDefault (componentStyle c) "PascalCase")%string;
               ("- **File extension:** " ++ orDefault (fileExtension c) ".tsx")%string;
               ("- **Test files:** " ++ orDefault (testNaming c) ".test.")%string]
           ++ more)%list.
Proof.
  intros Hc Hrun.
  unfold contextStandards in Hrun. rewrite Hc in Hrun.
  rewrite !bind_push in Hrun.
  rewrite bind_assoc, bind_push, bind_assoc, bind_push, bind_push in Hrun.
  match type of Hrun with
  | ?m ?l = _ =>
      assert (Ha : appends m) by appends_tac;
      destruct (appends_run m Ha l) as (more & Hfst & _)
  end.
  rewrite Hrun in Hfst. simpl in Hfst.
  exists more. rewrite Hfst. rewrite <- !app_assoc. reflexivity.
Qed.

(** C10: when the profile has conventions and a convention field is
    null, the summary that is returned has the line of that field with
    its fixed default: 'PascalCase', '.tsx', '.test.'. *)
Theorem summary_defaults_for_null_conventions
        (analysis : AnalysisProfile) (c : Conventions) (text : string) :
  conventions number analysis = Some c ->
  generateProjectContext analysis = Normal text ->
  exists lines,
    text = join newline lines
    /\ (componentStyle c = None -> In "- **Component naming:** PascalCase" lines)
    /\ (fileExtension c = None -> In "- **File extension:** .tsx" lines)
    /\ (testNaming c = None -> In "- **Test files:** .test." lines).
Proof.
  intros Hc Hgen. unfold generateProjectContext in Hgen.
  destruct (contextLines analysis []) as [lines [u|e]] eqn:Hrun; [|discriminate].
  injection Hgen as <-. exists lines. split; [reflexivity|].
  unfold contextLines in Hrun. destruct u.
  apply bind_normal_inv in Hrun. destruct Hrun as (s1 & [] & _ & Hrun).
  apply bind_normal_inv in Hrun. destruct Hrun as (s2 & [] & _ & Hrun).
  apply bind_normal_inv in Hrun. destruct Hrun as (s3 & [] & _ & Hrun).
  apply bind_normal_inv in Hrun. destruct Hrun as (s4 & [] & _ & Hrun).
  apply bind_normal_inv in Hrun. destruct Hrun as (s5 & [] & Hstd & Hrun).
  destruct (contextStandards_lines analysis c s4 s5 _ Hc Hstd) as (more & ->).
  destruct (appends_run _ (contextTail_appends analysis)
              (s4 ++ ["## Coding Standards"; "";
                      ("- **Component naming:** " ++ orDefault (componentStyle c) "PascalCase")%string;
                      ("- **File extension:** " ++ orDefault (fileExtension c) ".tsx")%string;
                      ("- **Test files:** " ++ orDefault (testNaming c) ".test.")%string]
                  ++ more)%list) as (out & Hfst & _).
  rewrite Hrun in Hfst. simpl in Hfst. subst lines.
  split; [|split]; intros Hnull; rewrite Hnull;
    rewrite !in_app_iff; left; right; simpl; auto 10.
Qed.

(** C6, as amended: for a persisted framework that is a string, the
    check lowercases the detected label only and keeps its first word;
    it warns exactly when both values are non-empty and that word does
    not contain the persisted value as it is written. It never warns
    when the persisted framework or the detected one is absent or empty:
    without a truthy [project], without a truthy [framework] in it, and
    without a detected framework there is no warning. *)
Theorem framework_check_one_way (analysis : AnalysisProfile) :
  let project := getPropOpt number (projectConfig number analysis) "project" in
  (forall (props : list (string * value number)) (persisted : string),
      project = VObject props ->
      lookup number "framework" props = VString persisted ->
      verifyFramework analysis [] =
      (match framework number (packageJson number analysis) with
       | Some label =>
           let detected := split0 " " (toLowerCase label) in
           if negb (String.eqb persisted "") && negb (String.eqb detected "")
              && negb (includes detected persisted)
           then ["Framework mismatch: config says '" ++ persisted
                 ++ "' but detected '" ++ detected ++ "'"]
           else []
       | None => []
       end,
       Normal tt))
  /\ (truthy number number_truthy project = false
      \/ truthy number number_truthy (getPropOpt number project "framework") = false
      \/ truthyStr (detectedFrameworkOf number analysis) = false ->
      verifyFramework analysis [] = ([], Normal tt)).
Proof.
  cbv zeta. split.
  - intros props persisted Hproj Hfw.
    unfold verifyFramework, detectedFrameworkOf.
    rewrite Hproj. simpl. unfold bind at 1, lift at 1. simpl.
    rewrite Hfw. simpl.
    destruct (framework number (packageJson number analysis)) as [label|]; simpl.
    + destruct (String.eqb persisted ""); simpl; [reflexivity|].
      destruct (String.eqb (split0 " " (toLowerCase label)) ""); simpl; [reflexivity|].
      unfold bind, lift.
      destruct (includes (split0 " " (toLowerCase label)) persisted); reflexivity.
    + rewrite andb_false_r. reflexivity.
  - intros Habsent. unfold verifyFramework.
    destruct (truthy number number_truthy
                (getPropOpt number (projectConfig number analysis) "project"))
      eqn:Hproject; [|reflexivity].
    destruct Habsent as [H | [H | H]]; [discriminate H | |].
    + unfold when.
      destruct (getPropOpt number (projectConfig number analysis) "project");
        try discriminate Hproject;
        unfold bind at 1, lift at 1, getProp; cbv beta iota;
        unfold getPropOpt in H; try rewrite H; reflexivity.
    + unfold when.
      destruct (getPropOpt number (projectConfig number analysis) "project");
        try discriminate Hproject;
        unfold bind at 1, lift at 1, getProp; cbv beta iota;
        rewrite H, andb_false_r; reflexivity.
Qed.

End RenderProperties.

(* ===================================================================== *)
(** * The properties at the example inputs *)
(* ===================================================================== *)



(** Without a manifest, and with one that is not JSON, the inspector
    returns the initial analysis. *)
Lemma analyzePackageJson_never_raises_witness :
  analyzePackageJson nat natTruthy of_nat exampleStack parseExample softFailFs "/p"
  = Normal (initialAnalysis nat)
  /\ analyzePackageJson nat natTruthy of_nat exampleStack parseExample (manifestFs "{ oops") "/p"
     = Normal (initialAnalysis nat).
Proof.
  split.
  - destruct (analyzePackageJson_never_raises nat natTruthy of_nat exampleStack parseExample
                softFailFs "/p") as (analysis & Hrun & Hmissing & _).
    rewrite Hrun. f_equal. apply Hmissing. reflexivity.
  - destruct (analyzePackageJson_never_raises nat natTruthy of_nat exampleStack parseExample
                (manifestFs "{ oops") "/p") as (analysis & Hrun & _ & _ & Hbad).
    rewrite Hrun. f_equal. apply (Hbad "{ oops" SyntaxError); reflexivity.
Defined.

(** A manifest that parses and then makes a statement throw: what was
    set before the throw stays, the rest keeps its initial value. *)
Example partial_profile_after_throw :
  exists analysis,
    analyzePackageJson nat natTruthy of_nat exampleStack parseExample
                       (manifestFs "number-react") "/p" = Normal analysis
    /\ name nat analysis = VString "demo"
    /\ framework nat analysis = Some "React"
    /\ keyDependencies nat analysis = ["react@18"]
    /\ styling nat analysis = None
    /\ features nat analysis = [].
Proof.
  eexists. split; [vm_compute; reflexivity|]. repeat split.
Qed.

(** The example of the specification: a persisted 'next' and a detected
    'Next.js' give no warning. *)
Lemma framework_check_one_way_witness :
  verifyFramework nat natTruthy of_nat exampleStack (exampleProfile "next" "Next.js") []
  = ([], Normal tt)
  /\ verifyFramework nat natTruthy of_nat exampleStack agentsProfile []
     = ([], Normal tt).
Proof.
  split.
  - exact (proj1 (framework_check_one_way nat natTruthy of_nat exampleStack
                    (exampleProfile "next" "Next.js"))
             [("framework", VString "next")] "next" eq_refl eq_refl).
  - exact (proj2 (framework_check_one_way nat natTruthy of_nat exampleStack
                    agentsProfile)
             (or_introl eq_refl)).
Defined.

(** C6 as stated fails: the persisted value 'Next.js' and the detected
    label 'Next.js' contain each other after lowercasing, and the check
    warns: the persisted value is compared as it is written. *)
Lemma capitalized_persisted_framework_warns :
  consistentAsClaimed "Next.js" "Next.js" = true
  /\ verifyFramework nat natTruthy of_nat exampleStack (exampleProfile "Next.js" "Next.js") []
     = (["Framework mismatch: config says 'Next.js' but detected 'next.js'"],
        Normal tt).
Proof.
  split; reflexivity.
Qed.

(** The other direction is not tested either: a persisted value that
    contains the detected label warns. *)
Example longer_persisted_framework_warns :
  consistentAsClaimed "next.js app" "Next.js" = true
  /\ verifyFramework nat natTruthy of_nat exampleStack (exampleProfile "next.js app" "Next.js") []
     = (["Framework mismatch: config says 'next.js app' but detected 'next.js'"],
        Normal tt).
Proof.
  split; reflexivity.
Qed.

(** A profile whose conventions have no winner: the three default lines
    are in the summary. *)
Lemma summary_defaults_for_null_conventions_witness :
  exists lines,
    generateProjectContext nat natTruthy of_nat exampleStack (exampleProfile "next" "Next.js")
    = Normal (join newline lines)
    /\ In "- **Component naming:** PascalCase" lines
    /\ In "- **File extension:** .tsx" lines
    /\ In "- **Test files:** .test." lines.
Proof.
  destruct (generateProjectContext nat natTruthy of_nat exampleStack
              (exampleProfile "next" "Next.js")) as [text|e] eqn:Hrun.
  - destruct (summary_defaults_for_null_conventions nat natTruthy of_nat exampleStack
                (exampleProfile "next" "Next.js")
                (mkConventions None None None false false) text
                eq_refl Hrun) as (lines & -> & H1 & H2 & H3).
    exists lines. split; [reflexivity|].
    split; [apply H1; reflexivity|].
    split; [apply H2; reflexivity | apply H3; reflexivity].
  - vm_compute in Hrun. discriminate.
Defined.

(* ===================================================================== *)
(** * File Categorizer: further properties *)
(* ===================================================================== *)

Lemma bucket_files_push_app (c : Categories) (b b' : bucket) (p : string) :
  bucket_files (push_bucket c b p) b' =
  (bucket_files c b' ++ (if sameBucket b b' then [p] else []))%list.
Proof.
  destruct b, b'; simpl; rewrite ?app_nil_r; reflexivity.
Qed.

(** X1: each bucket lists, in the order of the scan, the relative paths
    of exactly the files the cascade sends to it. *)
Theorem categorizeFiles_buckets
        (cwd projectDir : string) (files : list string) (b : bucket) :
  bucket_files (categorizeFiles cwd files projectDir) b =
  map (Path.relative cwd projectDir)
      (filter (fun file => sameBucket (bucketOf cwd projectDir file) b) files).
Proof.
  unfold categorizeFiles.
  assert (G : forall acc,
             bucket_files (fold_left (categorizeStep cwd projectDir) files acc) b =
             (bucket_files acc b ++
              map (Path.relative cwd projectDir)
                  (filter (fun file => sameBucket (bucketOf cwd projectDir file) b)
                          files))%list).
  { induction files as [|f fs IH]; intros acc; simpl.
    - now rewrite app_nil_r.
    - rewrite IH. unfold categorizeStep. rewrite bucket_files_push_app.
      fold (bucketOf cwd projectDir f).
      destruct (sameBucket (bucketOf cwd projectDir f) b); simpl.
      + now rewrite <- app_assoc.
      + now rewrite app_nil_r. }
  rewrite G. destruct b; reflexivity.
Qed.

Lemma categorized_push (c : Categories) (b : bucket) (p : string) :
  categorized (push_bucket c b p) = S (categorized c).
Proof.
  unfold categorized. destruct b; simpl; rewrite length_app; simpl; lia.
Qed.

Lemma categorized_fold (cwd projectDir : string) (files : list string) :
  forall acc,
    categorized (fold_left (categorizeStep cwd projectDir) files acc) =
    categorized acc + List.length files.
Proof.
  induction files as [|f fs IH]; intros acc; simpl.
  - lia.
  - rewrite IH. unfold categorizeStep. rewrite categorized_push. lia.
Qed.

(** X2: no file is lost and none is counted twice: the buckets together
    hold as many paths as there are files. *)
Theorem categorizeFiles_conserves
        (cwd projectDir : string) (files : list string) :
  categorized (categorizeFiles cwd files projectDir) = List.length files.
Proof.
  unfold categorizeFiles. rewrite categorized_fold. reflexivity.
Qed.

(* ===================================================================== *)
(** * Convention Inferencer: further properties *)
(* ===================================================================== *)

(** X3: when the capitalized and the lowercase base names are as many,
    one hyphenated base name is enough for 'kebab-case', however many the
    others are. *)
Theorem kebab_wins_a_tie (files : list string) :
  countIf isPascal files = countIf isCamel files ->
  0 < countIf isKebab files ->
  componentStyle (analyzeNamingConventions files) = Some "kebab-case".
Proof.
  intros Heq Hk.
  unfold analyzeNamingConventions. rewrite tally_counts. simpl.
  rewrite Heq, Nat.ltb_irrefl. simpl.
  apply Nat.ltb_lt in Hk. rewrite Hk. reflexivity.
Qed.

Lemma kebab_wins_a_tie_witness :
  componentStyle
    (analyzeNamingConventions
       ["/p/A.tsx"; "/p/B.tsx"; "/p/c.ts"; "/p/d.ts"; "/p/my-file.ts"])
  = Some "kebab-case".
Proof.
  apply kebab_wins_a_tie.
  - reflexivity.
  - vm_compute. lia.
Defined.

(** X4: the barrel flag implies the index flag: more than ten index
    files are more than five; and the index flag counts the files whose
    base name without extension is [index]. *)
Theorem barrel_implies_index (files : list string) :
  (indexFiles (analyzeNamingConventions files) = true <->
   5 < countIf isIndex files)
  /\ (barrelExports (analyzeNamingConventions files) = true <->
      10 < countIf isIndex files)
  /\ (barrelExports (analyzeNamingConventions files) = true ->
      indexFiles (analyzeNamingConventions files) = true).
Proof.
  unfold analyzeNamingConventions. rewrite tally_counts. simpl.
  rewrite !Nat.ltb_lt. repeat split; intros; lia.
Qed.

Lemma barrel_implies_index_witness :
  indexFiles
    (analyzeNamingConventions
       ["/a/index.ts"; "/b/index.ts"; "/c/index.ts"; "/d/index.ts";
        "/e/index.ts"; "/f/index.js"]) = true.
Proof.
  apply (proj1 (barrel_implies_index _)). vm_compute. lia.
Defined.

Lemma includes_cons (a : ascii) (s needle : string) :
  includes (String a s) needle =
  String.prefix needle (String a s) || includes s needle.
Proof. reflexivity. Qed.

Lemma prefix_char (c a : ascii) (s : string) :
  String.prefix (String c EmptyString) (String a s) = true -> c = a.
Proof.
  cbn [String.prefix]. destruct (ascii_dec c a) as [E | E]; [auto | discriminate].
Qed.

Lemma dotted_fails_forallb (p : ascii -> bool) (s : string) :
  p "."%char = false -> includes s "." = true -> forallb_string p s = false.
Proof.
  intros Hp. induction s as [|a s IH]; intros H.
  - discriminate.
  - rewrite includes_cons in H. apply orb_true_iff in H.
    cbn [forallb_string]. destruct H as [H | H].
    + apply prefix_char in H. subst a. rewrite Hp. reflexivity.
    + rewrite IH by exact H. apply andb_false_r.
Qed.

(** X5: a file whose base name without extension still has a dot
    ([Button.test.tsx], [vite.config.ts]) is in none of the three naming
    classes. *)
Theorem dotted_name_has_no_shape (file : string) :
  includes (stem file) "." = true ->
  isPascal file = false /\ isCamel file = false /\ isKebab file = false.
Proof.
  intros H. unfold isPascal, isCamel, isKebab.
  assert (P : matches_pascal (stem file) = false
              /\ matches_camel (stem file) = false
              /\ matches_kebab (stem file) = false).
  { destruct (stem file) as [|a s]; [discriminate|].
    unfold matches_pascal, matches_camel, matches_kebab.
    rewrite includes_cons in H. apply orb_true_iff in H.
    destruct H as [H | H].
    - apply prefix_char in H. subst a. repeat split; reflexivity.
    - rewrite (dotted_fails_forallb is_alnum s eq_refl H).
      rewrite (dotted_fails_forallb _ s eq_refl H).
      rewrite !andb_false_r. repeat split. }
  destruct P as (-> & -> & ->). repeat split.
Qed.

Lemma dotted_name_has_no_shape_witness :
  isPascal "/p/src/components/Button.test.tsx" = false.
Proof.
  apply (dotted_name_has_no_shape "/p/src/components/Button.test.tsx").
  reflexivity.
Defined.

(* ===================================================================== *)
(** * Tree Walker: further properties *)
(* ===================================================================== *)

Lemma reached_from_child (fs : filesystem) (root : string)
      (entries : list dirent) (entry : dirent) (n : nat) (d : string) :
  readdirSync fs root = Normal entries ->
  In entry entries ->
  dirent_isDirectory entry = true ->
  ignoredDir (dirent_name entry) = false ->
  reached fs (Path.join2 root (dirent_name entry)) n d ->
  reached fs root (S n) d.
Proof.
  intros Hread Hin Hdir Hign H. induction H.
  - eapply reached_child; eauto. constructor.
  - eapply reached_child; eauto.
Qed.

(** One entry keeps a result good: what it adds is the entry, or comes
    from a good result of the subdirectory; of the four statements of
    the merge any prefix may have run. *)
Lemma scanEntry_good (maxArgs : nat) (recur : string -> completion ScanResult)
      (dir : string) (entry : dirent) (goodFile goodDir : string -> Prop)
      (s s1 : ScanResult) (c1 : completion unit) :
  good goodFile goodDir s ->
  (dirent_isDirectory entry = false ->
   goodFile (Path.join2 dir (dirent_name entry))) ->
  (dirent_isDirectory entry = true ->
   ignoredDir (dirent_name entry) = false ->
   goodDir (Path.join2 dir (dirent_name entry))
   /\ forall sub, recur (Path.join2 dir (dirent_name entry)) = Normal sub ->
                  good goodFile goodDir sub) ->
  scanEntry maxArgs recur dir entry s = (s1, c1) ->
  good goodFile goodDir s1.
Proof.
  intros ((Hcd & Hcf) & Hf & Hd) Hfile Hsub H. unfold scanEntry in H.
  destruct (dirent_isDirectory entry) eqn:Hdir.
  - destruct (ignoredDir (dirent_name entry)) eqn:Hign.
    + injection H as <- _. repeat split; assumption.
    + destruct (Hsub eq_refl eq_refl) as [Hchild Hsubs].
      unfold bind, modify, lift, pushSpread in H.
      destruct (recur (Path.join2 dir (dirent_name entry))) as [sub|x] eqn:Hr.
      * destruct (Hsubs sub eq_refl) as ((Hsd & Hsf) & Hsfiles & Hsdirs).
        cbv beta iota in H.
        destruct (Nat.leb (List.length (files sub)) maxArgs);
          [cbn [files dirs totalFiles totalDirs] in H;
           destruct (Nat.leb (List.length (dirs sub)) maxArgs)|];
          cbv beta iota in H; injection H as <- _;
          (split; [split|split]); simpl; rewrite ?length_app; simpl; try lia;
          intros p Hp; rewrite ?in_app_iff in Hp; simpl in Hp;
          intuition (subst; auto).
      * injection H as <- _.
        (split; [split|split]); simpl; rewrite ?length_app; simpl; try lia;
          [exact Hf|].
        intros p Hp. rewrite in_app_iff in Hp. simpl in Hp.
        intuition (subst; auto).
  - unfold bind, modify in H. injection H as <- _.
    (split; [split|split]); simpl; rewrite ?length_app; simpl; try lia;
      [|exact Hd].
    intros p Hp. rewrite in_app_iff in Hp. simpl in Hp.
    intuition (subst; auto).
Qed.

(** What the walk with [k] levels left lists: counters within the
    lists, files that are file entries of directories reached in fewer
    than [k] steps, directories reached in one to [k] steps. *)
Lemma scanLevels_sound (maxArgs : nat) (fs : filesystem) (k : nat) :
  forall root r,
    scanLevels maxArgs fs k root = Normal r ->
    good (fun p => exists n d, n < k /\ reached fs root n d /\ fileEntryOf fs d p)
         (fun p => exists n, 0 < n <= k /\ reached fs root n p)
         r.
Proof.
  induction k as [|k IH]; intros root r Hrun; simpl in Hrun.
  - injection Hrun as <-. repeat split; simpl; try contradiction; lia.
  - unfold try_catch, bind at 1, lift in Hrun.
    destruct (readdirSync fs root) as [entries|e] eqn:Hread.
    + destruct (forOf entries
                  (scanEntry maxArgs (scanLevels maxArgs fs k) root) emptyScan)
        as [s' c] eqn:Hloop.
      assert (Hr : r = s') by (destruct c; injection Hrun as <-; reflexivity).
      subst s'.
      set (goodFile := fun p =>
             exists n d, n < S k /\ reached fs root n d /\ fileEntryOf fs d p).
      set (goodDir := fun p => exists n, 0 < n <= S k /\ reached fs root n p).
      assert (G : forall es s s' c,
                 incl es entries ->
                 good goodFile goodDir s ->
                 forOf es (scanEntry maxArgs (scanLevels maxArgs fs k) root) s = (s', c) ->
                 good goodFile goodDir s').
      { induction es as [|e es IHes]; intros s s2 c2 Hincl Hs Hl; simpl in Hl.
        - injection Hl as <- _. exact Hs.
        - assert (Hin : In e entries) by (apply Hincl; now left).
          assert (Hstep : forall s1 c1,
                     scanEntry maxArgs (scanLevels maxArgs fs k) root e s = (s1, c1) ->
                     good goodFile goodDir s1).
          { intros s1 c1 H1.
            eapply scanEntry_good; [exact Hs | | | exact H1].
            - intros Hfile. exists 0, root. split; [lia|].
              split; [constructor|]. exists entries, e. auto.
            - intros Hdir Hign. split.
              + exists 1. split; [lia|]. eapply reached_child; eauto. constructor.
              + intros sub Hsub. apply IH in Hsub.
                destruct Hsub as (Hc & Hf & Hd). split; [exact Hc|]. split.
                * intros p Hp. destruct (Hf p Hp) as (n & d & Hn & Hreach & Hfile).
                  exists (S n), d. split; [lia|]. split; [|exact Hfile].
                  eapply reached_from_child; eauto.
                * intros p Hp. destruct (Hd p Hp) as (n & Hn & Hreach).
                  exists (S n). split; [lia|]. eapply reached_from_child; eauto. }
          unfold bind in Hl.
          destruct (scanEntry maxArgs (scanLevels maxArgs fs k) root e s)
            as [s1 [u|x]] eqn:H1.
          + eapply IHes; [|eapply Hstep; eauto|exact Hl].
            intros x Hx. apply Hincl. now right.
          + injection Hl as <- _. eapply Hstep; eauto. }
      eapply G; [apply incl_refl| |exact Hloop].
      repeat split; simpl; try contradiction; lia.
    + injection Hrun as <-. repeat split; simpl; try contradiction; lia.
Qed.

Lemma reached_zero (fs : filesystem) (root d : string) :
  reached fs root 0 d -> d = root.
Proof. intros H. inversion H. reflexivity. Qed.

(** A path of [S n] entries starts with an entry of the root. *)
Lemma reached_first (fs : filesystem) (root : string) (n : nat) :
  forall d,
    reached fs root (S n) d ->
    exists entries entry,
      readdirSync fs root = Normal entries
      /\ In entry entries
      /\ dirent_isDirectory entry = true
      /\ ignoredDir (dirent_name entry) = false
      /\ reached fs (Path.join2 root (dirent_name entry)) n d.
Proof.
  induction n as [|n IH]; intros d H;
    inversion H as [|n0 d0 entries entry Hprev Hread Hin Hdir Hign]; subst.
  - apply reached_zero in Hprev. subst d0.
    exists entries, entry. repeat (split; [assumption|]). constructor.
  - destruct (IH d0 Hprev) as (es1 & e1 & Hr1 & Hi1 & Hd1 & Hg1 & Hreach).
    exists es1, e1. repeat (split; [assumption|]).
    eapply reached_child; eassumption.
Qed.

(** One entry keeps the files counted equal to the files listed, when
    the result of a subdirectory fits and has them equal. *)
Lemma scanEntry_counts (maxArgs : nat) (recur : string -> completion ScanResult)
      (dir : string) (entry : dirent) (s s1 : ScanResult) (c1 : completion unit) :
  (dirent_isDirectory entry = true ->
   ignoredDir (dirent_name entry) = false ->
   forall sub, recur (Path.join2 dir (dirent_name entry)) = Normal sub ->
               fits maxArgs sub /\ totalFiles sub = List.length (files sub)) ->
  totalFiles s = List.length (files s) ->
  scanEntry maxArgs recur dir entry s = (s1, c1) ->
  totalFiles s1 = List.length (files s1).
Proof.
  intros Hsub Hs H.
  destruct (dirent_isDirectory entry) eqn:Hdir.
  - destruct (ignoredDir (dirent_name entry)) eqn:Hign.
    + unfold scanEntry in H. rewrite Hdir, Hign in H. injection H as <- _. exact Hs.
    + destruct (recur (Path.join2 dir (dirent_name entry))) as [sub|x] eqn:Hr.
      * destruct (Hsub eq_refl eq_refl sub eq_refl) as [Hfits Hcount].
        rewrite (scanEntry_directory maxArgs recur dir entry sub s
                   Hdir Hign Hr Hfits) in H.
        injection H as <- _. simpl. rewrite length_app. lia.
      * unfold scanEntry, bind, modify, lift in H. rewrite Hdir, Hign, Hr in H.
        injection H as <- _. exact Hs.
  - unfold scanEntry, bind, modify in H. rewrite Hdir in H.
    injection H as <- _. simpl. rewrite length_app. simpl. lia.
Qed.

Lemma scanLoop_counts (maxArgs : nat) (recur : string -> completion ScanResult)
      (dir : string) (entries : list dirent) :
  (forall entry, In entry entries ->
     dirent_isDirectory entry = true ->
     ignoredDir (dirent_name entry) = false ->
     forall sub, recur (Path.join2 dir (dirent_name entry)) = Normal sub ->
                 fits maxArgs sub /\ totalFiles sub = List.length (files sub)) ->
  forall s s' c,
    totalFiles s = List.length (files s) ->
    forOf entries (scanEntry maxArgs recur dir) s = (s', c) ->
    totalFiles s' = List.length (files s').
Proof.
  induction entries as [|e es IH]; intros Hsub s s' c Hs H; simpl in H.
  - injection H as <- _. exact Hs.
  - unfold bind in H.
    destruct (scanEntry maxArgs recur dir e s) as [s1 c1] eqn:H1.
    pose proof (scanEntry_counts maxArgs recur dir e s s1 c1
                  (Hsub e (or_introl eq_refl)) Hs H1) as Hs1.
    destruct c1 as [u|x].
    + eapply IH; [|exact Hs1|exact H].
      intros entry Hin. apply Hsub. now right.
    + injection H as <- _. exact Hs1.
Qed.

(** What the walk with [k] levels left does not miss, and counts, when
    no spread throws. *)
Lemma scanLevels_complete (maxArgs : nat) (fs : filesystem) (k : nat) :
  forall root r,
    noOverflow maxArgs fs k root ->
    scanLevels maxArgs fs k root = Normal r ->
    (forall n d p, n < k -> reached fs root n d -> fileEntryOf fs d p ->
                   In p (files r))
    /\ (forall n p, 0 < n <= k -> reached fs root n p -> In p (dirs r))
    /\ totalFiles r = List.length (files r).
Proof.
  induction k as [|k IH]; intros root r Hno Hrun.
  - simpl in Hrun. injection Hrun as <-.
    split; [intros; lia|]. split; [intros; lia | reflexivity].
  - simpl in Hrun, Hno. unfold try_catch, bind at 1, lift in Hrun.
    destruct (readdirSync fs root) as [entries|e] eqn:Hread.
    + cbv zeta in Hno.
      assert (Hfits : forall entry, In entry entries ->
                dirent_isDirectory entry = true ->
                ignoredDir (dirent_name entry) = false ->
                forall sub,
                  scanLevels maxArgs fs k (Path.join2 root (dirent_name entry))
                  = Normal sub ->
                  fits maxArgs sub).
      { intros entry Hin Hdir Hign. apply (Hno entry Hin Hdir Hign). }
      destruct (scanLoop_normal maxArgs (scanLevels maxArgs fs k) root
                  (scanLevels_total maxArgs fs k) entries Hfits emptyScan)
        as (s' & Hs' & _ & _ & Hes).
      assert (Hcount : totalFiles s' = List.length (files s')).
      { refine (scanLoop_counts maxArgs (scanLevels maxArgs fs k) root entries
                  _ emptyScan s' (Normal tt) eq_refl Hs').
        intros entry Hin Hdir Hign sub Hsub.
        split; [exact (Hfits entry Hin Hdir Hign sub Hsub)|].
        apply (IH _ _ (proj1 (Hno entry Hin Hdir Hign)) Hsub). }
      rewrite Hs' in Hrun. injection Hrun as <-.
      split; [|split; [|exact Hcount]].
      * intros n d p Hn Hreach Hfile. destruct n as [|n].
        -- apply reached_zero in Hreach. subst d.
           destruct Hfile as (es & entry & Hr & Hin & Hdir & ->).
           rewrite Hread in Hr. injection Hr as <-.
           specialize (Hes entry Hin). cbv zeta in Hes.
           rewrite Hdir in Hes. exact Hes.
        -- apply reached_first in Hreach.
           destruct Hreach as (es & entry & Hr & Hin & Hdir & Hign & Hreach).
           rewrite Hread in Hr. injection Hr as <-.
           pose proof (Hes entry Hin) as He. cbv zeta in He. rewrite Hdir in He.
           destruct (He Hign) as (_ & sub & Hsub & Hfiles & _).
           apply Hfiles.
           apply (proj1 (IH _ _ (proj1 (Hno entry Hin Hdir Hign)) Hsub) n d p);
             [lia | exact Hreach | exact Hfile].
      * intros n p Hn Hreach. destruct n as [|n]; [lia|].
        apply reached_first in Hreach.
        destruct Hreach as (es & entry & Hr & Hin & Hdir & Hign & Hreach).
        rewrite Hread in Hr. injection Hr as <-.
        pose proof (Hes entry Hin) as He. cbv zeta in He. rewrite Hdir in He.
        destruct (He Hign) as (Hd & sub & Hsub & _ & Hdirs).
        destruct n as [|n].
        -- apply reached_zero in Hreach. subst p. exact Hd.
        -- apply Hdirs.
           apply (proj1 (proj2 (IH _ _ (proj1 (Hno entry Hin Hdir Hign)) Hsub))
                    (S n) p); [lia | exact Hreach].
    + injection Hrun as <-. split; [|split; [|reflexivity]].
      * intros n d p Hn Hreach Hfile. destruct n as [|n].
        -- apply reached_zero in Hreach. subst d.
           destruct Hfile as (es & entry & Hr & _). congruence.
        -- apply reached_first in Hreach.
           destruct Hreach as (es & entry & Hr & _). congruence.
      * intros n p Hn Hreach. destruct n as [|n]; [lia|].
        apply reached_first in Hreach.
        destruct Hreach as (es & entry & Hr & _). congruence.
Qed.

(** X6: the counters of the walk against its lists. In every result the
    directories counted are the directories listed, and the files
    counted are never more than the files listed; they are as many when
    no spread throws. (They are fewer when the directories of a
    subdirectory are more than a call takes arguments and its files are
    not: its files are then listed and not counted.) *)
Theorem scanDirectory_counts
        (maxArgs : nat) (fs : filesystem) (dir : string)
        (maxDepth currentDepth : nat) (results : ScanResult) :
  scanDirectory maxArgs fs dir maxDepth currentDepth = Normal results ->
  totalDirs results = List.length (dirs results)
  /\ totalFiles results <= List.length (files results)
  /\ (noOverflow maxArgs fs (maxDepth - currentDepth) dir ->
      totalFiles results = List.length (files results)).
Proof.
  intros H. unfold scanDirectory in H.
  destruct (scanLevels_sound maxArgs fs _ _ _ H) as ((Hd & Hf) & _).
  split; [exact Hd|]. split; [exact Hf|].
  intros Hno. apply (scanLevels_complete maxArgs fs _ _ _ Hno H).
Qed.

(** X7: what the walk lists. Every file of the result is a file entry
    of the root or of a directory reached from the root through fewer
    than [maxDepth - currentDepth] directory entries, each not ignored
    and in a directory that can be read; every directory of the result
    is reached through one to [maxDepth - currentDepth] such entries:
    nothing below an ignored, hidden or unreadable directory, and
    nothing deeper than the limit, is listed. When no spread throws,
    these are all listed: nothing that can be reached is missed. *)
Theorem scanDirectory_lists_exactly
        (maxArgs : nat) (fs : filesystem) (root : string)
        (maxDepth currentDepth : nat) (results : ScanResult) :
  scanDirectory maxArgs fs root maxDepth currentDepth = Normal results ->
  (forall p, In p (files results) ->
     exists n d, n < maxDepth - currentDepth
                 /\ reached fs root n d /\ fileEntryOf fs d p)
  /\ (forall p, In p (dirs results) ->
        exists n, 0 < n <= maxDepth - currentDepth /\ reached fs root n p)
  /\ (noOverflow maxArgs fs (maxDepth - currentDepth) root ->
      (forall p,
          (exists n d, n < maxDepth - currentDepth
                       /\ reached fs root n d /\ fileEntryOf fs d p) ->
          In p (files results))
      /\ (forall p,
             (exists n, 0 < n <= maxDepth - currentDepth /\ reached fs root n p) ->
             In p (dirs results))).
Proof.
  intros H. unfold scanDirectory in H.
  destruct (scanLevels_sound maxArgs fs _ _ _ H) as (_ & Hf & Hd).
  split; [exact Hf|]. split; [exact Hd|].
  intros Hno.
  destruct (scanLevels_complete maxArgs fs _ _ _ Hno H) as (Cf & Cd & _).
  split.
  - intros p (n & d & Hn & Hreach & Hfile). eapply Cf; eassumption.
  - intros p (n & Hn & Hreach). eapply Cd; eassumption.
Qed.

(* ===================================================================== *)
(** * Comments of the TypeScript configuration: properties *)
(* ===================================================================== *)

Lemma afterLine_length (s : string) :
  String.length (afterLine s) <= String.length s.
Proof.
  induction s as [|a s IH]; simpl; [lia|].
  destruct (atLineTerminator (String a s)); simpl; lia.
Qed.

Lemma afterClose_length (s rest : string) :
  afterClose s = Some rest -> String.length rest < String.length s.
Proof.
  revert rest. induction s as [|a s IH]; intros rest H; [discriminate|].
  cbn [afterClose] in H.
  destruct (String.prefix "*/" (String a s)).
  - destruct s as [|b s']; [discriminate|]. injection H as <-. simpl. lia.
  - apply IH in H. simpl. lia.
Qed.

Lemma matchComment_length (s rest : string) :
  matchComment s = Some rest -> String.length rest < String.length s.
Proof.
  unfold matchComment. intros H.
  destruct s as [|a [|b s']]; try discriminate.
  - destruct a as [[] [] [] [] [] [] [] []]; discriminate.
  - destruct a as [[] [] [] [] [] [] [] []]; try discriminate.
    destruct b as [[] [] [] [] [] [] [] []]; try discriminate.
    + injection H as <-. pose proof (afterLine_length s'). simpl. lia.
    + destruct (afterClose s') as [r|] eqn:Hc; [|discriminate].
      injection H as <-. apply afterClose_length in Hc. simpl. lia.
Qed.

Lemma stripFrom_fuel (f1 : nat) :
  forall f2 s,
    String.length s <= f1 -> String.length s <= f2 ->
    stripFrom f1 s = stripFrom f2 s.
Proof.
  induction f1 as [|f1 IH]; intros f2 s H1 H2.
  - destruct s; [|simpl in H1; lia]. destruct f2; reflexivity.
  - destruct f2 as [|f2].
    + destruct s; [reflexivity | simpl in H2; lia].
    + cbn [stripFrom]. destruct s as [|c s']; [reflexivity|].
      destruct (matchComment (String c s')) as [rest|] eqn:Hm.
      * apply matchComment_length in Hm. apply IH; lia.
      * f_equal. simpl in H1, H2. apply IH; lia.
Qed.

(** The equation of the replacement: a comment at the start is dropped,
    another first character is kept. *)
Lemma stripComments_step (c : ascii) (s : string) :
  stripComments (String c s) =
  match matchComment (String c s) with
  | Some rest => stripComments rest
  | None => String c (stripComments s)
  end.
Proof.
  unfold stripComments. cbn [String.length stripFrom].
  destruct (matchComment (String c s)) as [rest|] eqn:Hm.
  - apply matchComment_length in Hm. apply stripFrom_fuel; simpl in *; lia.
  - reflexivity.
Qed.

Lemma stripComments_empty : stripComments "" = "".
Proof. reflexivity. Qed.

Lemma matchComment_not_slash (c : ascii) (s : string) :
  c <> "/"%char -> matchComment (String c s) = None.
Proof.
  intros Hc. unfold matchComment.
  destruct c as [[] [] [] [] [] [] [] []]; try reflexivity.
  congruence.
Qed.

Lemma includes_char_cons (c a : ascii) (s : string) :
  includes (String a s) (String c EmptyString) = false ->
  a <> c /\ includes s (String c EmptyString) = false.
Proof.
  rewrite includes_cons. intros H. apply orb_false_iff in H.
  destruct H as [Hp Hi]. split; [|exact Hi].
  intros ->. cbn [String.prefix] in Hp.
  destruct (ascii_dec c c); [|congruence].
  destruct s; discriminate.
Qed.

(** Text without a slash in front of other text is kept, and the scan
    goes on in the other text. *)
Lemma stripComments_plain_prefix (p t : string) :
  includes p "/" = false -> stripComments (p ++ t) = p ++ stripComments t.
Proof.
  induction p as [|a p IH]; intros H; [reflexivity|].
  apply includes_char_cons in H. destruct H as [Ha Hp].
  cbn [String.append]. rewrite stripComments_step.
  rewrite matchComment_not_slash by exact Ha.
  rewrite IH by exact Hp. reflexivity.
Qed.

Lemma afterLine_plain (line rest : string) :
  plainLine line = true ->
  afterLine (line ++ String "010" rest) = String "010" rest.
Proof.
  induction line as [|a line IH]; intros H.
  - destruct rest; reflexivity.
  - cbn [plainLine forallb_string] in H. apply andb_true_iff in H.
    destruct H as [Ha Hl]. cbn [String.append afterLine].
    replace (atLineTerminator (String a (line ++ String "010" rest))) with false.
    + apply IH, Hl.
    + unfold atLineTerminator, lineTerminators. cbn [existsb String.prefix].
      apply andb_true_iff in Ha. destruct Ha as [Ha H226].
      apply andb_true_iff in Ha. destruct Ha as [H10 H13].
      apply negb_true_iff in H10, H13, H226.
      apply Ascii.eqb_neq in H10, H13, H226.
      destruct (ascii_dec "010" a); [congruence|].
      destruct (ascii_dec "013" a); [congruence|].
      destruct (ascii_dec "226" a); [congruence|].
      reflexivity.
Qed.

(** X8: a line comment goes from [//] to the end of its line, wherever
    it starts, also inside a string of the configuration: the text in
    front (without slash) and the line feed stay, the scan goes on behind
    the line feed. *)
Theorem stripComments_line_comment (p line tail : string) :
  includes p "/" = false ->
  plainLine line = true ->
  stripComments (p ++ "//" ++ line ++ String "010" tail) =
  p ++ String "010" (stripComments tail).
Proof.
  intros Hp Hl. rewrite stripComments_plain_prefix by exact Hp. f_equal.
  cbn [String.append]. rewrite stripComments_step.
  cbn [matchComment]. rewrite (afterLine_plain line tail Hl).
  rewrite stripComments_step.
  rewrite matchComment_not_slash by discriminate. reflexivity.
Qed.

Lemma stripComments_line_comment_witness :
  stripComments (urlBefore ++ "//" ++ urlAfter ++ String "010" "}")
  = urlBefore ++ String "010" "}".
Proof.
  exact (stripComments_line_comment urlBefore urlAfter "}" eq_refl eq_refl).
Defined.

Lemma prefix_close_app (a : ascii) (body tail : string) :
  includes (String a body) "*/" = false ->
  String.prefix "*/" (String a (body ++ "*/" ++ tail)) = false.
Proof.
  rewrite includes_cons. intros H. apply orb_false_iff in H. destruct H as [H _].
  cbn [String.prefix] in *.
  destruct (ascii_dec "*" a); [|reflexivity].
  destruct body as [|b body']; cbn [String.append String.prefix] in *.
  - destruct (ascii_dec "/" "*"); [discriminate | reflexivity].
  - destruct (ascii_dec "/" b); [|reflexivity].
    destruct body'; discriminate.
Qed.

Lemma afterClose_app (body tail : string) :
  includes body "*/" = false ->
  afterClose (body ++ "*/" ++ tail) = Some tail.
Proof.
  induction body as [|a body IH]; intros H.
  - destruct tail; reflexivity.
  - cbn [String.append afterClose].
    pose proof (prefix_close_app a body tail H) as P.
    cbn [String.append] in P. rewrite P.
    apply IH. rewrite includes_cons in H. apply orb_false_iff in H. apply H.
Qed.

(** X9: a block comment goes from [/*] to the first [*/] behind it,
    over any number of lines, and is dropped whole. *)
Theorem stripComments_block_comment (p body tail : string) :
  includes p "/" = false ->
  includes body "*/" = false ->
  stripComments (p ++ "/*" ++ body ++ "*/" ++ tail) = p ++ stripComments tail.
Proof.
  intros Hp Hb. rewrite stripComments_plain_prefix by exact Hp. f_equal.
  cbn [String.append]. rewrite stripComments_step.
  cbn [matchComment].
  change (body ++ String "*" (String "/" tail)) with (body ++ "*/" ++ tail).
  rewrite (afterClose_app body tail Hb). reflexivity.
Qed.

Lemma stripComments_block_comment_witness :
  stripComments (aliasBefore ++ "/*" ++ aliasBody ++ "*/" ++ globAfter)
  = aliasBefore ++ globAfter.
Proof.
  exact (stripComments_block_comment aliasBefore aliasBody globAfter
           eq_refl eq_refl).
Defined.

Lemma afterClose_none (s : string) :
  includes s "*/" = false -> afterClose s = None.
Proof.
  induction s as [|a s IH]; intros H; [reflexivity|].
  rewrite includes_cons in H. apply orb_false_iff in H. destruct H as [Hp Hi].
  cbn [afterClose]. rewrite Hp. apply IH, Hi.
Qed.

Lemma includes_suffix_false (a : ascii) (s needle : string) :
  includes (String a s) needle = false -> includes s needle = false.
Proof.
  rewrite includes_cons. intros H. apply orb_false_iff in H. apply H.
Qed.

Lemma prefix_two (a b : ascii) (s : string) :
  String.prefix (String a (String b EmptyString)) (String a (String b s)) = true.
Proof.
  cbn [String.prefix].
  destruct (ascii_dec a a); [|congruence].
  destruct (ascii_dec b b); [|congruence].
  destruct s; reflexivity.
Qed.

(** X10: text with no [//] and no [*/] is left as it is: a [/*] that is
    never closed is not a comment. *)
Theorem stripComments_unclosed (s : string) :
  includes s "//" = false ->
  includes s "*/" = false ->
  stripComments s = s.
Proof.
  induction s as [|a s IH]; intros Hl Hc; [reflexivity|].
  rewrite stripComments_step.
  assert (Hm : matchComment (String a s) = None).
  { unfold matchComment.
    destruct a as [[] [] [] [] [] [] [] []]; try reflexivity;
      destruct s as [|b s']; try reflexivity.
    destruct b as [[] [] [] [] [] [] [] []]; try reflexivity.
    - rewrite includes_cons, prefix_two in Hl. discriminate.
    - rewrite afterClose_none; [reflexivity|].
      apply includes_suffix_false in Hc. apply includes_suffix_false in Hc.
      exact Hc. }
  rewrite Hm. f_equal.
  apply IH; eapply includes_suffix_false; eassumption.
Qed.

Lemma stripComments_unclosed_witness :
  stripComments aliasOnly = aliasOnly.
Proof.
  apply stripComments_unclosed; reflexivity.
Defined.

(* ===================================================================== *)
(** * The analyses return *)
(* ===================================================================== *)

Lemma scanDirectory_total_exists
      (maxArgs : nat) (fs : filesystem) (dir : string) (maxDepth currentDepth : nat) :
  exists results,
    scanDirectory maxArgs fs dir maxDepth currentDepth = Normal results.
Proof. apply scanLevels_total. Qed.

Lemma analyzePackageJson_total
      (number : Type) (number_truthy : number -> bool)
      (number_toString : number -> string) (stackDepth : nat)
      (JSON_parse : string -> completion (value number))
      (fs : filesystem) (projectDir : string) :
  exists analysis,
    analyzePackageJson number number_truthy number_toString stackDepth JSON_parse fs projectDir
    = Normal analysis.
Proof.
  unfold analyzePackageJson.
  destruct (existsSync fs _); simpl; [|eexists; reflexivity].
  pose proof (try_catch_swallow
                (inspectManifest number number_truthy number_toString stackDepth JSON_parse fs
                   (Path.join2 projectDir "package.json"))
                (initialAnalysis number)) as Hs.
  destruct (try_catch _ _ _) as [a c]. simpl in Hs. subst c.
  eexists; reflexivity.
Qed.

(* ===================================================================== *)
(** * Invariants of statements: general facts *)
(* ===================================================================== *)

Section Invariants.

Context {S : Type}.

Lemma preserves_ret {A} (inv : S -> Prop) (a : A) : preserves inv (ret a).
Proof. intros s H. exact H. Qed.

Lemma preserves_lift {A} (inv : S -> Prop) (c : completion A) :
  preserves inv (lift c).
Proof. intros s H. exact H. Qed.

Lemma preserves_modify (inv : S -> Prop) (f : S -> S) :
  (forall s, inv s -> inv (f s)) -> preserves inv (modify f).
Proof. intros Hf s H. apply Hf, H. Qed.

Lemma preserves_bind {A B} (inv : S -> Prop) (m : M S A) (k : A -> M S B) :
  preserves inv m -> (forall a, preserves inv (k a)) -> preserves inv (bind m k).
Proof.
  intros Hm Hk s H. unfold bind. specialize (Hm s H).
  destruct (m s) as [s1 [a|e]]; simpl in *.
  - apply Hk, Hm.
  - exact Hm.
Qed.

Lemma keeps_forOf {A B} (proj : S -> B) (l : list A) (body : A -> M S unit) :
  (forall x, keeps proj (body x)) -> keeps proj (forOf l body).
Proof.
  intros Hb. induction l as [|x l IH]; simpl.
  - apply keeps_ret.
  - apply keeps_bind; [apply Hb | intros _; exact IH].
Qed.

End Invariants.

(* ===================================================================== *)
(** * TypeScript configuration, persisted configuration, agent files *)
(* ===================================================================== *)

Section EngineProperties.

Variable number : Type.
Variable number_truthy : number -> bool.
Variable number_toString : number -> string.
Variable stackDepth : nat.
Variable JSON_parse : string -> completion (value number).

Local Abbreviation truthy := (truthy number number_truthy).
Local Abbreviation TsConfigAnalysis := (TsConfigAnalysis number).
Local Abbreviation AnalysisProfile := (AnalysisProfile number).
Local Abbreviation initialTsConfig := (initialTsConfig number).
Local Abbreviation tsConfigSound := (tsConfigSound number number_truthy).
Local Abbreviation inspectTsConfig :=
  (inspectTsConfig number number_truthy JSON_parse).
Local Abbreviation analyzeTypeScriptConfig :=
  (analyzeTypeScriptConfig number number_truthy JSON_parse).
Local Abbreviation loadProjectConfig := (loadProjectConfig number JSON_parse).
Local Abbreviation verifyConfiguration :=
  (verifyConfiguration number number_truthy number_toString stackDepth).
Local Abbreviation verifyStatements :=
  (verifyStatements number number_truthy number_toString stackDepth).
Local Abbreviation verifyAgents :=
  (verifyAgents number number_truthy number_toString stackDepth).
Local Abbreviation verifyAgent := (verifyAgent number number_toString stackDepth).
Local Abbreviation verifyProjectConfig :=
  (verifyProjectConfig number number_truthy number_toString stackDepth).
Local Abbreviation assembleAnalysis :=
  (assembleAnalysis number number_truthy number_toString stackDepth JSON_parse).
Local Abbreviation mainAnalysis :=
  (mainAnalysis number number_truthy number_toString stackDepth JSON_parse).

Lemma inspectTsConfig_sound (fs : filesystem) (tsconfigPath : string) :
  preserves tsConfigSound (inspectTsConfig fs tsconfigPath).
Proof.
  unfold inspectTsConfig.
  repeat first
    [ apply preserves_lift
    | apply preserves_bind; [|intros ?]
    | cbv zeta ];
    apply preserves_modify; intros s [Hp Hs]; unfold tsConfigSound; simpl;
    (split;
     [ first [ exact Hp
             | match goal with
               | |- context [if ?c then _ else _] =>
                   destruct c eqn:E; [exact E | reflexivity]
               end ]
     | first [ exact Hs
             | match goal with
               | |- context [if ?c then _ else _] =>
                   destruct c eqn:E; [right; exact E | left; reflexivity]
               end ] ]).
Qed.

(** The analysis returns, and what it returns is sound. *)
Lemma analyzeTypeScriptConfig_sound (fs : filesystem) (projectDir : string) :
  exists result,
    analyzeTypeScriptConfig fs projectDir = Normal result
    /\ forall ts, result = Some ts -> tsConfigSound ts.
Proof.
  unfold analyzeTypeScriptConfig.
  destruct (existsSync fs _); simpl;
    [|exists None; split; [reflexivity | discriminate]].
  set (tsconfigPath := Path.join2 projectDir "tsconfig.json").
  pose proof (try_catch_swallow (inspectTsConfig fs tsconfigPath) initialTsConfig) as Hs.
  pose proof (inspectTsConfig_sound fs tsconfigPath initialTsConfig) as Hsound.
  unfold try_catch in *.
  destruct (inspectTsConfig fs tsconfigPath initialTsConfig) as [a [u|e]];
    simpl in *;
    (exists (Some a); split; [reflexivity|]);
    intros ts Hts; injection Hts as <-;
    apply Hsound; (split; [reflexivity | now left]).
Qed.

Lemma loadProjectConfig_total (fs : filesystem) (projectDir : string) :
  exists config, loadProjectConfig fs projectDir = Normal config.
Proof.
  unfold loadProjectConfig.
  destruct (existsSync fs _); simpl; [|eexists; reflexivity].
  destruct (readFileSync fs _) as [content|e]; [|eexists; reflexivity].
  destruct (JSON_parse content); eexists; reflexivity.
Qed.

(** X11: the analysis of the TypeScript configuration never throws. It
    is [null] without the file; with the file it is an object whose path
    aliases are never null (so that [Object.keys] accepts them) and whose
    strict flag is [false] or a truthy value; a file that cannot be read,
    or is not JSON once the comments are taken out, gives the initial
    object. *)
Theorem analyzeTypeScriptConfig_never_raises (fs : filesystem) (projectDir : string) :
  let tsconfigPath := Path.join2 projectDir "tsconfig.json" in
  exists result,
    analyzeTypeScriptConfig fs projectDir = Normal result
    /\ (existsSync fs tsconfigPath = false -> result = None)
    /\ (existsSync fs tsconfigPath = true ->
        exists analysis keys,
          result = Some analysis
          /\ tsConfigSound analysis
          /\ objectKeys number (paths number analysis) = Normal keys)
    /\ (forall e, existsSync fs tsconfigPath = true ->
                  readFileSync fs tsconfigPath = Throw e ->
                  result = Some initialTsConfig)
    /\ (forall content e,
          existsSync fs tsconfigPath = true ->
          readFileSync fs tsconfigPath = Normal content ->
          JSON_parse (stripComments content) = Throw e ->
          result = Some initialTsConfig).
Proof.
  intros tsconfigPath. unfold analyzeTypeScriptConfig. fold tsconfigPath.
  destruct (existsSync fs tsconfigPath) eqn:Hex; simpl.
  - pose proof (try_catch_swallow (inspectTsConfig fs tsconfigPath) initialTsConfig) as Hs.
    destruct (try_catch _ _ _) as [a c] eqn:Htc. simpl in Hs. subst c.
    exists (Some a). split; [reflexivity|]. split; [discriminate|].
    assert (Ha : a = fst (inspectTsConfig fs tsconfigPath initialTsConfig)).
    { unfold try_catch in Htc.
      destruct (inspectTsConfig fs tsconfigPath initialTsConfig) as [s' [u|e]];
        injection Htc as <-; reflexivity. }
    split; [|split].
    + intros _.
      assert (Hsound : tsConfigSound a).
      { rewrite Ha. apply inspectTsConfig_sound. split; [reflexivity | now left]. }
      destruct Hsound as [Hp Hs'].
      destruct (paths number a) eqn:E; try discriminate;
        eexists a, _; (split; [reflexivity|]); (split; [split; [rewrite E; exact Hp | exact Hs']|]);
        rewrite E; reflexivity.
    + intros e _ He. rewrite Ha. unfold inspectTsConfig, bind, lift.
      rewrite He. reflexivity.
    + intros content e _ Hc He. rewrite Ha. unfold inspectTsConfig.
      unfold bind at 1 2, lift at 1 2. rewrite Hc. cbv zeta. rewrite He. reflexivity.
  - exists None. split; [reflexivity|]. split; [reflexivity|].
    split; [discriminate|]. split; intros; discriminate.
Qed.

Lemma agentOfName_key (k : AgentKey) : agentOfName (agentKeyName k) = Some k.
Proof. destruct k; reflexivity. Qed.

Lemma sameAgent_eq (a b : AgentKey) : sameAgent a b = true <-> a = b.
Proof. destruct a, b; simpl; split; intros H; try reflexivity; discriminate. Qed.

(** X13: the agent files are listed for exactly the agents whose file
    exists, in the order of [AGENTS], each with the path of its agent; a
    file that cannot be read still has its entry. *)
Theorem detectAgentConfigs_lists_existing_files
        (fs : filesystem) (statSize : string -> completion N) (projectDir : string) :
  let configs := detectAgentConfigs fs statSize projectDir in
  map fst configs =
    filter (fun key => existsSync fs (Path.join2 projectDir (agent_file (AGENTS key))))
           agentKeys
  /\ (forall key config, In (key, config) configs ->
        path config = agent_file (AGENTS key))
  /\ (forall key,
        existsb (fun entry => sameAgent (fst entry) key) configs =
        existsSync fs (Path.join2 projectDir (agent_file (AGENTS key)))).
Proof.
  assert (G : forall keys,
             let configs :=
               flat_map
                 (fun key =>
                    let agent := AGENTS key in
                    let filePath := Path.join2 projectDir (agent_file agent) in
                    if existsSync fs filePath then
                      match readFileSync fs filePath, statSize filePath with
                      | Normal _, Normal sz =>
                          [(key, mkAgentConfig (agent_file agent) (Some sz))]
                      | _, _ => [(key, mkAgentConfig (agent_file agent) None)]
                      end
                    else []) keys in
             map fst configs =
               filter (fun key => existsSync fs (Path.join2 projectDir (agent_file (AGENTS key))))
                      keys
             /\ (forall key config, In (key, config) configs ->
                   path config = agent_file (AGENTS key))).
  { induction keys as [|k keys [IH1 IH2]]; simpl.
    - split; [reflexivity | contradiction].
    - destruct (existsSync fs (Path.join2 projectDir (agent_file (AGENTS k)))).
      + destruct (readFileSync fs _) as [content|e];
          [destruct (statSize _) as [sz|e]|]; simpl;
          (split; [f_equal; exact IH1|]);
          intros key config [H | H];
          try (injection H as <- <-; reflexivity); apply IH2; exact H.
      + simpl. split; assumption. }
  cbv zeta. destruct (G agentKeys) as [H1 H2].
  split; [exact H1|]. split; [exact H2|].
  intros key.
  assert (E : forall l : list (AgentKey * AgentConfig),
             existsb (fun entry => sameAgent (fst entry) key) l =
             existsb (fun k => sameAgent k key) (map fst l)).
  { induction l as [|x l IH]; simpl; [reflexivity | now rewrite IH]. }
  rewrite E.
  transitivity
    (existsb (fun k => sameAgent k key)
       (filter (fun key => existsSync fs (Path.join2 projectDir (agent_file (AGENTS key))))
               agentKeys));
    [apply f_equal; exact H1|].
  destruct key; simpl;
    repeat match goal with
           | |- context [existsSync fs ?p] => destruct (existsSync fs p); simpl
           end; reflexivity.
Qed.

(* ------------------------------------------------------------------- *)
(** ** Verifier *)

Lemma onWarnings_keeps_issues {A} (m : M (list string) A) :
  keeps issues (onWarnings m).
Proof.
  intros r. unfold onWarnings. destruct (m (warnings r)). reflexivity.
Qed.

Lemma verifyAgent_keeps_issues (analysis : AnalysisProfile) (agent : value number) :
  keeps issues (verifyAgent analysis agent).
Proof.
  unfold verifyAgent, pushWarning, pushSuccess.
  apply keeps_bind; [apply keeps_lift | intros key]. cbv zeta.
  destruct (agentOfName key) as [k|].
  - destruct (detected number analysis k); intros r; reflexivity.
  - destruct (inheritedName key); intros r; reflexivity.
Qed.

(** The check of the agents never adds a blocking issue. *)
Lemma verifyAgents_keeps_issues (analysis : AnalysisProfile) :
  keeps issues (verifyAgents analysis).
Proof.
  unfold verifyAgents. cbv zeta. apply keeps_when.
  apply keeps_bind; [apply keeps_lift | intros elems].
  apply keeps_forOf. intros agent. apply verifyAgent_keeps_issues.
Qed.

Lemma verifyProjectConfig_issues (analysis : AnalysisProfile) (r : VerifyResult) :
  issues (fst (verifyProjectConfig analysis r)) =
  (issues r ++
   if truthy (projectConfig number analysis) then []
   else ["Missing .agents-project.json - run `npx agents-init` first"])%list.
Proof.
  unfold verifyProjectConfig. cbv zeta.
  destruct (truthy (projectConfig number analysis)); simpl.
  - rewrite app_nil_r.
    assert (K : keeps issues
                  (pushSuccess ".agents-project.json exists" ;;
                   version <- lift (getProp number (projectConfig number analysis) "version") ;;
                   when (negb match version with
                              | VString v => String.eqb v "1.1.0"
                              | _ => false
                              end)
                     (v <- lift (ToString number number_toString stackDepth version) ;;
                      pushWarning ("Config version " ++ v
                                   ++ " - consider running agents-init to update"))))
      by (unfold pushSuccess, pushWarning; keeps_tac).
    apply K.
  - reflexivity.
Qed.

Lemma verifyAgentsFolder_runs (fs : filesystem) (agentsDir : string) (r : VerifyResult) :
  exists r',
    verifyAgentsFolder fs agentsDir r = (r', Normal tt)
    /\ issues r' =
       (issues r ++
        if existsSync fs agentsDir then
          if existsSync fs (Path.join2 agentsDir "AGENTS.md") then []
          else ["Missing .agents/AGENTS.md"]
        else ["Missing .agents/ folder - run `npx agents-init` first"])%list.
Proof.
  unfold verifyAgentsFolder.
  destruct (existsSync fs agentsDir); simpl.
  - destruct (existsSync fs (Path.join2 agentsDir "AGENTS.md")); simpl;
      eexists; (split; [reflexivity|]); simpl; rewrite ?app_nil_r; reflexivity.
  - eexists. split; reflexivity.
Qed.

(** X14: the blocking issues of a verification that returns are decided
    by three facts only: whether the persisted configuration is truthy,
    whether the [.agents] folder exists, and, in that folder, whether
    [AGENTS.md] exists (not looked for without the folder). The
    verification passes, with no issue, exactly when all three hold,
    whatever the warnings are. *)
Theorem verification_issues
        (fs : filesystem) (projectDir : string) (analysis : AnalysisProfile)
        (result : VerifyResult) :
  verifyConfiguration fs projectDir analysis = Normal result ->
  let agentsDir := Path.join2 projectDir ".agents" in
  issues result =
    ((if truthy (projectConfig number analysis) then []
      else ["Missing .agents-project.json - run `npx agents-init` first"])
     ++ (if existsSync fs agentsDir then
           if existsSync fs (Path.join2 agentsDir "AGENTS.md") then []
           else ["Missing .agents/AGENTS.md"]
         else ["Missing .agents/ folder - run `npx agents-init` first"]))%list
  /\ (issues result = [] <->
      truthy (projectConfig number analysis) = true
      /\ existsSync fs agentsDir = true
      /\ existsSync fs (Path.join2 agentsDir "AGENTS.md") = true).
Proof.
  intros Hrun agentsDir. unfold verifyConfiguration in Hrun.
  destruct (verifyStatements fs projectDir analysis noFindings)
    as [r [u|e]] eqn:Hst; [|discriminate].
  injection Hrun as ->. destruct u.
  unfold verifyStatements in Hst. cbv zeta in Hst. fold agentsDir in Hst.
  apply bind_normal_inv in Hst. destruct Hst as (r1 & [] & H1 & Hst).
  apply bind_normal_inv in Hst. destruct Hst as (r2 & [] & H2 & Hst).
  pose proof (verifyProjectConfig_issues analysis noFindings) as I1.
  rewrite H1 in I1. simpl in I1.
  destruct (verifyAgentsFolder_runs fs agentsDir r1) as (r2' & H2' & I2).
  rewrite H2 in H2'. injection H2' as <-.
  assert (I3 : issues result = issues r2).
  { assert (K : keeps issues
                  (verifyAgents analysis ;;
                   verifyProjectContext fs agentsDir ;;
                   onWarnings (verifyFramework number number_truthy number_toString stackDepth analysis))).
    { apply keeps_bind; [apply verifyAgents_keeps_issues | intros _].
      apply keeps_bind; [|intros _; apply onWarnings_keeps_issues].
      unfold verifyProjectContext, pushWarning, pushSuccess. keeps_tac. }
    specialize (K r2). rewrite Hst in K. exact K. }
  assert (E : issues result =
    ((if truthy (projectConfig number analysis) then []
      else ["Missing .agents-project.json - run `npx agents-init` first"])
     ++ (if existsSync fs agentsDir then
           if existsSync fs (Path.join2 agentsDir "AGENTS.md") then []
           else ["Missing .agents/AGENTS.md"]
         else ["Missing .agents/ folder - run `npx agents-init` first"]))%list).
  { rewrite I3, I2, I1. reflexivity. }
  split; [exact E|]. rewrite E.
  destruct (truthy (projectConfig number analysis)),
    (existsSync fs agentsDir),
    (existsSync fs (Path.join2 agentsDir "AGENTS.md"));
    simpl; split; intros H; try discriminate; auto;
    destruct H as (? & ? & ?); discriminate.
Qed.

(** X15: for persisted agents that are keys of [AGENTS], the check goes
    through them in order: one success, naming the agent, for each agent
    whose file was detected, one warning for each that was not, and no
    issue. *)
Theorem verifyAgents_known_agents
        (analysis : AnalysisProfile) (keys : list AgentKey) (r : VerifyResult) :
  getPropOpt number (projectConfig number analysis) "agents"
  = VArray (map (fun k => VString (agentKeyName k)) keys) ->
  verifyAgents analysis r =
  (mkVerify
     (issues r)
     (warnings r ++
      map (fun k => "Agent '" ++ agentKeyName k
                    ++ "' listed in config but no config file found")
          (filter (fun k => negb (detected number analysis k)) keys))
     (successes r ++
      map (fun k => agent_name (AGENTS k) ++ " config file exists")
          (filter (detected number analysis) keys)),
   Normal tt).
Proof.
  intros Hagents. unfold verifyAgents. cbv zeta. rewrite Hagents. simpl.
  unfold bind at 1, lift at 1. simpl. clear Hagents.
  revert r. induction keys as [|k keys IH]; intros r; simpl.
  - rewrite !app_nil_r. destruct r; reflexivity.
  - unfold bind at 1. unfold verifyAgent at 1. simpl.
    unfold bind at 1, lift at 1. cbv zeta. rewrite agentOfName_key.
    destruct (detected number analysis k); simpl.
    + unfold pushSuccess, modify. rewrite IH. simpl.
      rewrite <- app_assoc. reflexivity.
    + unfold pushWarning, modify. rewrite IH. simpl.
      rewrite <- app_assoc. reflexivity.
Qed.

Lemma bind_run {S A B} (m : M S A) (k : A -> M S B) (s s1 : S) (a : A) :
  m s = (s1, Normal a) -> bind m k s = k a s1.
Proof. intros H. unfold bind. rewrite H. reflexivity. Qed.

(** With a null configuration the verification returns, and its first
    issue is the missing configuration. *)
Lemma verify_null_config
      (fs : filesystem) (projectDir : string) (analysis : AnalysisProfile) :
  projectConfig number analysis = VNull ->
  exists result rest,
    verifyConfiguration fs projectDir analysis = Normal result
    /\ issues result =
       "Missing .agents-project.json - run `npx agents-init` first" :: rest.
Proof.
  intros Hcfg.
  set (agentsDir := Path.join2 projectDir ".agents").
  set (r1 := mkVerify ["Missing .agents-project.json - run `npx agents-init` first"]
                      [] []).
  assert (B1 : verifyProjectConfig analysis noFindings = (r1, Normal tt)).
  { unfold verifyProjectConfig. cbv zeta. rewrite Hcfg. reflexivity. }
  destruct (verifyAgentsFolder_runs fs agentsDir r1) as (r2 & B2 & I2).
  assert (B3 : verifyAgents analysis r2 = (r2, Normal tt)).
  { unfold verifyAgents. cbv zeta. rewrite Hcfg. reflexivity. }
  assert (B4 : exists r4, verifyProjectContext fs agentsDir r2 = (r4, Normal tt)
                          /\ issues r4 = issues r2).
  { unfold verifyProjectContext.
    destruct (existsSync fs (Path.join2 agentsDir "PROJECT-CONTEXT.md"));
      simpl; eexists; split; reflexivity. }
  destruct B4 as (r4 & B4 & I4).
  assert (B5 : onWarnings (verifyFramework number number_truthy number_toString stackDepth analysis) r4
               = (r4, Normal tt)).
  { unfold onWarnings, verifyFramework. rewrite Hcfg. simpl. destruct r4; reflexivity. }
  exists r4. eexists.
  unfold verifyConfiguration, verifyStatements. cbv zeta. fold agentsDir.
  rewrite (bind_run _ _ _ _ _ B1), (bind_run _ _ _ _ _ B2),
    (bind_run _ _ _ _ _ B3), (bind_run _ _ _ _ _ B4), B5.
  split; [reflexivity|]. rewrite I4, I2. reflexivity.
Qed.

(** The analyses of the [try] block return, whatever the project
    directory holds, with a null configuration when the persisted one is
    absent, unreadable or not JSON. *)
Lemma assembleAnalysis_returns
      (maxArgs : nat) (fs : filesystem) (statSize : string -> completion N)
      (projectDir : string) (readmeAnalysis : option ReadmeAnalysis) :
  exists scan pkg ts config,
    scanDirectory maxArgs fs projectDir 10 0 = Normal scan
    /\ (forall t, ts = Some t -> tsConfigSound t)
    /\ loadProjectConfig fs projectDir = Normal config
    /\ assembleAnalysis maxArgs fs statSize projectDir readmeAnalysis =
       Normal (mkProfile number scan
                 (Some (categorizeFiles projectDir (files scan) projectDir))
                 (Some (analyzeNamingConventions (files scan)))
                 pkg ts config
                 (detectAgentConfigs fs statSize projectDir)
                 readmeAnalysis
                 (detectKeyFiles fs projectDir)).
Proof.
  unfold assembleAnalysis.
  destruct (scanDirectory_total_exists maxArgs fs projectDir 10 0) as (scan & Hscan).
  destruct (analyzePackageJson_total number number_truthy number_toString stackDepth
              JSON_parse fs projectDir) as (pkg & Hpkg).
  destruct (analyzeTypeScriptConfig_sound fs projectDir) as (ts & Hts & Hsound).
  destruct (loadProjectConfig_total fs projectDir) as (config & Hconfig).
  exists scan, pkg, ts, config.
  rewrite Hscan, Hpkg, Hts, Hconfig.
  split; [reflexivity|]. split; [exact Hsound|]. split; reflexivity.
Qed.

(** X16: a project that passes the check of the prerequisites of
    [main] (it has the persisted configuration or the [.agents] folder)
    and whose persisted configuration is absent, unreadable or not JSON
    is analysed all the same, with a null configuration, and its
    verification returns with the issue of the missing configuration in
    the first place: the verification fails. *)
Theorem missing_config_fails_verification
        (maxArgs : nat) (fs : filesystem) (statSize : string -> completion N)
        (projectDir : string) (readmeAnalysis : option ReadmeAnalysis) :
  let configPath := Path.join2 projectDir ".agents-project.json" in
  let agentsDir := Path.join2 projectDir ".agents" in
  existsSync fs configPath || existsSync fs agentsDir = true ->
  existsSync fs configPath = false
  \/ (exists e, readFileSync fs configPath = Throw e)
  \/ (exists content e, readFileSync fs configPath = Normal content
                        /\ JSON_parse content = Throw e) ->
  exists analysis result rest,
    mainAnalysis maxArgs fs statSize projectDir readmeAnalysis
    = Normal (Analysed number analysis)
    /\ projectConfig number analysis = VNull
    /\ verifyConfiguration fs projectDir analysis = Normal result
    /\ issues result =
       "Missing .agents-project.json - run `npx agents-init` first" :: rest.
Proof.
  intros configPath agentsDir Hguard Hbad.
  assert (Hload : loadProjectConfig fs projectDir = Normal VNull).
  { unfold loadProjectConfig. fold configPath.
    destruct (existsSync fs configPath); simpl; [|reflexivity].
    destruct Hbad as [H | [(e & H) | (content & e & H & Hp)]].
    - discriminate.
    - rewrite H. reflexivity.
    - rewrite H, Hp. reflexivity. }
  destruct (assembleAnalysis_returns maxArgs fs statSize projectDir readmeAnalysis)
    as (scan & pkg & ts & config & _ & _ & Hconfig & Hrun).
  rewrite Hload in Hconfig. injection Hconfig as <-.
  unfold mainAnalysis. fold configPath agentsDir.
  replace (negb (existsSync fs configPath) && negb (existsSync fs agentsDir))
    with false
    by (destruct (existsSync fs configPath), (existsSync fs agentsDir);
        simpl in *; congruence).
  rewrite Hrun.
  eexists.
  match goal with
  | |- exists result rest, Normal (Analysed _ ?p) = _ /\ _ =>
      destruct (verify_null_config fs projectDir p eq_refl) as (result & rest & Hv & Hi)
  end.
  exists result, rest. split; [reflexivity|]. split; [reflexivity|].
  split; assumption.
Qed.

(** X17: [main] up to the assembled profile never throws. It exits with
    1 exactly when the project has neither the persisted configuration
    nor the [.agents] folder; otherwise it has a profile, whatever is
    missing, unreadable or malformed in the project: the file structure
    is the result of the walk, every file of the walk is in exactly one
    category (the categories hold as many paths as the walk lists files,
    which are at least the files it counted), the conventions are those
    of the files of the walk, and the path aliases of a TypeScript
    configuration are never null. *)
Theorem analysis_phase_returns
        (maxArgs : nat) (fs : filesystem) (statSize : string -> completion N)
        (projectDir : string) (readmeAnalysis : option ReadmeAnalysis) :
  let configPath := Path.join2 projectDir ".agents-project.json" in
  let agentsDir := Path.join2 projectDir ".agents" in
  exists progress,
    mainAnalysis maxArgs fs statSize projectDir readmeAnalysis = Normal progress
    /\ (progress = Exited number 1 <->
        existsSync fs configPath = false /\ existsSync fs agentsDir = false)
    /\ (existsSync fs configPath || existsSync fs agentsDir = true ->
        exists analysis c,
          progress = Analysed number analysis
          /\ scanDirectory maxArgs fs projectDir 10 0
             = Normal (fileStructure number analysis)
          /\ categories number analysis = Some c
          /\ categorized c = List.length (files (fileStructure number analysis))
          /\ totalFiles (fileStructure number analysis) <= categorized c
          /\ conventions number analysis =
             Some (analyzeNamingConventions (files (fileStructure number analysis)))
          /\ (forall ts, tsconfig number analysis = Some ts ->
                exists keys, objectKeys number (paths number ts) = Normal keys)).
Proof.
  intros configPath agentsDir.
  destruct (assembleAnalysis_returns maxArgs fs statSize projectDir readmeAnalysis)
    as (scan & pkg & ts & config & Hscan & Hsound & _ & Hrun).
  set (profile := mkProfile number scan
                   (Some (categorizeFiles projectDir (files scan) projectDir))
                   (Some (analyzeNamingConventions (files scan)))
                   pkg ts config
                   (detectAgentConfigs fs statSize projectDir)
                   readmeAnalysis
                   (detectKeyFiles fs projectDir)) in *.
  assert (Hcat : categorized (categorizeFiles projectDir (files scan) projectDir)
                 = List.length (files scan))
    by (unfold categorizeFiles; rewrite categorized_fold; reflexivity).
  assert (Hprofile :
            exists analysis c,
              Analysed number profile = Analysed number analysis
              /\ scanDirectory maxArgs fs projectDir 10 0
                 = Normal (fileStructure number analysis)
              /\ categories number analysis = Some c
              /\ categorized c = List.length (files (fileStructure number analysis))
              /\ totalFiles (fileStructure number analysis) <= categorized c
              /\ conventions number analysis =
                 Some (analyzeNamingConventions (files (fileStructure number analysis)))
              /\ (forall ts, tsconfig number analysis = Some ts ->
                    exists keys, objectKeys number (paths number ts) = Normal keys)).
  { exists profile, (categorizeFiles projectDir (files scan) projectDir).
    split; [reflexivity|]. split; [exact Hscan|]. split; [reflexivity|].
    split; [exact Hcat|]. split.
    - rewrite Hcat. apply scanLevels_sound in Hscan. apply Hscan.
    - split; [reflexivity|].
      intros ts' Hts. destruct (Hsound ts' Hts) as [Hp _].
      destruct (paths number ts'); try discriminate Hp; eexists; reflexivity. }
  unfold mainAnalysis. fold configPath agentsDir. rewrite Hrun.
  destruct (existsSync fs configPath), (existsSync fs agentsDir); simpl.
  - exists (Analysed number profile). split; [reflexivity|].
    split; [split; [discriminate | intros [H _]; discriminate H]|].
    intros _. exact Hprofile.
  - exists (Analysed number profile). split; [reflexivity|].
    split; [split; [discriminate | intros [H _]; discriminate H]|].
    intros _. exact Hprofile.
  - exists (Analysed number profile). split; [reflexivity|].
    split; [split; [discriminate | intros [_ H]; discriminate H]|].
    intros _. exact Hprofile.
  - exists (Exited number 1). split; [reflexivity|].
    split; [split; [auto | reflexivity]|]. discriminate.
Qed.

End EngineProperties.

(* ===================================================================== *)
(** * Statements that do not throw: general facts *)
(* ===================================================================== *)

Section Succeeding.

Context {S : Type}.

Lemma succeeds_ret {A} (a : A) : succeeds (@ret S A a).
Proof. intros s. now exists a. Qed.

Lemma succeeds_modify (f : S -> S) : succeeds (modify f).
Proof. intros s. now exists tt. Qed.

Lemma succeeds_lift {A} (c : completion A) (a : A) :
  c = Normal a -> succeeds (@lift S A c).
Proof. intros -> s. now exists a. Qed.

Lemma succeeds_bind {A B} (m : M S A) (k : A -> M S B) :
  succeeds m -> (forall a, succeeds (k a)) -> succeeds (bind m k).
Proof.
  intros Hm Hk s. unfold bind. destruct (Hm s) as [a Ha].
  destruct (m s) as [s1 c]. simpl in Ha. subst c. apply Hk.
Qed.

(** A call that returns [a], then the statements that use it. *)
Lemma succeeds_bind_lift {A B} (c : completion A) (a : A) (k : A -> M S B) :
  c = Normal a -> succeeds (k a) -> succeeds (bind (lift c) k).
Proof. intros -> Hk s. unfold bind, lift. apply Hk. Qed.

Lemma succeeds_when (c : bool) (m : M S unit) :
  (c = true -> succeeds m) -> succeeds (when c m).
Proof. intros H. destruct c; simpl; [now apply H | apply succeeds_ret]. Qed.

Lemma succeeds_forOf {A} (l : list A) (body : A -> M S unit) :
  (forall x, In x l -> succeeds (body x)) -> succeeds (forOf l body).
Proof.
  induction l as [|x l IH]; intros Hb; simpl.
  - apply succeeds_ret.
  - apply succeeds_bind; [apply Hb; now left | intros _].
    apply IH. intros y Hy. apply Hb. now right.
Qed.

(** A loop that ends normally ran its body to a normal end on each
    element. *)
Lemma forOf_normal_inv {A} (l : list A) (body : A -> M S unit) :
  forall s s', forOf l body s = (s', Normal tt) ->
  forall x, In x l -> exists s1 s2, body x s1 = (s2, Normal tt).
Proof.
  induction l as [|y l IH]; intros s s' H x Hin; [contradiction|].
  simpl in H. apply bind_normal_inv in H. destruct H as (s1 & [] & Hy & H).
  destruct Hin as [<- | Hin].
  - now exists s, s1.
  - eapply IH; eassumption.
Qed.

Lemma succeeds_run (m : M S unit) (s : S) :
  succeeds m -> exists s', m s = (s', Normal tt).
Proof.
  intros H. destruct (H s) as [[] Ha]. destruct (m s) as [s' c].
  simpl in Ha. subst c. now exists s'.
Qed.

End Succeeding.

(* ===================================================================== *)
(** * Manifest Inspector: further properties *)
(* ===================================================================== *)

Section ManifestMore.

Variable number : Type.
Variable number_truthy : number -> bool.
Variable number_toString : number -> string.
Variable stackDepth : nat.
Variable JSON_parse : string -> completion (value number).

Local Abbreviation value := (value number).
Local Abbreviation PackageAnalysis := (PackageAnalysis number).
Local Abbreviation has := (has number number_truthy).
Local Abbreviation lookup := (lookup number).
Local Abbreviation hasOwn := (hasOwn number).
Local Abbreviation setProp := (setProp number).
Local Abbreviation spread2 := (spread2 number).
Local Abbreviation stringValued := (stringValued number).
Local Abbreviation versionOf := (versionOf number).
Local Abbreviation pinned := (pinned number).
Local Abbreviation featuresOf := (featuresOf number number_truthy).
Local Abbreviation keyDependenciesOf := (keyDependenciesOf number number_truthy).
Local Abbreviation detectAll := (detectAll number number_truthy number_toString stackDepth).
Local Abbreviation withBasics := (withBasics number number_truthy).
Local Abbreviation inspectPackage := (inspectPackage number number_truthy number_toString stackDepth).
Local Abbreviation analyzePackageJson :=
  (analyzePackageJson number number_truthy number_toString stackDepth JSON_parse).
Local Abbreviation initialAnalysis := (initialAnalysis number).
Local Abbreviation pushKeyDependency := (pushKeyDependency number number_toString stackDepth).

(* ------------------------------------------------------------------- *)
(** ** The merged dependency object *)

Lemma lookup_setProp (o : list (string * value)) (k k' : string) (v : value) :
  lookup k (setProp o k' v) = if String.eqb k k' then v else lookup k o.
Proof.
  induction o as [|[k0 v0] o IH]; simpl.
  - reflexivity.
  - destruct (String.eqb_spec k' k0) as [-> | Hne]; simpl.
    + destruct (String.eqb k k0); reflexivity.
    + rewrite IH. destruct (String.eqb_spec k k0) as [-> | Hne'].
      * destruct (String.eqb_spec k0 k'); [congruence | reflexivity].
      * reflexivity.
Qed.

Lemma hasOwn_In (k : string) (l : list (string * value)) :
  hasOwn k l = true -> In k (map fst l).
Proof.
  induction l as [|[k0 v0] l IH]; simpl; [discriminate|].
  destruct (String.eqb_spec k k0) as [-> | Hne]; simpl; auto.
Qed.

Lemma lookup_absent (k : string) (l : list (string * value)) :
  hasOwn k l = false -> lookup k l = VUndefined.
Proof.
  induction l as [|[k0 v0] l IH]; simpl; [reflexivity|].
  destruct (String.eqb k k0); simpl; [discriminate | exact IH].
Qed.

Lemma lookup_assign (l : list (string * value)) :
  NoDup (map fst l) ->
  forall (o : list (string * value)) (k : string),
    lookup k (fold_left (fun o kv => setProp o (fst kv) (snd kv)) l o) =
    if hasOwn k l then lookup k l else lookup k o.
Proof.
  induction l as [|[k0 v0] l IH]; intros Hnd o k; simpl.
  - reflexivity.
  - inversion Hnd as [|? ? Hnotin Hnd']; subst.
    rewrite (IH Hnd'). rewrite lookup_setProp.
    destruct (String.eqb_spec k k0) as [-> | Hne]; simpl.
    + destruct (hasOwn k0 l) eqn:E.
      * apply hasOwn_In in E. contradiction.
      * reflexivity.
    + reflexivity.
Qed.

(** X18: in the merged dependency object a key of [devDependencies]
    hides the same key of [dependencies]; a key of [dependencies] alone
    keeps its value, and a key of neither is undefined. *)
Theorem devDependencies_take_precedence
        (dependencies devDependencies : list (string * value)) (k : string) :
  NoDup (map fst dependencies) ->
  NoDup (map fst devDependencies) ->
  lookup k (spread2 (VObject dependencies) (VObject devDependencies)) =
  if hasOwn k devDependencies then lookup k devDependencies
  else lookup k dependencies.
Proof.
  intros Ha Hb. unfold spread2. simpl. rewrite fold_left_app.
  rewrite (lookup_assign devDependencies Hb).
  destruct (hasOwn k devDependencies); [reflexivity|].
  rewrite (lookup_assign dependencies Ha). simpl.
  destruct (hasOwn k dependencies) eqn:E; [reflexivity|].
  symmetry. apply lookup_absent, E.
Qed.

(* ------------------------------------------------------------------- *)
(** ** Manifests whose versions are strings *)

Section StringVersions.

Variable deps : list (string * value).
Hypothesis versions_are_strings : stringValued deps = true.

Lemma lookup_stringValued (k : string) :
  lookup k deps = VUndefined \/ exists s, lookup k deps = VString s.
Proof.
  revert versions_are_strings. unfold stringValued.
  induction deps as [|[k0 v0] l IH]; simpl; intros H.
  - now left.
  - apply andb_true_iff in H. destruct H as [Hv Hl].
    destruct (String.eqb k k0).
    + destruct v0; try discriminate. right. eauto.
    + apply IH, Hl.
Qed.

Lemma ToString_dep (k : string) :
  ToString number number_toString stackDepth (lookup k deps) = Normal (versionOf deps k).
Proof.
  unfold versionOf.
  destruct (lookup_stringValued k) as [-> | (s & ->)]; reflexivity.
Qed.

Lemma pushKeyDependency_run (k : string) (s : PackageAnalysis) :
  pushKeyDependency deps k s =
  (push_keyDependency number (pinned deps k) s, Normal tt).
Proof.
  unfold pushKeyDependency, bind, lift. rewrite ToString_dep. reflexivity.
Qed.

Lemma callIncludes_dep (k x : string) :
  has deps k = true ->
  callIncludes number (lookup k deps) x = Normal (includes (versionOf deps k) x).
Proof.
  unfold has, versionOf. intros H.
  destruct (lookup_stringValued k) as [E | (s & E)]; rewrite E in *.
  - discriminate.
  - reflexivity.
Qed.

Lemma runsAs_bind (F G : StackView -> StackView)
      (m k : M PackageAnalysis unit) :
  runsAs number F m -> runsAs number G k ->
  runsAs number (fun v => G (F v)) (m ;; k).
Proof.
  intros Hm Hk s. destruct (Hm s) as (s1 & H1 & V1).
  destruct (Hk s1) as (s2 & H2 & V2).
  exists s2. unfold bind. rewrite H1, H2. split; [reflexivity|].
  rewrite V2, V1. reflexivity.
Qed.

Lemma runsAs_tag (c : bool) (tag : string) :
  runsAs number
    (fun '(fw, st, db, te, li, bt, fe, kd) =>
       (fw, st, db, te, li, bt, (fe ++ tagIf c tag)%list, kd))
    (when c (modify (push_feature number tag))).
Proof.
  intros s. destruct c; simpl; eexists; (split; [reflexivity|]);
    unfold viewOf; simpl; rewrite ?app_nil_r; reflexivity.
Qed.

(** Closes a branch of a cascade: the statements are run, the view is
    read. *)
Ltac run_branch :=
  unfold bind, modify, when, ret;
  rewrite ?pushKeyDependency_run;
  eexists; (split; [reflexivity|]);
  unfold viewOf, orElse, tagIf; simpl; rewrite ?app_nil_r; reflexivity.

(** Goes down a cascade, one key after the other. *)
Ltac run_cascade :=
  repeat match goal with
         | |- context [has deps ?k] =>
             destruct (has deps k) eqn:?; simpl; try solve [run_branch]
         end;
  try solve [run_branch].

Lemma detectFramework_runs :
  runsAs number
    (fun '(fw, st, db, te, li, bt, fe, kd) =>
       (orElse (firstMatch (frameworkRules number number_truthy deps)) fw,
        st, db, te, li, bt, fe,
        (kd ++ tagIf (has deps "next") (pinned deps "next"))%list))
    (detectFramework number number_truthy number_toString stackDepth deps).
Proof.
  intros s. unfold detectFramework, frameworkRules, firstMatch. run_cascade.
Qed.

Lemma detectReactVersion_runs :
  runsAs number
    (fun '(fw, st, db, te, li, bt, fe, kd) =>
       (fw, st, db, te, li, bt,
        (fe ++ tagIf (has deps "react"
                      && (includes (versionOf deps "react") "19"
                          || includes (versionOf deps "react") "canary"))
                     "React 19")%list,
        (kd ++ tagIf (has deps "react") (pinned deps "react"))%list))
    (detectReactVersion number number_truthy number_toString stackDepth deps).
Proof.
  intros s. unfold detectReactVersion.
  destruct (has deps "react") eqn:Hr; simpl; [|run_branch].
  unfold bind at 1. rewrite pushKeyDependency_run.
  unfold bind at 1, lift at 1. rewrite (callIncludes_dep "react" "19" Hr).
  destruct (includes (versionOf deps "react") "19"); simpl.
  - run_branch.
  - unfold bind at 1, lift at 1. rewrite (callIncludes_dep "react" "canary" Hr).
    destruct (includes (versionOf deps "react") "canary"); simpl; run_branch.
Qed.

Lemma detectStyling_runs :
  runsAs number
    (fun '(fw, st, db, te, li, bt, fe, kd) =>
       (fw, orElse (firstMatch (stylingRules number number_truthy deps)) st,
        db, te, li, bt, fe,
        (kd ++ (if has deps "tailwindcss" then [pinned deps "tailwindcss"]
                else tagIf (has deps "@mui/material") (pinned deps "@mui/material")))%list))
    (detectStyling number number_truthy number_toString stackDepth deps).
Proof.
  intros s. unfold detectStyling, stylingRules, firstMatch. run_cascade.
Qed.

Lemma detectDatabase_runs :
  runsAs number
    (fun '(fw, st, db, te, li, bt, fe, kd) =>
       (fw, st, orElse (firstMatch (databaseRules number number_truthy deps)) db,
        te, li, bt, fe,
        (kd ++ tagIf (has deps "@supabase/supabase-js")
                     (pinned deps "@supabase/supabase-js"))%list))
    (detectDatabase number number_truthy number_toString stackDepth deps).
Proof.
  intros s. unfold detectDatabase, databaseRules, firstMatch. run_cascade.
Qed.

Lemma detectTesting_runs :
  runsAs number
    (fun '(fw, st, db, te, li, bt, fe, kd) =>
       (fw, st, db, orElse (firstMatch (testingRules number number_truthy deps)) te,
        li, bt, fe, kd))
    (detectTesting number number_truthy deps).
Proof.
  intros s. unfold detectTesting, testingRules, firstMatch. run_cascade.
Qed.

Lemma detectLinting_runs :
  runsAs number
    (fun '(fw, st, db, te, li, bt, fe, kd) =>
       (fw, st, db, te,
        orElse (firstMatch (lintingRules number number_truthy deps)) li,
        bt, fe, kd))
    (detectLinting number number_truthy deps).
Proof.
  intros s. unfold detectLinting, lintingRules, firstMatch. run_cascade.
Qed.

Lemma detectBuildTool_runs :
  runsAs number
    (fun '(fw, st, db, te, li, bt, fe, kd) =>
       (fw, st, db, te, li,
        orElse (firstMatch (buildToolRules number number_truthy deps)) bt,
        (fe ++ tagIf (has deps "turbo" || has deps "@turbo/gen" || has deps "nx")
                     "Monorepo")%list,
        kd))
    (detectBuildTool number number_truthy deps).
Proof.
  intros s. unfold detectBuildTool, buildToolRules, firstMatch. run_cascade.
Qed.

Lemma detectTypeScript_runs :
  runsAs number
    (fun '(fw, st, db, te, li, bt, fe, kd) =>
       (fw, st, db, te, li, bt,
        (fe ++ tagIf (has deps "typescript") "TypeScript")%list,
        (kd ++ tagIf (has deps "typescript") (pinned deps "typescript"))%list))
    (detectTypeScript number number_truthy number_toString stackDepth deps).
Proof.
  intros s. unfold detectTypeScript. run_cascade.
Qed.

Lemma detectFeatures_runs :
  runsAs number
    (fun '(fw, st, db, te, li, bt, fe, kd) =>
       (fw, st, db, te, li, bt,
        (fe
         ++ tagIf (has deps "@google/generative-ai") "Google Gemini AI"
         ++ tagIf (has deps "openai") "OpenAI API"
         ++ tagIf (has deps "@anthropic-ai/sdk") "Anthropic Claude"
         ++ tagIf (has deps "storybook" || has deps "@storybook/react") "Storybook"
         ++ tagIf (has deps "three" || has deps "@react-three/fiber") "Three.js/R3F"
         ++ tagIf (has deps "framer-motion") "Framer Motion"
         ++ tagIf (has deps "react-query" || has deps "@tanstack/react-query")
                  "TanStack Query"
         ++ tagIf (has deps "zustand") "Zustand"
         ++ tagIf (has deps "jotai") "Jotai"
         ++ tagIf (has deps "redux" || has deps "@reduxjs/toolkit") "Redux"
         ++ tagIf (has deps "zod") "Zod validation"
         ++ tagIf (has deps "react-hook-form") "React Hook Form")%list,
        kd))
    (detectFeatures number number_truthy deps).
Proof.
  intros s.
  assert (R : exists F, runsAs number F (detectFeatures number number_truthy deps)
                        /\ forall fw st db te li bt fe kd,
                             F (fw, st, db, te, li, bt, fe, kd) =
                             (fw, st, db, te, li, bt,
        (fe
         ++ tagIf (has deps "@google/generative-ai") "Google Gemini AI"
         ++ tagIf (has deps "openai") "OpenAI API"
         ++ tagIf (has deps "@anthropic-ai/sdk") "Anthropic Claude"
         ++ tagIf (has deps "storybook" || has deps "@storybook/react") "Storybook"
         ++ tagIf (has deps "three" || has deps "@react-three/fiber") "Three.js/R3F"
         ++ tagIf (has deps "framer-motion") "Framer Motion"
         ++ tagIf (has deps "react-query" || has deps "@tanstack/react-query")
                  "TanStack Query"
         ++ tagIf (has deps "zustand") "Zustand"
         ++ tagIf (has deps "jotai") "Jotai"
         ++ tagIf (has deps "redux" || has deps "@reduxjs/toolkit") "Redux"
         ++ tagIf (has deps "zod") "Zod validation"
         ++ tagIf (has deps "react-hook-form") "React Hook Form")%list,
                              kd)).
  { eexists. split.
    - unfold detectFeatures.
      repeat (eapply runsAs_bind; [apply runsAs_tag|]). apply runsAs_tag.
    - intros. cbv beta iota. rewrite <- !app_assoc. reflexivity. }
  destruct R as (F & HF & HE). destruct (HF s) as (s' & Hrun & Hview).
  exists s'. split; [exact Hrun|]. rewrite Hview. unfold viewOf. apply HE.
Qed.

(** The detection statements together, on a dependency object whose
    values are strings: they never throw, every field of the stack is
    resolved by its table, and the two lists grow by the tags and the
    pinned versions. *)
Lemma detectAll_runs :
  runsAs number
    (fun '(fw, st, db, te, li, bt, fe, kd) =>
       (orElse (firstMatch (frameworkRules number number_truthy deps)) fw,
        orElse (firstMatch (stylingRules number number_truthy deps)) st,
        orElse (firstMatch (databaseRules number number_truthy deps)) db,
        orElse (firstMatch (testingRules number number_truthy deps)) te,
        orElse (firstMatch (lintingRules number number_truthy deps)) li,
        orElse (firstMatch (buildToolRules number number_truthy deps)) bt,
        (fe ++ featuresOf deps)%list,
        (kd ++ keyDependenciesOf deps)%list))
    (detectAll deps).
Proof.
  intros s.
  assert (R : exists F, runsAs number F (detectAll deps)
                        /\ forall fw st db te li bt fe kd,
                             F (fw, st, db, te, li, bt, fe, kd) =
       (orElse (firstMatch (frameworkRules number number_truthy deps)) fw,
        orElse (firstMatch (stylingRules number number_truthy deps)) st,
        orElse (firstMatch (databaseRules number number_truthy deps)) db,
        orElse (firstMatch (testingRules number number_truthy deps)) te,
        orElse (firstMatch (lintingRules number number_truthy deps)) li,
        orElse (firstMatch (buildToolRules number number_truthy deps)) bt,
        (fe ++ featuresOf deps)%list,
        (kd ++ keyDependenciesOf deps)%list)).
  { eexists. split.
    - unfold detectAll.
      eapply runsAs_bind; [apply detectFramework_runs|].
      eapply runsAs_bind; [apply detectReactVersion_runs|].
      eapply runsAs_bind; [apply detectStyling_runs|].
      eapply runsAs_bind; [apply detectDatabase_runs|].
      eapply runsAs_bind; [apply detectTesting_runs|].
      eapply runsAs_bind; [apply detectLinting_runs|].
      eapply runsAs_bind; [apply detectBuildTool_runs|].
      eapply runsAs_bind; [apply detectFeatures_runs|].
      apply detectTypeScript_runs.
    - intros. cbv beta iota. unfold featuresOf, keyDependenciesOf.
      rewrite <- !app_assoc. reflexivity. }
  destruct R as (F & HF & HE). destruct (HF s) as (s' & Hrun & Hview).
  exists s'. split; [exact Hrun|]. rewrite Hview. unfold viewOf. apply HE.
Qed.

End StringVersions.

Lemma inspectPackage_split (pkg : value) (s : PackageAnalysis) :
  pkg <> VNull -> pkg <> VUndefined ->
  inspectPackage pkg s = detectAll (depsOf number pkg) (withBasics pkg s).
Proof.
  intros Hn Hu. unfold inspectPackage.
  rewrite !(getProp_defined number pkg _ Hn Hu). reflexivity.
Qed.

(** The view of the analysis of a manifest that parses to a value other
    than [null] and whose dependency versions are all strings. *)
Lemma wellformed_manifest_view
      (fs : filesystem) (projectDir content : string) (pkg : value) :
  let pkgPath := Path.join2 projectDir "package.json" in
  existsSync fs pkgPath = true ->
  readFileSync fs pkgPath = Normal content ->
  JSON_parse content = Normal pkg ->
  pkg <> VNull -> pkg <> VUndefined ->
  stringValued (depsOf number pkg) = true ->
  let deps := depsOf number pkg in
  exists analysis,
    analyzePackageJson fs projectDir = Normal analysis
    /\ viewOf number analysis =
       (firstMatch (frameworkRules number number_truthy deps),
        firstMatch (stylingRules number number_truthy deps),
        firstMatch (databaseRules number number_truthy deps),
        firstMatch (testingRules number number_truthy deps),
        firstMatch (lintingRules number number_truthy deps),
        firstMatch (buildToolRules number number_truthy deps),
        featuresOf deps, keyDependenciesOf deps).
Proof.
  intros pkgPath Hex Hread Hparse Hn Hu Hsv deps.
  destruct (detectAll_runs deps Hsv (withBasics pkg initialAnalysis))
    as (a & Hrun & Hview).
  exists a. split.
  - unfold analyzePackageJson. fold pkgPath. rewrite Hex. simpl.
    unfold try_catch, inspectManifest.
    unfold bind at 1 2, lift at 1 2. rewrite Hread, Hparse.
    rewrite (inspectPackage_split pkg _ Hn Hu). unfold deps in Hrun.
    rewrite Hrun. reflexivity.
  - rewrite Hview.
    change (viewOf number (withBasics pkg initialAnalysis))
      with ((None, None, None, None, None, None, [], []) : StackView).
    cbv beta iota. unfold orElse.
    destruct (firstMatch (frameworkRules number number_truthy deps)),
      (firstMatch (stylingRules number number_truthy deps)),
      (firstMatch (databaseRules number number_truthy deps)),
      (firstMatch (testingRules number number_truthy deps)),
      (firstMatch (lintingRules number number_truthy deps)),
      (firstMatch (buildToolRules number number_truthy deps));
      reflexivity.
Qed.

(** X19: for a manifest whose dependency versions are all strings, the
    inspector runs to its end and every field of the stack is exactly
    the label of the first matching rule of its table, null when no rule
    matches. *)
Theorem wellformed_manifest_stack
        (fs : filesystem) (projectDir content : string) (pkg : value) :
  let pkgPath := Path.join2 projectDir "package.json" in
  existsSync fs pkgPath = true ->
  readFileSync fs pkgPath = Normal content ->
  JSON_parse content = Normal pkg ->
  pkg <> VNull -> pkg <> VUndefined ->
  stringValued (depsOf number pkg) = true ->
  let deps := depsOf number pkg in
  exists analysis,
    analyzePackageJson fs projectDir = Normal analysis
    /\ framework number analysis = firstMatch (frameworkRules number number_truthy deps)
    /\ styling number analysis = firstMatch (stylingRules number number_truthy deps)
    /\ database number analysis = firstMatch (databaseRules number number_truthy deps)
    /\ testing number analysis = firstMatch (testingRules number number_truthy deps)
    /\ linting number analysis = firstMatch (lintingRules number number_truthy deps)
    /\ buildTool number analysis = firstMatch (buildToolRules number number_truthy deps).
Proof.
  intros pkgPath Hex Hread Hparse Hn Hu Hsv deps.
  destruct (wellformed_manifest_view fs projectDir content pkg
              Hex Hread Hparse Hn Hu Hsv) as (a & Hrun & Hview).
  exists a. split; [exact Hrun|].
  unfold viewOf in Hview. injection Hview as -> -> -> -> -> -> _ _.
  repeat split.
Qed.

(** X20: for such a manifest the features are exactly the tags of the
    dependencies present, in the fixed order of the inspector, each at
    most once ('Monorepo' for any of the monorepo tools, 'React 19' for a
    react version that contains [19] or [canary]), and the key
    dependencies are the pinned versions of next, react, the styling
    library, supabase and typescript, in that order. *)
Theorem wellformed_manifest_features
        (fs : filesystem) (projectDir content : string) (pkg : value) :
  let pkgPath := Path.join2 projectDir "package.json" in
  existsSync fs pkgPath = true ->
  readFileSync fs pkgPath = Normal content ->
  JSON_parse content = Normal pkg ->
  pkg <> VNull -> pkg <> VUndefined ->
  stringValued (depsOf number pkg) = true ->
  let deps := depsOf number pkg in
  exists analysis,
    analyzePackageJson fs projectDir = Normal analysis
    /\ features number analysis = featuresOf deps
    /\ keyDependencies number analysis = keyDependenciesOf deps.
Proof.
  intros pkgPath Hex Hread Hparse Hn Hu Hsv deps.
  destruct (wellformed_manifest_view fs projectDir content pkg
              Hex Hread Hparse Hn Hu Hsv) as (a & Hrun & Hview).
  exists a. split; [exact Hrun|].
  unfold viewOf in Hview. injection Hview as _ _ _ _ _ _ -> ->.
  split; reflexivity.
Qed.

End ManifestMore.

(* ===================================================================== *)
(** * Report Renderer: when the renderers return *)
(* ===================================================================== *)

(** Decomposes a renderer into its statements to show it does not
    throw; the calls that can throw are left. *)
Ltac succeeds_step :=
  match goal with
  | |- succeeds (push _) => apply succeeds_modify
  | |- succeeds (ret _) => apply succeeds_ret
  | |- succeeds (when _ _) => apply succeeds_when; intros ?
  | |- succeeds (forOf _ _) => apply succeeds_forOf; intros ? ?
  | |- succeeds (bind _ _) => apply succeeds_bind; [|intros ?]
  | |- succeeds (match ?x with _ => _ end) => destruct x eqn:?
  end.

Section RendererReturns.

Variable number : Type.
Variable number_truthy : number -> bool.
Variable number_toString : number -> string.
Variable stackDepth : nat.

Local Abbreviation value := (value number).
Local Abbreviation AnalysisProfile := (AnalysisProfile number).
Local Abbreviation truthy := (truthy number number_truthy).
Local Abbreviation ToString := (ToString number number_toString stackDepth).
Local Abbreviation getProp := (getProp number).
Local Abbreviation getPropOpt := (getPropOpt number).
Local Abbreviation objectKeys := (objectKeys number).
Local Abbreviation objectEntries := (objectEntries number).
Local Abbreviation ownEntries := (ownEntries number).
Local Abbreviation index0 := (index0 number).
Local Abbreviation printable := (printable number number_toString stackDepth).
Local Abbreviation reportable := (reportable number number_toString stackDepth).
Local Abbreviation summarizable := (summarizable number number_toString stackDepth).
Local Abbreviation reportOverview := (reportOverview number number_truthy number_toString stackDepth).
Local Abbreviation reportTsConfig := (reportTsConfig number number_truthy number_toString stackDepth).
Local Abbreviation recommend := (recommend number number_truthy).
Local Abbreviation reportRecommendations := (reportRecommendations number number_truthy).
Local Abbreviation reportBody := (reportBody number number_truthy number_toString stackDepth).
Local Abbreviation reportLines := (reportLines number number_truthy number_toString stackDepth).
Local Abbreviation generateAnalysisReport :=
  (generateAnalysisReport number number_truthy number_toString stackDepth).
Local Abbreviation contextIdentity := (contextIdentity number number_truthy number_toString stackDepth).
Local Abbreviation contextStandards := (contextStandards number number_truthy).
Local Abbreviation contextScripts := (contextScripts number number_truthy number_toString stackDepth).
Local Abbreviation contextLines := (contextLines number number_truthy number_toString stackDepth).
Local Abbreviation generateProjectContext :=
  (generateProjectContext number number_truthy number_toString stackDepth).

(** Only arrays and objects, which are truthy, can fail to print. *)
Lemma ToString_throw_truthy (v : value) (e : exn) :
  ToString v = Throw e -> truthy v = true.
Proof.
  destruct v; intros H; try reflexivity; simpl in H; discriminate H.
Qed.

Lemma truthy_objectKeys (v : value) :
  truthy v = true -> exists keys, objectKeys v = Normal keys.
Proof. destruct v; intros H; try discriminate H; eexists; reflexivity. Qed.

Lemma truthy_getProp (v : value) (k : string) :
  truthy v = true -> getProp v k = Normal (getPropOpt v k).
Proof. destruct v; intros H; try discriminate H; reflexivity. Qed.

Lemma objectKeys_entries (v : value) (keys : list string) :
  objectKeys v = Normal keys ->
  keys = map fst (ownEntries v) /\ objectEntries v = Normal (ownEntries v).
Proof.
  destruct v; intros H; try discriminate H; injection H as <-; split; reflexivity.
Qed.

(** A property that is not there prints as [undefined]. *)
Lemma getPropOpt_no_entries (v : value) (k : string) :
  ownEntries v = [] -> printable (getPropOpt v k).
Proof.
  intros H. destruct v; simpl in *; try (now exists "undefined").
  subst props. now exists "undefined".
Qed.

Lemma getPropOpt_falsy (v : value) (k : string) :
  truthy v = false -> printable (getPropOpt v k).
Proof.
  intros H. destruct v; try discriminate H; now exists "undefined".
Qed.

(** The guarded print of a value: it returns exactly when the value can
    be printed. *)
Lemma print_succeeds (v : value) (line : string -> string) :
  printable v ->
  succeeds (when (truthy v) (n <- lift (ToString v) ;; push (line n))).
Proof.
  intros [n Hn]. apply succeeds_when. intros _.
  eapply succeeds_bind_lift; [exact Hn | apply succeeds_modify].
Qed.

Lemma print_inv (v : value) (line : string -> string) (s s' : list string) :
  when (truthy v) (n <- lift (ToString v) ;; push (line n)) s = (s', Normal tt) ->
  printable v.
Proof.
  intros H. destruct (ToString v) as [n|e] eqn:Hn; [now exists n|].
  rewrite (ToString_throw_truthy v e Hn) in H.
  unfold when, bind, lift in H. discriminate H.
Qed.

(* ------------------------------------------------------------------- *)
(** ** The full report *)

Lemma reportOverview_succeeds (analysis : AnalysisProfile) :
  printable (name number (packageJson number analysis)) ->
  succeeds (reportOverview analysis).
Proof.
  intros Hn. unfold reportOverview. cbv zeta.
  do 2 (apply succeeds_bind; [apply succeeds_modify | intros _]).
  apply succeeds_bind;
    [exact (print_succeeds _ (fun n => "**Name:** " ++ n) Hn) | intros _].
  repeat succeeds_step.
Qed.

Lemma reportOverview_inv (analysis : AnalysisProfile) (s s' : list string) :
  reportOverview analysis s = (s', Normal tt) ->
  printable (name number (packageJson number analysis)).
Proof.
  unfold reportOverview. cbv zeta. rewrite !bind_push. intros H.
  apply bind_normal_inv in H. destruct H as (s1 & [] & H & _).
  exact (print_inv _ (fun n => "**Name:** " ++ n) _ _ H).
Qed.

Lemma reportTsConfig_succeeds (analysis : AnalysisProfile) :
  reportable analysis -> succeeds (reportTsConfig analysis).
Proof.
  intros [_ H]. unfold reportTsConfig.
  destruct (tsconfig number analysis) as [ts|]; [|apply succeeds_ret].
  destruct (H ts eq_refl) as (Hb & [keys Hk] & He).
  destruct (objectKeys_entries _ _ Hk) as [_ Hentries].
  do 3 (apply succeeds_bind; [apply succeeds_modify | intros _]).
  apply succeeds_bind;
    [exact (print_succeeds _ (fun b => "- **Base URL:** " ++ b) Hb) | intros _].
  eapply succeeds_bind_lift; [exact Hk|].
  apply succeeds_bind; [|intros _; apply succeeds_modify].
  apply succeeds_when. intros _.
  apply succeeds_bind; [apply succeeds_modify | intros _].
  eapply succeeds_bind_lift; [exact Hentries|].
  apply succeeds_forOf. intros entry Hin.
  destruct (He entry Hin) as (first & Hfirst & target & Htarget).
  eapply succeeds_bind_lift; [exact Hfirst|].
  eapply succeeds_bind_lift; [exact Htarget|].
  apply succeeds_modify.
Qed.

Lemma reportTsConfig_inv (analysis : AnalysisProfile)
      (ts : TsConfigAnalysis number) (s s' : list string) :
  tsconfig number analysis = Some ts ->
  reportTsConfig analysis s = (s', Normal tt) ->
  printable (baseUrl number ts)
  /\ (exists keys, objectKeys (paths number ts) = Normal keys)
  /\ forall entry, In entry (ownEntries (paths number ts)) ->
       exists first, index0 (snd entry) = Normal first /\ printable first.
Proof.
  intros Hts. unfold reportTsConfig. rewrite Hts. rewrite !bind_push. intros H.
  apply bind_normal_inv in H. destruct H as (s1 & [] & Hb & H).
  apply bind_normal_inv in H. destruct H as (s2 & keys & Hk & H).
  unfold lift in Hk. injection Hk as _ Hk.
  apply bind_normal_inv in H. destruct H as (s3 & [] & Hw & _).
  split; [exact (print_inv _ (fun b => "- **Base URL:** " ++ b) _ _ Hb)|].
  split; [now exists keys|].
  intros entry Hin.
  destruct (objectKeys_entries _ _ Hk) as [Hkeys Hentries].
  destruct keys as [|key keys].
  - destruct (ownEntries (paths number ts)); [contradiction | discriminate Hkeys].
  - unfold when in Hw. cbn [List.length Nat.ltb Nat.leb] in Hw.
    rewrite bind_push in Hw.
    apply bind_normal_inv in Hw. destruct Hw as (s4 & entries & He & Hfor).
    unfold lift in He. rewrite Hentries in He. injection He as _ <-.
    destruct (forOf_normal_inv _ _ _ _ Hfor entry Hin) as (sa & sb & Hbody).
    apply bind_normal_inv in Hbody. destruct Hbody as (sc & first & Hfirst & Hbody).
    apply bind_normal_inv in Hbody. destruct Hbody as (sd & target & Htarget & _).
    unfold lift in Hfirst, Htarget.
    injection Hfirst as _ Hfirst. injection Htarget as _ Htarget.
    exists first. split; [exact Hfirst | now exists target].
Qed.

Lemma recommend_succeeds (analysis : AnalysisProfile) :
  succeeds (recommend analysis).
Proof.
  unfold recommend. cbv zeta. repeat succeeds_step.
  match goal with
  | H : truthy ?v = true |- succeeds (lift (objectKeys ?v)) =>
      destruct (truthy_objectKeys v H) as [keys Hk];
      exact (succeeds_lift _ keys Hk)
  end.
Qed.

Lemma reportRecommendations_succeeds (analysis : AnalysisProfile) :
  succeeds (reportRecommendations analysis).
Proof.
  unfold reportRecommendations.
  do 4 (apply succeeds_bind; [apply succeeds_modify | intros _]).
  intros lines.
  destruct (succeeds_run _ [] (recommend_succeeds analysis)) as [recs Hr].
  rewrite Hr.
  assert (Hs : succeeds
                 (forOf recs push ;;
                  when (List.length recs =? 0)%nat
                    (push "- No specific recommendations at this time.") ;;
                  push "" ;; push "---" ;; push "" ;;
                  push "*Run `npx agents-analyze` again after making changes to update this report.*"))
    by (repeat succeeds_step).
  apply Hs.
Qed.

Lemma reportBody_succeeds (analysis : AnalysisProfile) :
  reportable analysis -> succeeds (reportBody analysis).
Proof.
  intros H. unfold reportBody.
  apply succeeds_bind; [apply reportOverview_succeeds, H | intros _].
  apply succeeds_bind;
    [unfold reportTechStack; cbv zeta; repeat succeeds_step | intros _].
  apply succeeds_bind; [unfold reportStructure; repeat succeeds_step | intros _].
  apply succeeds_bind; [unfold reportConventions; repeat succeeds_step | intros _].
  apply succeeds_bind; [apply reportTsConfig_succeeds, H | intros _].
  apply succeeds_bind; [unfold reportSetup; repeat succeeds_step | intros _].
  apply succeeds_bind; [unfold reportAgents; repeat succeeds_step | intros _].
  apply reportRecommendations_succeeds.
Qed.

(** X21: the full report is returned exactly for the profiles whose
    package name can be printed and whose TypeScript configuration, when
    there is one, has a base URL that can be printed, path aliases that
    are neither [null] nor [undefined], and for each alias a value with a
    first element that can be printed. On every other profile the
    renderer throws. A value can be printed when its conversion to a
    string returns on the engine, whose stack holds [stackDepth] nested
    arrays: a name that is an array nested deeper makes the renderer
    throw a [RangeError]. *)
Theorem full_report_returns (now : string) (analysis : AnalysisProfile) :
  (exists text, generateAnalysisReport now analysis = Normal text)
  <-> reportable analysis.
Proof.
  unfold generateAnalysisReport. split.
  - intros [text Hgen].
    destruct (reportLines now analysis []) as [lines [[]|e]] eqn:Hrun;
      [clear Hgen | discriminate Hgen].
    unfold reportLines in Hrun. rewrite !bind_push in Hrun.
    unfold reportBody in Hrun.
    apply bind_normal_inv in Hrun. destruct Hrun as (s1 & [] & Hoverview & Hrun).
    apply bind_normal_inv in Hrun. destruct Hrun as (s2 & [] & _ & Hrun).
    apply bind_normal_inv in Hrun. destruct Hrun as (s3 & [] & _ & Hrun).
    apply bind_normal_inv in Hrun. destruct Hrun as (s4 & [] & _ & Hrun).
    apply bind_normal_inv in Hrun. destruct Hrun as (s5 & [] & Hts & _).
    split; [exact (reportOverview_inv _ _ _ Hoverview)|].
    intros ts Hsome. exact (reportTsConfig_inv _ _ _ _ Hsome Hts).
  - intros H.
    assert (Hs : succeeds (reportLines now analysis)).
    { unfold reportLines.
      do 4 (apply succeeds_bind; [apply succeeds_modify | intros _]).
      apply reportBody_succeeds, H. }
    destruct (succeeds_run _ [] Hs) as [lines Hrun]. rewrite Hrun.
    eexists. reflexivity.
Qed.

(* ------------------------------------------------------------------- *)
(** ** The condensed summary *)

Lemma contextIdentity_succeeds (analysis : AnalysisProfile) :
  printable (name number (packageJson number analysis)) ->
  succeeds (contextIdentity analysis).
Proof.
  intros Hn. unfold contextIdentity. cbv zeta.
  do 2 (apply succeeds_bind; [apply succeeds_modify | intros _]).
  apply succeeds_bind;
    [exact (print_succeeds _ (fun n => "- **Name:** " ++ n) Hn) | intros _].
  repeat succeeds_step.
Qed.

Lemma contextIdentity_inv (analysis : AnalysisProfile) (s s' : list string) :
  contextIdentity analysis s = (s', Normal tt) ->
  printable (name number (packageJson number analysis)).
Proof.
  unfold contextIdentity. cbv zeta. rewrite !bind_push. intros H.
  apply bind_normal_inv in H. destruct H as (s1 & [] & H & _).
  exact (print_inv _ (fun n => "- **Name:** " ++ n) _ _ H).
Qed.

Lemma contextStandards_succeeds (analysis : AnalysisProfile) :
  succeeds (contextStandards analysis).
Proof.
  unfold contextStandards. repeat succeeds_step.
  match goal with
  | H : truthy ?v = true |- succeeds (lift (objectKeys ?v)) =>
      destruct (truthy_objectKeys v H) as [keys Hk];
      exact (succeeds_lift _ keys Hk)
  end.
Qed.

Lemma contextScripts_succeeds (analysis : AnalysisProfile) :
  summarizable analysis -> succeeds (contextScripts analysis).
Proof.
  intros [_ Hs]. unfold contextScripts. cbv zeta.
  apply succeeds_when. intros Ht.
  destruct (truthy_objectKeys _ Ht) as [keys Hk].
  eapply succeeds_bind_lift; [exact Hk|].
  apply succeeds_when. intros _.
  do 2 (apply succeeds_bind; [apply succeeds_modify | intros _]).
  apply succeeds_bind; [|intros _; apply succeeds_modify].
  apply succeeds_forOf. intros script Hin.
  eapply succeeds_bind_lift; [apply truthy_getProp, Ht|].
  exact (print_succeeds _ (fun c => "- `npm run " ++ script ++ "` - " ++ c)
           (Hs script Hin)).
Qed.

Lemma contextScripts_inv (analysis : AnalysisProfile) (s s' : list string) :
  contextScripts analysis s = (s', Normal tt) ->
  forall script, In script importantScripts ->
    printable (getPropOpt (scripts number (packageJson number analysis)) script).
Proof.
  unfold contextScripts. cbv zeta. intros H script Hin.
  destruct (truthy (scripts number (packageJson number analysis))) eqn:Ht;
    [|apply getPropOpt_falsy, Ht].
  unfold when at 1 in H.
  apply bind_normal_inv in H. destruct H as (s1 & keys & Hk & H).
  unfold lift in Hk. injection Hk as _ Hk.
  destruct (objectKeys_entries _ _ Hk) as [Hkeys _].
  destruct keys as [|key keys].
  - apply getPropOpt_no_entries.
    destruct (ownEntries _); [reflexivity | discriminate Hkeys].
  - unfold when at 1 in H. cbn [List.length Nat.ltb Nat.leb] in H.
    rewrite !bind_push in H.
    apply bind_normal_inv in H. destruct H as (s2 & [] & Hfor & _).
    destruct (forOf_normal_inv _ _ _ _ Hfor script Hin) as (sa & sb & Hbody).
    apply bind_normal_inv in Hbody. destruct Hbody as (sc & command & Hc & Hbody).
    unfold lift in Hc. rewrite (truthy_getProp _ script Ht) in Hc.
    injection Hc as _ <-.
    exact (print_inv _ (fun c => "- `npm run " ++ script ++ "` - " ++ c) _ _ Hbody).
Qed.

(** X22: the condensed summary is returned exactly for the profiles
    whose package name and whose commands of the six scripts it lists
    ([dev], [build], [start], [test], [lint], [format]) can be printed;
    on every other profile the renderer throws, as on a name that is an
    array nested deeper than the stack of the engine holds. The
    TypeScript configuration cannot make it throw. *)
Theorem summary_returns (analysis : AnalysisProfile) :
  (exists text, generateProjectContext analysis = Normal text)
  <-> summarizable analysis.
Proof.
  unfold generateProjectContext. split.
  - intros [text Hgen].
    destruct (contextLines analysis []) as [lines [[]|e]] eqn:Hrun;
      [clear Hgen | discriminate Hgen].
    unfold contextLines in Hrun.
    apply bind_normal_inv in Hrun. destruct Hrun as (s1 & [] & _ & Hrun).
    apply bind_normal_inv in Hrun. destruct Hrun as (s2 & [] & Hidentity & Hrun).
    apply bind_normal_inv in Hrun. destruct Hrun as (s3 & [] & _ & Hrun).
    apply bind_normal_inv in Hrun. destruct Hrun as (s4 & [] & _ & Hrun).
    apply bind_normal_inv in Hrun. destruct Hrun as (s5 & [] & _ & Hrun).
    apply bind_normal_inv in Hrun. destruct Hrun as (s6 & [] & Hscripts & _).
    split; [exact (contextIdentity_inv _ _ _ Hidentity)|].
    exact (contextScripts_inv _ _ _ Hscripts).
  - intros H.
    assert (Hs : succeeds (contextLines analysis)).
    { unfold contextLines.
      apply succeeds_bind; [unfold contextHeader; repeat succeeds_step | intros _].
      apply succeeds_bind; [apply contextIdentity_succeeds, H | intros _].
      apply succeeds_bind;
        [unfold contextStack; cbv zeta; repeat succeeds_step | intros _].
      apply succeeds_bind;
        [unfold contextOrganization; repeat succeeds_step | intros _].
      apply succeeds_bind; [apply contextStandards_succeeds | intros _].
      apply succeeds_bind; [apply contextScripts_succeeds, H | intros _].
      unfold contextPatterns. repeat succeeds_step. }
    destruct (succeeds_run _ [] Hs) as [lines Hrun]. rewrite Hrun.
    eexists. reflexivity.
Qed.

End RendererReturns.

(* ===================================================================== *)
(** * agents-init and the verifier *)
(* ===================================================================== *)

Section InitProperties.

Variable number : Type.
Variable number_truthy : number -> bool.
Variable number_toString : number -> string.
Variable stackDepth : nat.
Variable JSON_parse : string -> completion (value number).

Local Abbreviation value := (value number).
Local Abbreviation AnalysisProfile := (AnalysisProfile number).
Local Abbreviation has := (has number number_truthy).
Local Abbreviation inspectInitManifest := (inspectInitManifest number number_truthy JSON_parse).
Local Abbreviation detectStatements := (detectStatements number number_truthy JSON_parse).
Local Abbreviation detectExistingConfig :=
  (detectExistingConfig number number_truthy JSON_parse).
Local Abbreviation detectInitFramework := (detectInitFramework number number_truthy).
Local Abbreviation generateProjectConfig := (generateProjectConfig number).
Local Abbreviation initFrameworkRules := (initFrameworkRules number number_truthy).
Local Abbreviation shadowedBy := (shadowedBy number number_truthy).
Local Abbreviation analyzePackageJson :=
  (analyzePackageJson number number_truthy number_toString stackDepth JSON_parse).
Local Abbreviation verifyFramework := (verifyFramework number number_truthy number_toString stackDepth).
Local Abbreviation verifyProjectConfig :=
  (verifyProjectConfig number number_truthy number_toString stackDepth).

Lemma succeeds_try_catch {S} (body : M S unit) :
  succeeds (try_catch body (fun _ => ret tt)).
Proof.
  intros s. exists tt. apply try_catch_swallow.
Qed.

Lemma keeps_try_catch {S B} (proj : S -> B) (body : M S unit) :
  keeps proj body -> keeps proj (try_catch body (fun _ => ret tt)).
Proof.
  intros H s. unfold try_catch. specialize (H s).
  destruct (body s) as [s' [u|e]]; exact H.
Qed.

(** The loop over [AGENTS]: the keys whose file exists are added, in
    their order. *)
Lemma detectAgents_run (fs : filesystem) (projectDir : string) :
  forall keys d,
    forOf keys (fun key =>
      when (existsSync fs (Path.join2 projectDir (agent_file (AGENTS key))))
        (modify (push_detected_agent key))) d =
    (mkDetected
       (detected_agents d ++
        filter (fun key => existsSync fs (Path.join2 projectDir (agent_file (AGENTS key))))
               keys)
       (detected_framework d) (detected_styling d) (detected_database d)
       (detected_gemini d) (detected_storybook d) (detected_threejs d)
       (detected_hasAgentsFolder d),
     Normal tt).
Proof.
  induction keys as [|k keys IH]; intros d; simpl.
  - rewrite app_nil_r. destruct d; reflexivity.
  - unfold bind at 1.
    destruct (existsSync fs (Path.join2 projectDir (agent_file (AGENTS k)))); simpl.
    + rewrite IH. simpl. rewrite <- app_assoc. reflexivity.
    + rewrite IH. reflexivity.
Qed.

Lemma inspectInitManifest_keeps {B} (proj : Detected -> B)
      (fs : filesystem) (pkgPath : string) :
  (forall v d, proj (set_detected_framework v d) = proj d) ->
  (forall v d, proj (set_detected_styling v d) = proj d) ->
  (forall v d, proj (set_detected_database v d) = proj d) ->
  (forall v d, proj (set_detected_gemini v d) = proj d) ->
  (forall v d, proj (set_detected_storybook v d) = proj d) ->
  (forall v d, proj (set_detected_threejs v d) = proj d) ->
  keeps proj (inspectInitManifest fs pkgPath).
Proof.
  intros H1 H2 H3 H4 H5 H6.
  unfold inspectInitManifest, detectInitFramework, detectInitStyling,
    detectInitDatabase, detectInitFeatures.
  repeat first
    [ apply keeps_ret
    | apply keeps_lift
    | apply keeps_when
    | apply keeps_bind; [|intros ?]
    | match goal with
      | |- keeps _ (modify _) => intros ?; unfold modify; simpl; auto
      | |- keeps _ (if ?c then _ else _) => destruct c
      | |- keeps _ (let _ := _ in _) => cbv zeta
      end ].
Qed.

Lemma detectStatements_succeeds (fs : filesystem) (projectDir : string) :
  succeeds (detectStatements fs projectDir).
Proof.
  unfold detectStatements. cbv zeta.
  repeat first
    [ apply succeeds_try_catch
    | apply succeeds_modify
    | apply succeeds_when; intros ?
    | apply succeeds_forOf; intros ? ?
    | apply succeeds_bind; [|intros ?] ].
Qed.

Lemma detectExistingConfig_run (fs : filesystem) (projectDir : string) :
  detectExistingConfig fs projectDir =
  Normal (fst (detectStatements fs projectDir initialDetected)).
Proof.
  unfold detectExistingConfig.
  destruct (succeeds_run _ initialDetected (detectStatements_succeeds fs projectDir))
    as [d Hd].
  rewrite Hd. reflexivity.
Qed.

Lemma fst_try_catch {S} (body : M S unit) (s : S) :
  fst (try_catch body (fun _ => ret tt) s) = fst (body s).
Proof. unfold try_catch. destruct (body s) as [s' [u|e]]; reflexivity. Qed.

(** The framework cascade of agents-init sets the key of the first
    rule that matches. *)
Lemma detectInitFramework_firstMatch (deps : list (string * value)) (d : Detected) :
  detected_framework d = None ->
  detected_framework (fst (detectInitFramework deps d)) =
  firstMatch (initFrameworkRules deps).
Proof.
  intros Hd. unfold detectInitFramework, initFrameworkRules, firstMatch.
  destruct (has deps "next"); [reflexivity|].
  destruct (has deps "remix" || has deps "@remix-run/react"); [reflexivity|].
  destruct (has deps "astro"); [reflexivity|].
  destruct (has deps "react"); [reflexivity | exact Hd].
Qed.

(** What agents-init detects as the framework of a project whose
    manifest parses to a value other than [null]. *)
Lemma detectStatements_framework
      (fs : filesystem) (projectDir content : string) (pkg : value) :
  existsSync fs (Path.join2 projectDir "package.json") = true ->
  readFileSync fs (Path.join2 projectDir "package.json") = Normal content ->
  JSON_parse content = Normal pkg ->
  pkg <> VNull -> pkg <> VUndefined ->
  detected_framework (fst (detectStatements fs projectDir initialDetected)) =
  firstMatch (initFrameworkRules (depsOf number pkg)).
Proof.
  intros Hex Hread Hparse Hn Hu.
  unfold detectStatements. cbv zeta.
  rewrite (bind_run _ _ _ _ _ (detectAgents_run fs projectDir agentKeys initialDetected)).
  assert (G : forall d,
             detected_framework d = None ->
             detected_framework
               (fst ((when (existsSync fs (Path.join2 projectDir "package.json"))
                        (try_catch
                           (inspectInitManifest fs (Path.join2 projectDir "package.json"))
                           (fun _ => ret tt)) ;;
                      when (existsSync fs (Path.join2 projectDir ".gemini"))
                        (modify (set_detected_gemini true))) d)) =
             firstMatch (initFrameworkRules (depsOf number pkg))).
  { intros d Hd.
    rewrite keeps_after
      by (intros; apply keeps_when; intros ?; reflexivity).
    rewrite Hex. unfold when. rewrite fst_try_catch.
    unfold inspectInitManifest.
    unfold bind at 1 2 3 4. unfold lift at 1 2. rewrite Hread, Hparse.
    rewrite !(getProp_defined number pkg _ Hn Hu). unfold lift. cbv zeta.
    fold (depsOf number pkg).
    rewrite keeps_after.
    - apply detectInitFramework_firstMatch, Hd.
    - intros. unfold detectInitStyling, detectInitDatabase, detectInitFeatures.
      keeps_tac. }
  destruct (existsSync fs (Path.join2 projectDir ".agents"));
    unfold bind at 1; unfold when at 1; apply G; reflexivity.
Qed.

(** The framework the engine detects for such a manifest, also when a
    later statement of the inspector throws. *)
Lemma analyzePackageJson_framework
      (fs : filesystem) (projectDir content : string) (pkg : value) :
  existsSync fs (Path.join2 projectDir "package.json") = true ->
  readFileSync fs (Path.join2 projectDir "package.json") = Normal content ->
  JSON_parse content = Normal pkg ->
  pkg <> VNull -> pkg <> VUndefined ->
  exists stack,
    analyzePackageJson fs projectDir = Normal stack
    /\ framework number stack =
       firstMatch (frameworkRules number number_truthy (depsOf number pkg)).
Proof.
  intros Hex Hread Hparse Hn Hu.
  unfold analyzePackageJson. rewrite Hex. simpl.
  pose proof (try_catch_swallow
                (inspectManifest number number_truthy number_toString stackDepth JSON_parse fs
                   (Path.join2 projectDir "package.json"))
                (initialAnalysis number)) as Hs.
  pose proof (fst_try_catch
                (inspectManifest number number_truthy number_toString stackDepth JSON_parse fs
                   (Path.join2 projectDir "package.json"))
                (initialAnalysis number)) as Hf.
  destruct (try_catch _ _ _) as [a c]. simpl in Hs, Hf. subst c a.
  eexists. split; [reflexivity|].
  unfold inspectManifest. unfold bind at 1 2. unfold lift at 1 2.
  rewrite Hread, Hparse.
  apply inspectPackage_framework; assumption.
Qed.

Lemma detectAgentConfigs_keys
      (fs : filesystem) (statSize : string -> completion N) (projectDir : string) :
  map fst (detectAgentConfigs fs statSize projectDir) =
  filter (fun key => existsSync fs (Path.join2 projectDir (agent_file (AGENTS key))))
         agentKeys.
Proof.
  unfold detectAgentConfigs. induction agentKeys as [|k keys IH]; simpl.
  - reflexivity.
  - rewrite map_app, IH.
    destruct (existsSync fs (Path.join2 projectDir (agent_file (AGENTS k))));
      [|reflexivity].
    destruct (readFileSync fs _) as [content|e];
      [destruct (statSize _) as [sz|e]|]; reflexivity.
Qed.

(** X23: agents-init's detection returns for every project directory,
    whatever the manifest holds, and it finds the agent files the engine
    finds, in the same order. *)
Theorem init_detection_never_raises
        (fs : filesystem) (statSize : string -> completion N) (projectDir : string) :
  exists detected,
    detectExistingConfig fs projectDir = Normal detected
    /\ detected_agents detected = map fst (detectAgentConfigs fs statSize projectDir)
    /\ detected_hasAgentsFolder detected = existsSync fs (Path.join2 projectDir ".agents").
Proof.
  rewrite detectExistingConfig_run. eexists. split; [reflexivity|].
  unfold detectStatements. cbv zeta.
  rewrite (bind_run _ _ _ _ _ (detectAgents_run fs projectDir agentKeys initialDetected)).
  split.
  - assert (K : keeps detected_agents
                  (when (existsSync fs (Path.join2 projectDir ".agents"))
                     (modify (set_detected_hasAgentsFolder true)) ;;
                   when (existsSync fs (Path.join2 projectDir "package.json"))
                     (try_catch
                        (inspectInitManifest fs (Path.join2 projectDir "package.json"))
                        (fun _ => ret tt)) ;;
                   when (existsSync fs (Path.join2 projectDir ".gemini"))
                     (modify (set_detected_gemini true)))).
    { apply keeps_bind; [apply keeps_when; intros ?; reflexivity | intros _].
      apply keeps_bind; [|intros _; apply keeps_when; intros ?; reflexivity].
      apply keeps_when, keeps_try_catch, inspectInitManifest_keeps; reflexivity. }
    rewrite K. simpl. symmetry. apply detectAgentConfigs_keys.
  - rewrite keeps_after.
    + destruct (existsSync fs (Path.join2 projectDir ".agents")); reflexivity.
    + intros _.
      apply keeps_bind; [|intros _; apply keeps_when; intros ?; reflexivity].
      apply keeps_when, keeps_try_catch, inspectInitManifest_keeps; reflexivity.
Qed.

(** X24: a configuration written by agents-init always gets the
    warning on its version from the verifier: agents-init writes
    version 1.0.0, the verifier expects 1.1.0. *)
Theorem fresh_config_version_warning
        (analysis : AnalysisProfile) (cwdBase : string) (config : InitConfig)
        (r : VerifyResult) :
  projectConfig number analysis = generateProjectConfig cwdBase config ->
  verifyProjectConfig analysis r =
  (mkVerify (issues r)
     (warnings r ++ ["Config version 1.0.0 - consider running agents-init to update"])
     (successes r ++ [".agents-project.json exists"]),
   Normal tt).
Proof.
  intros H. unfold verifyProjectConfig. cbv zeta. rewrite H. reflexivity.
Qed.

(** X25: the framework check on a project that agents-init configured
    from its own detection. For a manifest that parses to a value other
    than [null], when agents-init detects a framework and persists it,
    the verifier of the engine, run on the same manifest, warns of a
    mismatch exactly when agents-init detected [react] and the project
    also depends on nuxt, svelte or gatsby, which the engine looks for
    before react and agents-init does not look for. *)
Theorem init_framework_check
        (fs : filesystem) (projectDir content : string) (pkg : value) :
  let pkgPath := Path.join2 projectDir "package.json" in
  existsSync fs pkgPath = true ->
  readFileSync fs pkgPath = Normal content ->
  JSON_parse content = Normal pkg ->
  pkg <> VNull -> pkg <> VUndefined ->
  let deps := depsOf number pkg in
  exists detected stack,
    detectExistingConfig fs projectDir = Normal detected
    /\ detected_framework detected = firstMatch (initFrameworkRules deps)
    /\ analyzePackageJson fs projectDir = Normal stack
    /\ forall (analysis : AnalysisProfile) (cwdBase : string)
              (selectedAgents : list string)
              (frameworkAnswer stylingAnswer databaseAnswer : string)
              (confirmed : bool),
         detected_framework detected <> None ->
         packageJson number analysis = stack ->
         projectConfig number analysis =
           generateProjectConfig cwdBase
             (initConfig projectDir detected selectedAgents
                frameworkAnswer stylingAnswer databaseAnswer confirmed) ->
         verifyFramework analysis [] =
         (match (if isString (detected_framework detected) "react"
                 then shadowedBy deps else None) with
          | Some word =>
              ["Framework mismatch: config says 'react' but detected '" ++ word ++ "'"]
          | None => []
          end,
          Normal tt).
Proof.
  intros pkgPath Hex Hread Hparse Hn Hu deps.
  destruct (analyzePackageJson_framework fs projectDir content pkg
              Hex Hread Hparse Hn Hu) as (stack & Hstack & Hfw).
  exists (fst (detectStatements fs projectDir initialDetected)), stack.
  split; [apply detectExistingConfig_run|].
  pose proof (detectStatements_framework fs projectDir content pkg
                Hex Hread Hparse Hn Hu) as Hdet.
  fold deps in Hdet, Hfw.
  split; [exact Hdet|]. split; [exact Hstack|].
  intros analysis cwdBase selectedAgents frameworkAnswer stylingAnswer
         databaseAnswer confirmed Hsome Hpkg Hcfg.
  unfold verifyFramework, detectedFrameworkOf. rewrite Hcfg, Hpkg, Hfw.
  unfold initConfig, generateProjectConfig. cbn [config_framework].
  revert Hsome. rewrite Hdet.
  unfold initFrameworkRules, frameworkRules, shadowedBy, firstMatch.
  destruct (has deps "next"); [intros _; reflexivity|].
  destruct (has deps "remix" || has deps "@remix-run/react"); [intros _; reflexivity|].
  destruct (has deps "astro"); [intros _; reflexivity|].
  destruct (has deps "react"); [intros _ | intros Hsome; now contradiction Hsome].
  destruct (has deps "nuxt"); [reflexivity|].
  destruct (has deps "svelte" || has deps "@sveltejs/kit"); [reflexivity|].
  destruct (has deps "gatsby"); [reflexivity|].
  destruct (has deps "vite"); reflexivity.
Qed.

End InitProperties.

(* ===================================================================== *)
(** * The further properties at the example inputs *)
(* ===================================================================== *)

Lemma noOverflow_step (maxArgs : nat) (fs : filesystem) (remaining : nat)
      (dir : string) (entries : list dirent) :
  readdirSync fs dir = Normal entries ->
  (forall entry, In entry entries ->
     dirent_isDirectory entry = true ->
     ignoredDir (dirent_name entry) = false ->
     noOverflow maxArgs fs remaining (Path.join2 dir (dirent_name entry))
     /\ forall sub,
          scanLevels maxArgs fs remaining (Path.join2 dir (dirent_name entry))
          = Normal sub -> fits maxArgs sub) ->
  noOverflow maxArgs fs (S remaining) dir.
Proof.
  intros Hread Hentries. cbn [noOverflow]. rewrite Hread.
  intros entry Hin Hdir Hignored. exact (Hentries entry Hin Hdir Hignored).
Qed.

Lemma noOverflow_unreadable (maxArgs : nat) (fs : filesystem) (remaining : nat)
      (dir : string) (e : exn) :
  readdirSync fs dir = Throw e -> noOverflow maxArgs fs remaining dir.
Proof.
  intros Hread. destruct remaining; cbn [noOverflow]; [exact I|].
  rewrite Hread. exact I.
Qed.

Lemma softFailFs_noOverflow : noOverflow 1000 softFailFs 10 "/p".
Proof.
  apply (noOverflow_step 1000 softFailFs 9 "/p"
           [mkDirent "secret" true; mkDirent "a.ts" false;
            mkDirent "src" true; mkDirent ".git" true] eq_refl).
  intros entry [<- | [<- | [<- | [<- | []]]]] Hdir Hign;
    try (simpl in Hdir; discriminate Hdir);
    try (vm_compute in Hign; discriminate Hign).
  - split.
    + apply (noOverflow_unreadable 1000 softFailFs 9 "/p/secret" SystemError).
      reflexivity.
    + intros sub Hsub. vm_compute in Hsub. injection Hsub as <-.
      split; simpl; lia.
  - split.
    + apply (noOverflow_step 1000 softFailFs 8 "/p/src" [mkDirent "b.ts" false]
               eq_refl).
      intros inner [<- | []] Hinner. simpl in Hinner. discriminate Hinner.
    + intros sub Hsub. vm_compute in Hsub. injection Hsub as <-.
      split; simpl; lia.
Qed.

Lemma scanDirectory_counts_witness :
  exists results,
    scanDirectory 1000 softFailFs "/p" 10 0 = Normal results
    /\ totalDirs results = List.length (dirs results)
    /\ totalFiles results = List.length (files results).
Proof.
  eexists. split; [vm_compute; reflexivity|].
  edestruct (scanDirectory_counts 1000 softFailFs "/p" 10 0)
    as (Hd & _ & Hexact); [vm_compute; reflexivity|].
  split; [exact Hd|]. apply Hexact.
  change (10 - 0) with 10. exact softFailFs_noOverflow.
Defined.

(** The files of [/p/sub] are merged, the spread of its directories
    throws: one file listed, none counted. *)
Lemma scanDirectory_counts_below_list :
  scanDirectory 1 lopsidedFs "/p" 10 0
  = Normal (mkScan ["/p/sub/a.ts"] ["/p/sub"] 0 1).
Proof. vm_compute. reflexivity. Qed.

Lemma analyzeTypeScriptConfig_never_raises_witness :
  exists result,
    analyzeTypeScriptConfig nat natTruthy parseExample (tsconfigFs "{ strict }") "/p"
    = Normal result
    /\ result = Some (initialTsConfig nat).
Proof.
  destruct (analyzeTypeScriptConfig_never_raises nat natTruthy parseExample
              (tsconfigFs "{ strict }") "/p")
    as (result & Hrun & _ & _ & _ & Hbad).
  exists result. split; [exact Hrun|].
  apply (Hbad "{ strict }" SyntaxError); reflexivity.
Defined.

Lemma verification_issues_witness :
  exists result,
    verifyConfiguration nat natTruthy of_nat exampleStack softFailFs "/p"
      (exampleProfile "next" "Next.js") = Normal result
    /\ issues result = ["Missing .agents/ folder - run `npx agents-init` first"].
Proof.
  eexists. split; [vm_compute; reflexivity|].
  apply (verification_issues nat natTruthy of_nat exampleStack softFailFs "/p"
           (exampleProfile "next" "Next.js")).
  vm_compute. reflexivity.
Defined.

Lemma verifyAgents_known_agents_witness :
  verifyAgents nat natTruthy of_nat exampleStack agentsProfile noFindings =
  (mkVerify []
     ["Agent 'cursor' listed in config but no config file found"]
     ["Claude (Anthropic) config file exists"],
   Normal tt).
Proof.
  exact (verifyAgents_known_agents nat natTruthy of_nat exampleStack agentsProfile
           [claude; cursor] noFindings eq_refl).
Defined.

Lemma missing_config_fails_verification_witness :
  exists analysis result rest,
    mainAnalysis nat natTruthy of_nat exampleStack parseExample 1000 agentsOnlyFs
      (fun _ => Throw SystemError) "/p" None = Normal (Analysed nat analysis)
    /\ projectConfig nat analysis = VNull
    /\ verifyConfiguration nat natTruthy of_nat exampleStack agentsOnlyFs "/p" analysis
       = Normal result
    /\ issues result =
       "Missing .agents-project.json - run `npx agents-init` first" :: rest.
Proof.
  apply (missing_config_fails_verification nat natTruthy of_nat exampleStack
           parseExample 1000 agentsOnlyFs (fun _ => Throw SystemError) "/p" None).
  - reflexivity.
  - left. reflexivity.
Defined.

Lemma devDependencies_take_precedence_witness :
  lookup nat "react"
    (spread2 nat
       (VObject [("react", VString "18.2.0"); ("next", VString "14.0.0")])
       (VObject [("react", VString "19.0.0")]))
  = VString "19.0.0".
Proof.
  apply (devDependencies_take_precedence nat
           [("react", VString "18.2.0"); ("next", VString "14.0.0")]
           [("react", VString "19.0.0")] "react").
  - repeat constructor; simpl; intuition discriminate.
  - repeat constructor; simpl; intuition discriminate.
Defined.

Lemma wellformed_manifest_stack_witness :
  exists analysis,
    analyzePackageJson nat natTruthy of_nat exampleStack parseExample (manifestFs "next") "/p"
    = Normal analysis
    /\ framework nat analysis = Some "Next.js"
    /\ styling nat analysis = Some "Tailwind CSS"
    /\ database nat analysis = None.
Proof.
  destruct (wellformed_manifest_stack nat natTruthy of_nat exampleStack parseExample
              (manifestFs "next") "/p" "next" nextManifest
              eq_refl eq_refl eq_refl)
    as (analysis & Hrun & Hf & Hs & Hd & _);
    [discriminate | discriminate | reflexivity |].
  exists analysis. split; [exact Hrun|].
  split; [exact Hf|]. split; [exact Hs | exact Hd].
Defined.

Lemma wellformed_manifest_features_witness :
  exists analysis,
    analyzePackageJson nat natTruthy of_nat exampleStack parseExample (manifestFs "next") "/p"
    = Normal analysis
    /\ features nat analysis = []
    /\ keyDependencies nat analysis =
       ["next@14.0.0"; "react@18.2.0"; "tailwindcss@4.0.0"].
Proof.
  destruct (wellformed_manifest_features nat natTruthy of_nat exampleStack parseExample
              (manifestFs "next") "/p" "next" nextManifest
              eq_refl eq_refl eq_refl)
    as (analysis & Hrun & Hf & Hk);
    [discriminate | discriminate | reflexivity |].
  exists analysis. split; [exact Hrun|].
  split; [exact Hf | exact Hk].
Defined.

Lemma scanDirectory_lists_exactly_witness :
  exists results,
    scanDirectory 1000 softFailFs "/p" 10 0 = Normal results
    /\ In "/p/src/b.ts" (files results)
    /\ ~ In "/p/.git" (dirs results).
Proof.
  eexists. split; [vm_compute; reflexivity|].
  edestruct (scanDirectory_lists_exactly 1000 softFailFs "/p" 10 0)
    as (_ & _ & Hcomplete); [vm_compute; reflexivity|].
  change (10 - 0) with 10 in Hcomplete.
  destruct (Hcomplete softFailFs_noOverflow) as (Hfiles & _).
  split.
  - apply Hfiles. exists 1, "/p/src". split; [simpl; lia|]. split.
    + apply (reached_child softFailFs "/p" 0 "/p" _ (mkDirent "src" true)
               (reached_root _ _) eq_refl);
        [simpl; tauto | reflexivity | reflexivity].
    + exists [mkDirent "b.ts" false], (mkDirent "b.ts" false).
      split; [reflexivity|]. split; [now left|]. split; reflexivity.
  - intros Hin. vm_compute in Hin. intuition discriminate.
Defined.

Lemma full_report_returns_witness :
  exists text,
    generateAnalysisReport nat natTruthy of_nat exampleStack "2026-01-01T00:00:00.000Z"
      renderedProfile = Normal text.
Proof.
  apply (proj2 (full_report_returns nat natTruthy of_nat exampleStack
                  "2026-01-01T00:00:00.000Z" renderedProfile)).
  split.
  - now exists "demo".
  - intros ts H. injection H as <-.
    split; [now exists "."|]. split; [now exists ["@/*"]|].
    intros entry [<- | []]. exists (VString "./src/*").
    split; [reflexivity | now exists "./src/*"].
Defined.

Lemma summary_returns_witness :
  exists text,
    generateProjectContext nat natTruthy of_nat exampleStack renderedProfile
    = Normal text.
Proof.
  apply (proj2 (summary_returns nat natTruthy of_nat exampleStack renderedProfile)).
  split.
  - now exists "demo".
  - intros script [<- | [<- | [<- | [<- | [<- | [<- | []]]]]]];
      eexists; reflexivity.
Defined.

Lemma fresh_config_version_warning_witness :
  verifyProjectConfig nat natTruthy of_nat exampleStack
    (mkProfile nat emptyScan None None (initialAnalysis nat) None
       (generateProjectConfig nat "p"
          (mkInitConfig (Some "p") (Some ["claude"]) (Some "next") (Some "tailwind")
             (Some "none") false false false))
       [] None noKeyFiles)
    noFindings =
  (mkVerify []
     ["Config version 1.0.0 - consider running agents-init to update"]
     [".agents-project.json exists"],
   Normal tt).
Proof.
  exact (fresh_config_version_warning nat natTruthy of_nat exampleStack
           (mkProfile nat emptyScan None None (initialAnalysis nat) None
              (generateProjectConfig nat "p"
                 (mkInitConfig (Some "p") (Some ["claude"]) (Some "next")
                    (Some "tailwind") (Some "none") false false false))
              [] None noKeyFiles)
           "p"
           (mkInitConfig (Some "p") (Some ["claude"]) (Some "next")
              (Some "tailwind") (Some "none") false false false)
           noFindings eq_refl).
Defined.

Lemma init_framework_check_witness :
  exists detected stack,
    detectExistingConfig nat natTruthy parseGatsby (manifestFs "gatsby") "/p"
    = Normal detected
    /\ analyzePackageJson nat natTruthy of_nat exampleStack parseGatsby (manifestFs "gatsby") "/p"
       = Normal stack
    /\ verifyFramework nat natTruthy of_nat exampleStack
         (mkProfile nat emptyScan None None stack None
            (generateProjectConfig nat "p"
               (initConfig "/p" detected ["claude"] "next" "tailwind" "none" false))
            [] None noKeyFiles)
         []
       = (["Framework mismatch: config says 'react' but detected 'gatsby'"],
          Normal tt).
Proof.
  destruct (init_framework_check nat natTruthy of_nat exampleStack parseGatsby
              (manifestFs "gatsby") "/p" "gatsby" gatsbyManifest
              eq_refl eq_refl eq_refl)
    as (detected & stack & Hdetected & Hframework & Hstack & Hcheck);
    [discriminate | discriminate |].
  exists detected, stack. split; [exact Hdetected|]. split; [exact Hstack|].
  rewrite (Hcheck _ "p" ["claude"] "next" "tailwind" "none" false);
    [ rewrite Hframework; reflexivity
    | rewrite Hframework; discriminate
    | reflexivity
    | reflexivity ].
Defined.
